(** * Coral reef analysis: bleaching estimator, morphology classifier, species resolver

    Shallow embedding of [health_analyzer.py], [coral_database_advanced.py]
    and the analysis steps of [coral_ai_pro.py].

    Modelling conventions.
    - Python [float] and [int] results of arithmetic are exact rationals [Q];
      [np.pi] is the binary64 constant it denotes.  Comparisons are the
      boolean comparisons of [Q].  The interpreter rounds every operation to
      binary64, so its numbers can differ from these in the last place (an
      exact 4 can come out as 3.9999999999999996): the statements relate
      the returned values to one another, and a bound meant to hold for the
      rounded values as well is stated with a margin.
    - [uint8] channels, image sizes and bounding boxes are [Z].
    - Python [str] is [string] (ASCII); status labels keep the source bytes.
    - What OpenCV, scikit-learn and the file system compute is passed in as
      section variables ([imread], [findContours], [KMeans_cluster_centers],
      ...); the per-pixel HSV conversion and [colorsys.rgb_to_hsv] are
      written out, since the claims evaluate them.
    - A call either returns a value or raises: [outcome].  What the
      methods print is left out. *)

From Stdlib Require Import ZArith QArith Qround Qminmax List String Ascii Bool Lia Lqa.
From Stdlib Require Import Sorted Permutation.
Import ListNotations.

(** ** Python prelude *)

Module Py.

Inductive exn : Type :=
| ZeroDivisionError.

Inductive outcome (A : Type) : Type :=
| Returns (a : A)
| Raises (e : exn).

Arguments Returns {A} a.
Arguments Raises {A} e.

Definition Qltb (x y : Q) : bool := negb (Qle_bool y x).
Definition Qleb (x y : Q) : bool := Qle_bool x y.
Definition Qeqb (x y : Q) : bool := Qeq_bool x y.

(** [min(a, b)]: the first argument unless the second is strictly smaller. *)
Definition min (a b : Q) : Q := if Qltb b a then b else a.

(** [max(a, b)]: the first argument unless the second is strictly larger. *)
Definition max (a b : Q) : Q := if Qltb a b then b else a.

Definition min3 (a b c : Q) : Q := min (min a b) c.
Definition max3 (a b c : Q) : Q := max (max a b) c.

(** [x % 1.0] for a float [x]: the fractional part, in [0, 1). *)
Definition mod1 (x : Q) : Q := x - inject_Z (Qfloor x).

(** [ndarray.astype(int)] on one float: truncation toward zero. *)
Definition astype_int (x : Q) : Z := Z.quot (Qnum x) (Zpos (Qden x)).

(** [max(xs, key=key)] on a non-empty list [x :: xs]: the first element whose
    key is maximal. *)
Fixpoint max_key {A : Type} (key : A -> Q) (best : A) (xs : list A) : A :=
  match xs with
  | [] => best
  | x :: xs' => if Qltb (key best) (key x) then max_key key x xs'
                else max_key key best xs'
  end.

(** [str.lower()] on ASCII text. *)
Definition lower_ascii (c : ascii) : ascii :=
  let n := nat_of_ascii c in
  if (65 <=? n)%nat && (n <=? 90)%nat then ascii_of_nat (n + 32) else c.

Fixpoint lower (s : string) : string :=
  match s with
  | EmptyString => EmptyString
  | String c s' => String (lower_ascii c) (lower s')
  end.

(** [needle in hay] for two [str]. *)
Fixpoint startswith (needle hay : string) : bool :=
  match needle, hay with
  | EmptyString, _ => true
  | String _ _, EmptyString => false
  | String a n', String b h' => Ascii.eqb a b && startswith n' h'
  end.

Fixpoint str_in (needle hay : string) : bool :=
  startswith needle hay ||
  match hay with
  | EmptyString => false
  | String _ h' => str_in needle h'
  end.

End Py.

Import Py.

Open Scope Q_scope.
Open Scope string_scope.

(** ** health_analyzer.py *)

Module HealthAnalyzer.

(** A decoded colour image: [shape[:2] = (rows, cols)], pixels in row-major
    order, each pixel the three [uint8] channels in B, G, R order. *)
Definition bgr : Type := (Z * Z * Z)%type.
Definition rgb : Type := (Z * Z * Z)%type.

Record image : Type := {
  rows : Z;
  cols : Z;
  data : list bgr
}.

Definition uint8 (c : Z) : Prop := (0 <= c <= 255)%Z.

Definition pixel_ok (p : Z * Z * Z) : Prop :=
  let '(c0, c1, c2) := p in uint8 c0 /\ uint8 c1 /\ uint8 c2.

Definition pixel_okb (p : Z * Z * Z) : bool :=
  let '(c0, c1, c2) := p in
  ((0 <=? c0) && (c0 <=? 255) && (0 <=? c1) && (c1 <=? 255) &&
   (0 <=? c2) && (c2 <=? 255))%Z.

(** What [cv2.imread] hands back for a file that decodes. *)
Definition image_ok (img : image) : Prop :=
  (0 < rows img)%Z /\ (0 < cols img)%Z /\
  Z.of_nat (List.length (data img)) = (rows img * cols img)%Z /\
  Forall pixel_ok (data img).

(** *** OpenCV: 8-bit BGR to HSV and [inRange] *)

(** [cvRound]: round to nearest, ties to even. *)
Definition cvRound (x : Q) : Z :=
  let f := Qfloor x in
  let r := x - inject_Z f in
  if Qltb r (1#2) then f
  else if Qltb (1#2) r then (f + 1)%Z
  else if Z.even f then f else (f + 1)%Z.

Definition hsv_shift : Z := 12.

Definition sdiv_table (i : Z) : Z :=
  if (i =? 0)%Z then 0%Z
  else cvRound (inject_Z (Z.shiftl 255 hsv_shift) / inject_Z i).

Definition hdiv_table180 (i : Z) : Z :=
  if (i =? 0)%Z then 0%Z
  else cvRound (inject_Z (Z.shiftl 180 hsv_shift) / (6 * inject_Z i)).

Definition saturate_uchar (x : Z) : Z := Z.max 0 (Z.min 255 x).

(** [cv2.cvtColor(img, cv2.COLOR_BGR2HSV)] on one 8-bit pixel: hue in
    [0, 180), saturation and value in [0, 255]; the fixed-point form of
    [V = max], [S = 255 (V - min) / V], [H = 30 * sector offset]. *)
Definition BGR2HSV (p : bgr) : Z * Z * Z :=
  let '(b, g, r) := p in
  let v := Z.max (Z.max b g) r in
  let vmin := Z.min (Z.min b g) r in
  let diff := saturate_uchar (v - vmin) in
  let s := Z.shiftr (diff * sdiv_table v + Z.shiftl 1 (hsv_shift - 1)) hsv_shift in
  let h0 :=
    if (v =? r)%Z then (g - b)%Z
    else if (v =? g)%Z then (b - r + 2 * diff)%Z
    else (r - g + 4 * diff)%Z in
  let h1 := Z.shiftr (h0 * hdiv_table180 diff + Z.shiftl 1 (hsv_shift - 1)) hsv_shift in
  let h := if (h1 <? 0)%Z then (h1 + 180)%Z else h1 in
  (saturate_uchar h, s, v).

Definition BGR2RGB (p : bgr) : rgb :=
  let '(b, g, r) := p in (r, g, b).

(** [cv2.inRange(hsv, lower, upper)] on one pixel. *)
Definition inRange (p lower upper : Z * Z * Z) : bool :=
  let '(p0, p1, p2) := p in
  let '(l0, l1, l2) := lower in
  let '(u0, u1, u2) := upper in
  ((l0 <=? p0) && (p0 <=? u0) && (l1 <=? p1) && (p1 <=? u1) &&
   (l2 <=? p2) && (p2 <=? u2))%Z.

Definition lower_white : Z * Z * Z := (0, 0, 180)%Z.
Definition upper_white : Z * Z * Z := (180, 30, 255)%Z.

Definition white_mask (p : bgr) : bool :=
  inRange (BGR2HSV p) lower_white upper_white.

(** Method 1: [np.sum(white_mask > 0) / (h * w)]. *)
Definition white_pixels (img : image) : Z :=
  Z.of_nat (List.length (filter white_mask (data img))).

Definition total_pixels (img : image) : Z := (rows img * cols img)%Z.

Definition white_percentage (img : image) : Q :=
  inject_Z (white_pixels img) / inject_Z (total_pixels img).

(** *** colorsys.rgb_to_hsv *)

Definition rgb_to_hsv (r g b : Q) : Q * Q * Q :=
  let maxc := max3 r g b in
  let minc := min3 r g b in
  let rangec := maxc - minc in
  let v := maxc in
  if Qeqb minc maxc then (0, 0, v)
  else
    let s := rangec / maxc in
    let rc := (maxc - r) / rangec in
    let gc := (maxc - g) / rangec in
    let bc := (maxc - b) / rangec in
    let h :=
      if Qeqb r maxc then bc - gc
      else if Qeqb g maxc then 2 + rc - bc
      else 4 + gc - rc in
    (mod1 (h / 6), s, v).

Definition hsv_of_color (color : rgb) : Q * Q * Q :=
  let '(r, g, b) := color in
  rgb_to_hsv (inject_Z r / 255) (inject_Z g / 255) (inject_Z b / 255).

(** *** Status labels, as the source spells them *)

Definition SEVERELY_BLEACHED : string := "🚨 SEVERELY BLEACHED".
Definition MODERATELY_BLEACHED : string := "⚠️ MODERATELY BLEACHED".
Definition MILD_STRESS : string := "😟 MILD STRESS".
Definition WATCH : string := "👀 WATCH".
Definition HEALTHY : string := "✅ HEALTHY".
Definition UNKNOWN : string := "Unknown".

(** The five labels of the threshold chain. *)
Definition labels : list string :=
  [SEVERELY_BLEACHED; MODERATELY_BLEACHED; MILD_STRESS; WATCH; HEALTHY].

(** *** detect_bleaching *)

(** Method 2: mean saturation of the dominant colours.  The loop adds [s]
    of every colour to [color_diversity], then divides by [len(colors)]. *)
Definition saturation_sum (colors : list rgb) : Q :=
  fold_left (fun acc color => let '(_, s, _) := hsv_of_color color in acc + s)
            colors 0.

(** Method 3: the loop body that bumps [healthy_colors] or
    [unhealthy_colors]. *)
Definition is_healthy_hsv (h s v : Q) : bool :=
  (Qleb 0.05 h && Qleb h 0.2 && Qleb 0.3 s && Qleb s 0.8 && Qleb 0.3 v && Qleb v 0.7)
  || (Qleb 0.2 h && Qleb h 0.4 && Qleb 0.3 s && Qleb s 0.8 && Qleb 0.3 v && Qleb v 0.7).

Definition is_bleached_hsv (s v : Q) : bool :=
  Qltb s 0.3 && Qltb 0.7 v.

Definition count_colors (colors : list rgb) : Z * Z :=
  fold_left
    (fun (acc : Z * Z) color =>
       let '(healthy_colors, unhealthy_colors) := acc in
       let '(h, s, v) := hsv_of_color color in
       if is_healthy_hsv h s v then ((healthy_colors + 1)%Z, unhealthy_colors)
       else if is_bleached_hsv s v then (healthy_colors, (unhealthy_colors + 1)%Z)
       else (healthy_colors, unhealthy_colors))
    colors (0%Z, 0%Z).

Definition len {A : Type} (l : list A) : Z := Z.of_nat (List.length l).

Definition color_diversity (colors : list rgb) : Q :=
  saturation_sum colors / inject_Z (len colors).

Definition healthy_color_ratio (colors : list rgb) : Q :=
  if (0 <? len colors)%Z
  then inject_Z (fst (count_colors colors)) / inject_Z (len colors)
  else 0.

(** "Combine metrics for final decision". *)
Definition bleaching_score (white_percentage color_diversity healthy_color_ratio : Q) : Q :=
  white_percentage * 0.6 + (1 - color_diversity) * 0.2 + (1 - healthy_color_ratio) * 0.2.

(** "Determine health status": the [if]/[elif] chain, giving the label and
    the confidence before the final clamp. *)
Definition health_status_of (bleaching_percentage : Q) : string * Q :=
  if Qltb 40 bleaching_percentage then
    (SEVERELY_BLEACHED, Py.min bleaching_percentage 95)
  else if Qltb 20 bleaching_percentage then
    (MODERATELY_BLEACHED, 75 + (bleaching_percentage - 20))
  else if Qltb 10 bleaching_percentage then
    (MILD_STRESS, 65 + (bleaching_percentage - 10))
  else if Qltb 5 bleaching_percentage then
    (WATCH, 60)
  else
    (HEALTHY, 95 - bleaching_percentage).

(** "Ensure confidence is reasonable". *)
Definition clamp_confidence (confidence : Q) : Q :=
  Py.max 30 (Py.min 95 confidence).

Section Analyzer.

(** [cv2.imread(path)]: [None] when the file cannot be decoded. *)
Variable imread : string -> option image.

(** [KMeans(n_clusters=5, n_init=10, random_state=42).fit(X).cluster_centers_]
    for the sample [X]. *)
Variable KMeans_cluster_centers : list rgb -> list (Q * Q * Q).

(** [pixels[:5000]] of the RGB image. *)
Definition sample (img : image) : list rgb :=
  firstn 5000 (map BGR2RGB (data img)).

(** [kmeans.cluster_centers_.astype(int)]. *)
Definition dominant_colors (img : image) : list rgb :=
  map (fun c : Q * Q * Q =>
         let '(r, g, b) := c in (astype_int r, astype_int g, astype_int b))
      (KMeans_cluster_centers (sample img)).

Definition bleaching_score_of (img : image) : Q :=
  let colors := dominant_colors img in
  bleaching_score (white_percentage img) (color_diversity colors)
                  (healthy_color_ratio colors).

Definition detect_bleaching (image_path : string) : outcome (Q * string * Q) :=
  match imread image_path with
  | None => Returns (0, UNKNOWN, 0)
  | Some img =>
      let colors := dominant_colors img in
      match colors with
      | [] => Raises ZeroDivisionError
      | _ :: _ =>
          let bleaching_score := bleaching_score_of img in
          let bleaching_percentage := bleaching_score * 100 in
          let '(health_status, confidence) := health_status_of bleaching_percentage in
          let confidence := clamp_confidence confidence in
          Returns (bleaching_percentage, health_status, confidence)
      end
  end.

(** What a fitted model provides for [img]: [n_clusters = 5] centres, each
    the mean of [uint8] samples, so a channel in [0, 255] once cast to
    [int]. *)
Definition clusters_ok (img : image) : Prop :=
  List.length (KMeans_cluster_centers (sample img)) = 5%nat /\
  Forall pixel_ok (dominant_colors img).

End Analyzer.

(** *** analyze_morphology *)

(** [np.pi], the binary64 number nearest to pi. *)
Definition np_pi : Q := 884279719003555 # 281474976710656.

(** "Circularity (1 = perfect circle)". *)
Definition circularity_of (area perimeter : Q) : Q :=
  if Qltb 0 perimeter then 4 * np_pi * area / (perimeter * perimeter) else 0.

(** [w / h if h > 0 else 0]. *)
Definition aspect_ratio_of (w h : Z) : Q :=
  if (0 <? h)%Z then inject_Z w / inject_Z h else 0.

(** "Determine morphology". *)
Definition morphology_of (circularity aspect_ratio : Q) : string :=
  if Qltb circularity 0.3 then "Branching"
  else if Qltb circularity 0.6 then
    if Qltb 1.5 aspect_ratio || Qltb aspect_ratio 0.67 then "Plate/Table"
    else "Boulder"
  else "Encrusting".

(** The [features] dict: keys in insertion order; [{}] is the empty list. *)
Definition features_dict : Type := list (string * Q).

Fixpoint dict_get (d : features_dict) (k : string) : option Q :=
  match d with
  | [] => None
  | (k', v) :: d' => if String.eqb k k' then Some v else dict_get d' k
  end.

Section Morphology.

(** OpenCV's side: the decoded grayscale image, the Canny edge map, the
    contours found in it and their measurements. *)
Variables gray_image edge_map contour : Type.

(** [cv2.imread(path, 0)]: [None] when the file cannot be decoded. *)
Variable imread_gray : string -> option gray_image.
Variable Canny : gray_image -> Z -> Z -> edge_map.
(** [cv2.findContours(edges, RETR_EXTERNAL, CHAIN_APPROX_SIMPLE)[0]]. *)
Variable findContours : edge_map -> list contour.
Variable contourArea : contour -> Q.
Variable arcLength : contour -> bool -> Q.
(** [(x, y, w, h)]. *)
Variable boundingRect : contour -> Z * Z * Z * Z.

(** [max(contours, key=cv2.contourArea)] for the non-empty [c :: cs]. *)
Definition largest (c : contour) (cs : list contour) : contour :=
  max_key contourArea c cs.

Definition analyze_morphology (image_path : string)
  : outcome (string * features_dict) :=
  match imread_gray image_path with
  | None => Returns ("Unknown", [])
  | Some img =>
      let edges := Canny img 50 150 in
      let contours := findContours edges in
      match contours with
      | [] => Returns ("Unknown", [])
      | c :: cs =>
          let largest_contour := largest c cs in
          let area := contourArea largest_contour in
          let perimeter := arcLength largest_contour true in
          let circularity := circularity_of area perimeter in
          let '(_, _, w, h) := boundingRect largest_contour in
          let aspect_ratio := aspect_ratio_of w h in
          let morphology := morphology_of circularity aspect_ratio in
          let features :=
            [ ("circularity", circularity);
              ("aspect_ratio", aspect_ratio);
              ("area", area);
              ("contours_found", inject_Z (len contours)) ] in
          Returns (morphology, features)
      end
  end.

End Morphology.

Arguments largest {contour} contourArea c cs.
Arguments analyze_morphology {gray_image edge_map contour}
  imread_gray Canny findContours contourArea arcLength boundingRect image_path.

(** *** Vocabulary of the statements

    What follows is not in the source: predicates on inputs and results, and
    the rule as the specification words it. *)

(** The saturation [cv2.cvtColor] gives a pixel, on the scale of 0 to 255:
    the [S] the white mask compares with 30. *)
Definition saturation8 (p : bgr) : Z :=
  let '(_, s, _) := BGR2HSV p in s.

(** Its value [V], the largest channel. *)
Definition value8 (p : bgr) : Z :=
  let '(_, _, v) := BGR2HSV p in v.

(** Every pixel of [img] is [p]. *)
Definition uniform (p : bgr) (img : image) : Prop :=
  Forall (fun q => q = p) (data img).

(** The call returned this percentage, label and confidence, the two
    numbers up to equality of fractions. *)
Definition returned (o : outcome (Q * string * Q))
           (percentage : Q) (status : string) (confidence : Q) : Prop :=
  match o with
  | Returns (p, s, c) => p == percentage /\ s = status /\ c == confidence
  | Raises _ => False
  end.

(** The channel values [lo], [lo + 1], ..., [lo + n - 1]. *)
Definition channel_range (lo : Z) (n : nat) : list Z :=
  map (fun i => (lo + Z.of_nat i)%Z) (seq 0 n).

(** The entries [0 .. n - 1] of the two division tables are not negative,
    and [i * hdiv_table180 i] is [180 * 4096 / 6] up to the rounding of the
    entry. *)
Definition tables_in_range (n : nat) : bool :=
  forallb (fun i => ((0 <=? sdiv_table i) && (0 <=? hdiv_table180 i)
                     && (i * hdiv_table180 i <=? 123008))%Z)
          (channel_range 0 n).


(** The classification rule with the cut-offs the specification prints
    (0.3, 0.6, 1.5 and 0.667), to compare with [morphology_of]. *)
Definition morphology_rule_as_specified (circularity aspect_ratio : Q) : string :=
  if Qltb circularity 0.3 then "Branching"
  else if Qltb circularity 0.6 then
    if Qltb 1.5 aspect_ratio || Qltb aspect_ratio 0.667 then "Plate/Table"
    else "Boulder"
  else "Encrusting".

End HealthAnalyzer.

(** ** coral_database_advanced.py *)

Module CoralDatabase.

Inductive sql_value : Type :=
| SqlInt (n : Z)
| SqlText (s : string).

(** The ten columns [populate_coral_species] supplies for one species. *)
Record coral : Type := {
  common_name : string;
  scientific_name : string;
  family : string;
  genus : string;
  morphology : string;
  bleaching_resistance : string;
  conservation_status : string;
  color_patterns : string;
  typical_size_cm : Z;
  image_features : string
}.

(** A row of [coral_species]: the [INTEGER PRIMARY KEY] and the columns.
    The table is the list of its rows in key order, the order in which an
    unordered [SELECT] scans it; a table not created yet is the empty list. *)
Definition species_row : Type := (Z * coral)%type.

Record database : Type := {
  coral_species : list species_row
}.

(** Methods run against [self.conn]: they read and update the database. *)
Definition DB (A : Type) : Type := database -> A * database.

Definition ret {A : Type} (a : A) : DB A := fun d => (a, d).

Definition bind {A B : Type} (m : DB A) (k : A -> DB B) : DB B :=
  fun d => let '(a, d') := m d in k a d'.

Notation "x <- m ;; k" := (bind m (fun x => k))
  (at level 61, m at next level, right associativity).
Notation "m ;;; k" := (bind m (fun _ => k))
  (at level 61, right associativity).

(** [CREATE TABLE IF NOT EXISTS]: existing rows are kept. *)
Definition create_tables : DB unit := fun d => (tt, d).

Definition corals : list coral := [
  Build_coral "Staghorn Coral" "Acropora cervicornis" "Acroporidae" "Acropora"
              "Branching" "Low" "Critically Endangered" "Brown/Yellow" 300
              "Thick branches, antler-like";
  Build_coral "Elkhorn Coral" "Acropora palmata" "Acroporidae" "Acropora"
              "Branching" "Low" "Critically Endangered" "Golden brown" 350
              "Flat branches, elk antler shape";
  Build_coral "Table Coral" "Acropora hyacinthus" "Acroporidae" "Acropora"
              "Plate/Table" "Medium" "Vulnerable" "Blue/Purple" 200
              "Horizontal plates, tiered";
  Build_coral "Great Star Coral" "Montastraea cavernosa" "Merulinidae" "Montastraea"
              "Boulder" "Medium" "Vulnerable" "Green/Brown" 150
              "Massive, star-shaped polyps";
  Build_coral "Mustard Hill Coral" "Porites astreoides" "Poritidae" "Porites"
              "Boulder" "High" "Least Concern" "Yellow/Green" 100
              "Small mounds, mustard color";
  Build_coral "Brain Coral" "Diploria labyrinthiformis" "Merulinidae" "Diploria"
              "Boulder" "High" "Near Threatened" "Brown/Green" 180
              "Grooved like brain";
  Build_coral "Leaf Coral" "Pavona decussata" "Agariciidae" "Pavona"
              "Plate" "Medium" "Least Concern" "Cream/Brown" 120
              "Leaf-like plates";
  Build_coral "Flower Coral" "Mussa angulosa" "Faviidae" "Mussa"
              "Boulder" "Low" "Vulnerable" "Red/Orange" 80
              "Large fleshy polyps";
  Build_coral "Soft Coral" "Sinularia flexibilis" "Alcyoniidae" "Sinularia"
              "Soft" "Medium" "Data Deficient" "Various" 150
              "Flexible, tree-like"
].

(** [INSERT] without a key: the new key is one more than the largest. *)
Definition next_id (table : list species_row) : Z :=
  (fold_left (fun m (row : species_row) => Z.max m (fst row)) table 0 + 1)%Z.

Definition insert (table : list species_row) (c : coral) : list species_row :=
  table ++ [(next_id table, c)].

Definition executemany_insert (table : list species_row) (cs : list coral)
  : list species_row :=
  fold_left insert cs table.

(** [SELECT COUNT( * )], then the nine inserts when the table is empty. *)
Definition populate_coral_species : DB unit := fun d =>
  if (Z.of_nat (List.length (coral_species d)) =? 0)%Z
  then (tt, {| coral_species := executemany_insert (coral_species d) corals |})
  else (tt, d).

(** [__init__]: connect, [create_tables], [populate_coral_species]. *)
Definition init : DB unit :=
  create_tables ;;; populate_coral_species.

(** [SELECT * FROM coral_species WHERE morphology=tag LIMIT 1] and
    [fetchone()]. *)
Definition select_morphology (tag : string) : DB (option species_row) := fun d =>
  (find (fun row : species_row => String.eqb (morphology (snd row)) tag)
        (coral_species d), d).

(** [SELECT * FROM coral_species LIMIT 1] and [fetchone()]. *)
Definition select_first : DB (option species_row) := fun d =>
  (hd_error (coral_species d), d).

Definition keys : list string :=
  ["id"; "common_name"; "scientific_name"; "family"; "genus";
   "morphology"; "bleaching_resistance"; "conservation_status";
   "color_patterns"; "typical_size_cm"; "image_features"].

(** The tuple [fetchone()] yields for a row. *)
Definition row_tuple (row : species_row) : list sql_value :=
  let '(i, c) := row in
  [SqlInt i; SqlText (common_name c); SqlText (scientific_name c);
   SqlText (family c); SqlText (genus c); SqlText (morphology c);
   SqlText (bleaching_resistance c); SqlText (conservation_status c);
   SqlText (color_patterns c); SqlInt (typical_size_cm c);
   SqlText (image_features c)].

(** [dict(zip(keys, result))]. *)
Definition species_info (row : species_row) : list (string * sql_value) :=
  combine keys (row_tuple row).

Definition identify_coral (image_features : string)
  : DB (option (list (string * sql_value)) * Q) :=
  result <-
    (if str_in "branch" (lower image_features) then
       select_morphology "Branching"
     else if str_in "boulder" (lower image_features)
             || str_in "massive" (lower image_features) then
       select_morphology "Boulder"
     else if str_in "plate" (lower image_features)
             || str_in "table" (lower image_features) then
       select_morphology "Plate/Table"
     else
       select_first) ;;
  match result with
  | Some row =>
      let confidence := 85.5 in
      ret (Some (species_info row), confidence)
  | None => ret (None, 0)
  end.

(** [get_all_species]. *)
Definition get_all_species : DB (list species_row) := fun d =>
  (coral_species d, d).

(** A database file that does not exist yet, and the state [__init__]
    leaves it in. *)
Definition fresh : database := {| coral_species := [] |}.
Definition populated : database := snd (init fresh).

(** *** The resolver as the specification words it *)

(** [s] contains the keyword [kw] up to letter case. *)
Definition contains_ci (kw s : string) : Prop :=
  exists pre mid post, s = pre ++ mid ++ post /\ lower mid = kw.

(** [row] is the first row of [table] tagged [tag]. *)
Definition first_tagged (tag : string) (table : list species_row)
           (row : species_row) : Prop :=
  exists before after,
    table = (before ++ row :: after)%list /\
    morphology (snd row) = tag /\
    Forall (fun r : species_row => morphology (snd r) <> tag) before.

(** [row] is the first row of [table], whatever its tag. *)
Definition first_row (table : list species_row) (row : species_row) : Prop :=
  exists after, table = row :: after.

(** The record of [row] as the caller receives it: the key and the ten
    columns of the row, each under its column name. *)
Definition record (row : species_row) : list (string * sql_value) :=
  [ ("id", SqlInt (fst row));
    ("common_name", SqlText (common_name (snd row)));
    ("scientific_name", SqlText (scientific_name (snd row)));
    ("family", SqlText (family (snd row)));
    ("genus", SqlText (genus (snd row)));
    ("morphology", SqlText (morphology (snd row)));
    ("bleaching_resistance", SqlText (bleaching_resistance (snd row)));
    ("conservation_status", SqlText (conservation_status (snd row)));
    ("color_patterns", SqlText (color_patterns (snd row)));
    ("typical_size_cm", SqlInt (typical_size_cm (snd row)));
    ("image_features", SqlText (image_features (snd row))) ].

(** The answer for a selection [sel]: the record of its row with confidence
    85.5, or the null answer when [sel] selects nothing. *)
Definition answers (sel : species_row -> Prop)
           (result : option (list (string * sql_value)) * Q) : Prop :=
  (exists row, sel row /\ result = (Some (record row), 85.5)) \/
  ((forall row, ~ sel row) /\ result = (None, 0)).

End CoralDatabase.

(** ** Sample inputs *)

Module Samples.

Import HealthAnalyzer.

(** An image of [r] rows and [c] columns filled with one BGR pixel. *)
Definition solid (r c : nat) (p : bgr) : image :=
  {| rows := Z.of_nat r; cols := Z.of_nat c; data := repeat p (r * c) |}.

(** The two images the analyzer's own self-test builds:
    [healthy_img] (B = 50, G = 100, R = 150) and [bleached_img] (all 220). *)
Definition healthy_img : image := solid 200 300 (50, 100, 150)%Z.
Definition bleached_img : image := solid 200 300 (220, 220, 220)%Z.

(** A uniform pale yellow, RGB (255, 255, 220): every channel is at least
    220. *)
Definition pale_yellow_img : image := solid 2 3 (220, 255, 255)%Z.

(** A file system with one decodable file, and one with none. *)
Definition imread_one (name : string) (img : image) : string -> option image :=
  fun path => if String.eqb path name then Some img else None.

Definition imread_none : string -> option image := fun _ => None.

(** The centres a fitted k-means model reports when all its samples
    coincide: [n_clusters] copies of that one point. *)
Definition kmeans_same_point (X : list rgb) : list (Q * Q * Q) :=
  match X with
  | [] => []
  | (r, g, b) :: _ => repeat (inject_Z r, inject_Z g, inject_Z b) 5
  end.

(** Contours given by their measurements: area, closed perimeter and
    bounding rectangle. *)
Record measured : Type := {
  m_area : Q;
  m_perimeter : Q;
  m_rect : Z * Z * Z * Z
}.

Definition gray_one (name : string) (cs : list measured)
  : string -> option (list measured) :=
  fun path => if String.eqb path name then Some cs else None.

Definition canny_id (img : list measured) (lo hi : Z) : list measured := img.
Definition contours_id (edges : list measured) : list measured := edges.
Definition arc (c : measured) (closed : bool) : Q := m_perimeter c.

Definition analyze_measured (files : string -> option (list measured))
  : string -> outcome (string * features_dict) :=
  analyze_morphology files canny_id contours_id m_area arc m_rect.

(** An L-shaped outline inside a 69 by 103 box: area 4536, perimeter 340. *)
Definition l_shape : measured :=
  {| m_area := 4536; m_perimeter := 340; m_rect := (0, 0, 69, 103)%Z |}.

Definition square : measured :=
  {| m_area := 100; m_perimeter := 40; m_rect := (0, 0, 11, 11)%Z |}.

End Samples.

(** ** coral_database_advanced.py: the [analyses] table *)

Module AnalysisStore.

Import CoralDatabase.

(** A value held by the [analysis_data] dict: a [str]; a number SQLite can
    hold as it is, that is a [float], or an [int] read from the database;
    an [int] of any size; or the list of insight strings. *)
Inductive py_value : Type :=
| PyStr (s : string)
| PyNum (q : Q)
| PyInt (n : Z)
| PyList (l : list string).

(** The declared type of a column of [analyses], which fixes its
    affinity. *)
Inductive affinity : Type :=
| TEXT
| REAL.

(** A stored value.  Text in a [TEXT] column and a number in a [REAL] column
    are stored as they are.  A number put in a [TEXT] column is stored as
    the text SQLite makes of it ([CTextOfNumber]: 7 becomes '7'), and text
    put in a [REAL] column is stored as the number it spells when it spells
    one and as the text itself otherwise ([CNumericText]: '60' becomes
    60.0). *)
Inductive cell : Type :=
| CText (s : string)
| CReal (q : Q)
| CTextOfNumber (q : Q)
| CNumericText (s : string).

(** A row of [analyses]: [id INTEGER PRIMARY KEY AUTOINCREMENT] and the ten
    columns of the [INSERT]. *)
Record analysis_row : Type := {
  a_id : Z;
  a_filename : cell;
  a_timestamp : cell;
  a_predicted_species : cell;
  a_confidence : cell;
  a_health_status : cell;
  a_health_confidence : cell;
  a_bleaching_percentage : cell;
  a_family : cell;
  a_genus : cell;
  a_insights_json : string
}.

(** The database file: the species table, the rows of [analyses] in key
    order, and the largest key [analyses] ever used ([sqlite_sequence]). *)
Record store : Type := {
  species : database;
  analyses : list analysis_row;
  sequence : Z
}.

(** How a call on the store ends: with a value, with the [KeyError] of a
    missing dict key, with the error [sqlite3] raises for a value of a type
    that cannot be bound to a [?], or with the [OverflowError] it raises
    for an [int] that does not fit 64 bits. *)
Inductive ending (A : Type) : Type :=
| Done (a : A)
| KeyError (key : string)
| BindingError
| OverflowError.

Arguments Done {A} a.
Arguments KeyError {A} key.
Arguments BindingError {A}.
Arguments OverflowError {A}.

Definition dict : Type := list (string * py_value).

(** [analysis_data[key]]. *)
Fixpoint item (d : dict) (key : string) : option py_value :=
  match d with
  | [] => None
  | (k, v) :: d' => if String.eqb key k then Some v else item d' key
  end.

(** SQLite integers have 64 bits. *)
Definition fits_int64 (n : Z) : bool :=
  ((- 2 ^ 63 <=? n) && (n <? 2 ^ 63))%Z.

(** The REAL an integer becomes in a [REAL] column: the integer itself up
    to [2 ^ 53] in absolute value, and beyond that the nearest number with a
    53-bit significand, ties to even. *)
Definition real_of_int (n : Z) : Q :=
  let a := Z.abs n in
  if (a <=? 2 ^ 53)%Z then inject_Z n
  else
    let e := (Z.log2 a - 52)%Z in
    let m := (a / 2 ^ e)%Z in
    let r := (a mod 2 ^ e)%Z in
    let half := (2 ^ (e - 1))%Z in
    let m' :=
      if (r <? half)%Z then m
      else if (half <? r)%Z then (m + 1)%Z
      else if Z.even m then m else (m + 1)%Z in
    inject_Z (Z.sgn n * (m' * 2 ^ e)).

(** Binding a value to the [?] of a column: a list cannot be bound, an
    [int] must fit 64 bits, and the column's affinity decides what is
    stored. *)
Inductive binding : Type :=
| Bound (c : cell)
| Unsupported
| Overflow.

Definition bind_cell (column : affinity) (v : py_value) : binding :=
  match v with
  | PyStr s =>
      Bound match column with TEXT => CText s | REAL => CNumericText s end
  | PyNum q =>
      Bound match column with TEXT => CTextOfNumber q | REAL => CReal q end
  | PyInt n =>
      if fits_int64 n then
        Bound match column with
              | TEXT => CTextOfNumber (inject_Z n)
              | REAL => CReal (real_of_int n)
              end
      else Overflow
  | PyList _ => Unsupported
  end.

(** The nine columns filled from the dict before [insights_json], in the
    order of the [INSERT], with the types [create_tables] declares. *)
Definition columns : list (string * affinity) :=
  [("filename", TEXT); ("timestamp", TEXT); ("predicted_species", TEXT);
   ("confidence", REAL); ("health_status", TEXT); ("health_confidence", REAL);
   ("bleaching_percentage", REAL); ("family", TEXT); ("genus", TEXT)].

(** The nine keys read before ['insights'], in the order of the tuple. *)
Definition scalar_keys : list string :=
  ["filename"; "timestamp"; "predicted_species"; "confidence";
   "health_status"; "health_confidence"; "bleaching_percentage";
   "family"; "genus"].

(** Evaluating the tuple: every key is looked up, left to right; the first
    missing one raises. *)
Fixpoint items (d : dict) (ks : list string) : ending (list py_value) :=
  match ks with
  | [] => Done []
  | k :: ks' =>
      match item d k with
      | None => KeyError k
      | Some v =>
          match items d ks' with
          | Done vs => Done (v :: vs)
          | KeyError k' => KeyError k'
          | BindingError => BindingError
          | OverflowError => OverflowError
          end
      end
  end.

(** The parameters are bound left to right; the first one that cannot be
    bound raises. *)
Fixpoint bind_cells (cols : list affinity) (vs : list py_value)
  : ending (list cell) :=
  match cols, vs with
  | column :: cols', v :: vs' =>
      match bind_cell column v with
      | Bound c =>
          match bind_cells cols' vs' with
          | Done cs => Done (c :: cs)
          | KeyError k => KeyError k
          | BindingError => BindingError
          | OverflowError => OverflowError
          end
      | Unsupported => BindingError
      | Overflow => OverflowError
      end
  | _, _ => Done []
  end.

(** The key [AUTOINCREMENT] gives the next row: one more than the largest
    key in the table or ever used. *)
Definition largest_id (rows : list analysis_row) : Z :=
  fold_left (fun m row => Z.max m (a_id row)) rows 0%Z.

Definition new_id (s : store) : Z :=
  (Z.max (sequence s) (largest_id (analyses s)) + 1)%Z.

Section SaveAnalysis.

(** [json.dumps]. *)
Variable json_dumps : py_value -> string.

Definition save_analysis (analysis_data : dict) (s : store)
  : ending Z * store :=
  match items analysis_data scalar_keys with
  | KeyError k => (KeyError k, s)
  | BindingError => (BindingError, s)
  | OverflowError => (OverflowError, s)
  | Done vs =>
      match item analysis_data "insights" with
      | None => (KeyError "insights", s)
      | Some insights =>
          let insights_json := json_dumps insights in
          match bind_cells (map snd columns) vs with
          | Done [filename; timestamp; predicted_species; confidence;
                  health_status; health_confidence; bleaching_percentage;
                  family; genus] =>
              let lastrowid := new_id s in
              let row :=
                {| a_id := lastrowid;
                   a_filename := filename;
                   a_timestamp := timestamp;
                   a_predicted_species := predicted_species;
                   a_confidence := confidence;
                   a_health_status := health_status;
                   a_health_confidence := health_confidence;
                   a_bleaching_percentage := bleaching_percentage;
                   a_family := family;
                   a_genus := genus;
                   a_insights_json := insights_json |} in
              (Done lastrowid,
               {| species := species s;
                  analyses := analyses s ++ [row];
                  sequence := lastrowid |})
          | OverflowError => (OverflowError, s)
          | KeyError k => (KeyError k, s)
          | Done _ | BindingError => (BindingError, s)
          end
      end
  end.

End SaveAnalysis.

(** The species methods run on the species table of the store. *)
Definition on_species {A : Type} (m : DB A) (s : store) : A * store :=
  let '(a, d) := m (species s) in
  (a, {| species := d; analyses := analyses s; sequence := sequence s |}).





(** The first key of the tuple that [d] lacks. *)
Definition first_missing (d : dict) : option string :=
  find (fun k => match item d k with None => true | Some _ => false end)
       (scalar_keys ++ ["insights"]).

End AnalysisStore.

(** ** coral_ai_pro.py: the analysis steps *)

Module CoralAIPro.

Import HealthAnalyzer CoralDatabase AnalysisStore.

(** [f"{morphology.lower()} coral"]. *)
Definition image_features_of (morphology : string) : string :=
  lower morphology ++ " coral".

(** [species_info.get(key)] and [species_info.get(key, default)]. *)
Fixpoint get (species_info : list (string * sql_value)) (key : string)
  : option sql_value :=
  match species_info with
  | [] => None
  | (k, v) :: rest => if String.eqb key k then Some v else get rest key
  end.

Definition get_or (species_info : list (string * sql_value)) (key : string)
           (default : sql_value) : sql_value :=
  match get species_info key with
  | Some v => v
  | None => default
  end.

(** The 3D figure drawn for a morphology label, named by its title. *)
Definition model_title (morphology : string) : string :=
  if str_in "Branching" morphology then "3D Branching Coral Model"
  else if str_in "Boulder" morphology then "3D Boulder Coral Model"
  else if str_in "Plate" morphology || str_in "Table" morphology then
    "3D Plate Coral Model"
  else "3D Coral Model".

(** The class of the health card. *)
Definition card_class (health_status : string) : string :=
  if str_in "BLEACHED" health_status then "bleached-card" else "healthy-card".

(** The conservation notice: [st.error] "IMMEDIATE ACTION REQUIRED",
    [st.warning] "INCREASED VIGILANCE NEEDED" or [st.success]
    "HEALTHY - MAINTENANCE PHASE". *)
Inductive notice : Type :=
| st_error
| st_warning
| st_success.

Definition conservation_notice (health_status : string) : notice :=
  if str_in "BLEACHED" health_status then st_error
  else if str_in "STRESS" health_status || str_in "WATCH" health_status then
    st_warning
  else st_success.

(** ['High' if species_info.get('bleaching_resistance') == 'High' else
    'Medium-Low']. *)
Definition recovery_potential (species_info : list (string * sql_value))
  : string :=
  match get species_info "bleaching_resistance" with
  | Some (SqlText s) => if String.eqb s "High" then "High" else "Medium-Low"
  | _ => "Medium-Low"
  end.

(** What steps 2 to 4 compute for one upload. *)
Record analysis : Type := {
  r_morphology : string;
  r_features : features_dict;
  r_bleaching_percentage : Q;
  r_health_status : string;
  r_health_confidence : Q;
  r_species_info : option (list (string * sql_value));
  r_species_confidence : Q
}.

Definition py_of_sql (str_int : Z -> string) (v : sql_value) : string :=
  match v with
  | SqlText s => s
  | SqlInt n => str_int n
  end.

Definition value_of_sql (v : sql_value) : py_value :=
  match v with
  | SqlText s => PyStr s
  | SqlInt n => PyNum (inject_Z n)
  end.

Section App.

(** The analyzer's view of the files (see [HealthAnalyzer]). *)
Variable imread : string -> option image.
Variable KMeans_cluster_centers : list rgb -> list (Q * Q * Q).
Variables gray_image edge_map contour : Type.
Variable imread_gray : string -> option gray_image.
Variable Canny : gray_image -> Z -> Z -> edge_map.
Variable findContours : edge_map -> list contour.
Variable contourArea : contour -> Q.
Variable arcLength : contour -> bool -> Q.
Variable boundingRect : contour -> Z * Z * Z * Z.

(** [json.dumps], [str] of an [int] and the format [:.1f]. *)
Variable json_dumps : py_value -> string.
Variable str_int : Z -> string.
Variable format_1f : Q -> string.

(** Steps 2, 3 and 4 on the file at [upload_path]: morphology, health,
    species.  Step 1 only produces the enhanced picture that is displayed.
    An exception of a step is not caught.  In the app [upload_path] is the
    JPEG file written from the upload just before, see [analyze_upload]. *)
Definition run_analysis (upload_path : string) (s : store)
  : outcome analysis * store :=
  match analyze_morphology imread_gray Canny findContours contourArea
                           arcLength boundingRect upload_path with
  | Raises e => (Raises e, s)
  | Returns (morphology, features) =>
      match detect_bleaching imread KMeans_cluster_centers upload_path with
      | Raises e => (Raises e, s)
      | Returns (bleaching_percentage, health_status, health_confidence) =>
          let image_features := image_features_of morphology in
          let '((species_info, species_confidence), s') :=
            on_species (identify_coral image_features) s in
          (Returns {| r_morphology := morphology;
                      r_features := features;
                      r_bleaching_percentage := bleaching_percentage;
                      r_health_status := health_status;
                      r_health_confidence := health_confidence;
                      r_species_info := species_info;
                      r_species_confidence := species_confidence |},
           s')
      end
  end.

(** The [analysis_data] dict built before saving. *)
Definition analysis_data_of (filename timestamp : string) (a : analysis)
           (species_info : list (string * sql_value)) : dict :=
  [ ("filename", PyStr filename);
    ("timestamp", PyStr timestamp);
    ("predicted_species",
     value_of_sql (get_or species_info "common_name" (SqlText "Unknown")));
    ("confidence", PyNum (r_species_confidence a));
    ("health_status", PyStr (r_health_status a));
    ("health_confidence", PyNum (r_health_confidence a));
    ("bleaching_percentage", PyNum (r_bleaching_percentage a));
    ("family", value_of_sql (get_or species_info "family" (SqlText "Unknown")));
    ("genus", value_of_sql (get_or species_info "genus" (SqlText "Unknown")));
    ("insights",
     PyList
       [ "Morphology: " ++ r_morphology a;
         "Health: " ++ r_health_status a;
         "Bleaching: " ++ format_1f (r_bleaching_percentage a) ++ "%";
         "Species: "
           ++ py_of_sql str_int
                (get_or species_info "common_name" (SqlText "Unknown")) ]) ].

(** "Save to database": only when the box is ticked and a species was
    found; whatever [save_analysis] raises is caught. *)
Definition save_step (save_to_db : bool) (filename timestamp : string)
           (a : analysis) (s : store) : option (ending Z) * store :=
  if save_to_db then
    match r_species_info a with
    | Some species_info =>
        let '(e, s') :=
          save_analysis json_dumps
                        (analysis_data_of filename timestamp a species_info) s in
        (Some e, s')
    | None => (None, s)
    end
  else (None, s).

End App.

Arguments run_analysis imread KMeans_cluster_centers {gray_image edge_map contour}
  imread_gray Canny findContours contourArea arcLength boundingRect
  upload_path s.

(** *** The upload

    Before any step the app opens the upload with Pillow and writes it again
    as a JPEG file, [Image.open(uploaded_file)] and
    [img.save(tmp_file.name, format='JPEG', quality=95)]; [upload_path] is
    that file, and it is the file every step reads.  When Pillow raises, the
    upload not being an image it can write as JPEG, no step runs. *)

(** How the analysis of an upload ends: Pillow raised, a step raised, or the
    results are shown. *)
Inductive run : Type :=
| NotAnImage
| Stopped (e : exn)
| Shown (a : analysis).

Section Upload.

Variables upload jpeg : Type.

(** The JPEG file Pillow writes for the upload; [None] when it raises. *)
Variable reencode : upload -> option jpeg.

(** What [cv2.imread(path)] and [cv2.imread(path, 0)] decode from such a
    file. *)
Variable decode : jpeg -> image.
Variables gray_image edge_map contour : Type.
Variable decode_gray : jpeg -> gray_image.

Variable KMeans_cluster_centers : list rgb -> list (Q * Q * Q).
Variable Canny : gray_image -> Z -> Z -> edge_map.
Variable findContours : edge_map -> list contour.
Variable contourArea : contour -> Q.
Variable arcLength : contour -> bool -> Q.
Variable boundingRect : contour -> Z * Z * Z * Z.

Definition analyze_upload (uploaded_file : upload) (upload_path : string)
           (s : store) : run * store :=
  match reencode uploaded_file with
  | None => (NotAnImage, s)
  | Some file =>
      let imread := fun path =>
        if String.eqb path upload_path then Some (decode file) else None in
      let imread_gray := fun path =>
        if String.eqb path upload_path then Some (decode_gray file) else None in
      match run_analysis imread KMeans_cluster_centers imread_gray Canny
                         findContours contourArea arcLength boundingRect
                         upload_path s with
      | (Returns a, s') => (Shown a, s')
      | (Raises e, s') => (Stopped e, s')
      end
  end.

End Upload.

Arguments analyze_upload {upload jpeg} reencode decode {gray_image edge_map contour}
  decode_gray KMeans_cluster_centers Canny findContours contourArea arcLength
  boundingRect uploaded_file upload_path s.

(** The rows the app can show: label, species shown, tag of that species,
    3D figure.  The label is "Unknown" when no contour is found in the
    picture. *)
Definition shown : list (string * string * string * string) :=
  [ ("Branching", "Staghorn Coral", "Branching", "3D Branching Coral Model");
    ("Plate/Table", "Table Coral", "Plate/Table", "3D Plate Coral Model");
    ("Boulder", "Great Star Coral", "Boulder", "3D Boulder Coral Model");
    ("Encrusting", "Staghorn Coral", "Branching", "3D Coral Model");
    ("Unknown", "Staghorn Coral", "Branching", "3D Coral Model") ].

End CoralAIPro.

(** ** More sample inputs *)

Module MoreSamples.

Import HealthAnalyzer CoralDatabase AnalysisStore CoralAIPro Samples.

(** A uniform brown of saturation 0.775, RGB (160, 100, 36). *)
Definition saturated_brown_img : image := solid 2 3 (36, 100, 160)%Z.

(** Five white pixels out of six. *)
Definition mostly_white_img : image :=
  {| rows := 2; cols := 3;
     data := [(250, 250, 250); (250, 250, 250); (250, 250, 250);
              (250, 250, 250); (250, 250, 250); (20, 60, 120)]%Z |}.

(** One row of 5001 pixels: 5000 of one brown, then the pixel [last]. *)
Definition strip_img (last : bgr) : image :=
  {| rows := 1; cols := 5001;
     data := (repeat (40, 90, 150)%Z 5000 ++ [last])%list |}.

(** A k-means stand-in that looks at the first five samples only. *)
Definition kmeans_first_five (X : list rgb) : list (Q * Q * Q) :=
  map (fun c : rgb => let '(r, g, b) := c in (inject_Z r, inject_Z g, inject_Z b))
      (firstn 5 X).

(** An outline with no area: a curve traced there and back. *)
Definition hairline : measured :=
  {| m_area := 0; m_perimeter := 56; m_rect := (3, 4, 29, 1)%Z |}.

Definition dot : measured :=
  {| m_area := 0; m_perimeter := 0; m_rect := (7, 7, 1, 1)%Z |}.

(** A database file written earlier, holding one species only. *)
Definition legacy : database :=
  {| coral_species :=
       [(7%Z, Build_coral "Soft Coral" "Sinularia flexibilis" "Alcyoniidae"
                          "Sinularia" "Soft" "Medium" "Data Deficient"
                          "Various" 150 "Flexible, tree-like")] |}.

(** A store with two analyses saved, and a stand-in for [json.dumps]. *)
Definition blank_row (i : Z) : analysis_row :=
  {| a_id := i; a_filename := CText "a.jpg"; a_timestamp := CText "";
     a_predicted_species := CText ""; a_confidence := CReal 85.5;
     a_health_status := CText ""; a_health_confidence := CReal 60;
     a_bleaching_percentage := CReal 7; a_family := CText "";
     a_genus := CText ""; a_insights_json := "[]" |}.

Definition used_store : store :=
  {| species := populated; analyses := [blank_row 1; blank_row 2];
     sequence := 5 |}.

Definition dumps (v : py_value) : string :=
  match v with
  | PyStr s => s
  | PyNum _ | PyInt _ => "0"
  | PyList l => String.concat ", " l
  end.

Definition sample_data : dict :=
  [ ("filename", PyStr "reef.jpg"); ("timestamp", PyStr "2026-01-05T10:00:00");
    ("predicted_species", PyStr "Table Coral"); ("confidence", PyNum 85.5);
    ("health_status", PyStr "Unknown"); ("health_confidence", PyInt 60);
    ("bleaching_percentage", PyNum 7); ("family", PyStr "Acroporidae");
    ("genus", PyStr "Acropora"); ("insights", PyList ["Morphology: Boulder"]) ].

(** The same without ['family'] and ['genus']. *)
Definition short_data : dict := firstn 7 sample_data.

(** Uploads given by what they decode to: the colour picture and the
    measurements of its contours; [None] stands for bytes that are not an
    image. *)
Definition picture : Type := (image * list measured)%type.

Definition reencode_picture (uploaded_file : option picture) : option picture :=
  uploaded_file.

Definition analyze_picture (uploaded_file : option picture) (s : store)
  : run * store :=
  analyze_upload reencode_picture fst snd kmeans_same_point canny_id contours_id
                 m_area arc m_rect uploaded_file "/tmp/upload.jpg" s.

End MoreSamples.

(** * Properties *)

(** ** Facts about the Python prelude *)

Module PyFacts.

Lemma Qltb_lt (x y : Q) : Qltb x y = true <-> x < y.
Proof.
  unfold Qltb. rewrite negb_true_iff.
  split; intro H.
  - apply Qnot_le_lt. intro Hle. apply Qle_bool_iff in Hle. congruence.
  - destruct (Qle_bool y x) eqn:E; [|reflexivity].
    apply Qle_bool_iff in E. exfalso. exact (Qlt_not_le _ _ H E).
Qed.

Lemma Qltb_ge (x y : Q) : Qltb x y = false <-> y <= x.
Proof.
  unfold Qltb. rewrite negb_false_iff. apply Qle_bool_iff.
Qed.

Lemma Qleb_le (x y : Q) : Qleb x y = true <-> x <= y.
Proof. apply Qle_bool_iff. Qed.

Lemma Qeqb_eq (x y : Q) : Qeqb x y = true <-> x == y.
Proof. apply Qeq_bool_iff. Qed.

Lemma Qeqb_neq (x y : Q) : Qeqb x y = false <-> ~ x == y.
Proof.
  unfold Qeqb. split; intro H.
  - now apply Qeq_bool_neq.
  - destruct (Qeq_bool x y) eqn:E; [|reflexivity].
    apply Qeq_bool_iff in E. contradiction.
Qed.

Lemma Qltb_spec (x y : Q) : reflect (x < y) (Qltb x y).
Proof.
  destruct (Qltb x y) eqn:E; constructor.
  - now apply Qltb_lt.
  - apply Qltb_ge in E. now apply Qle_not_lt.
Qed.

(** Case analysis on a comparison, leaving the order fact in the context. *)
Ltac cmp x y :=
  let E := fresh "E" in
  destruct (Qltb x y) eqn:E;
  [apply Qltb_lt in E | apply Qltb_ge in E].

Lemma min_spec (a b : Q) :
  (b < a /\ Py.min a b = b) \/ (a <= b /\ Py.min a b = a).
Proof. unfold Py.min. cmp b a; [left | right]; split; auto. Qed.

Lemma max_spec (a b : Q) :
  (a < b /\ Py.max a b = b) \/ (b <= a /\ Py.max a b = a).
Proof. unfold Py.max. cmp a b; [left | right]; split; auto. Qed.

Lemma min_le_l (a b : Q) : Py.min a b <= a.
Proof. destruct (min_spec a b) as [[H ->]|[H ->]]; lra. Qed.

Lemma min_le_r (a b : Q) : Py.min a b <= b.
Proof. destruct (min_spec a b) as [[H ->]|[H ->]]; lra. Qed.

Lemma max_ge_l (a b : Q) : a <= Py.max a b.
Proof. destruct (max_spec a b) as [[H ->]|[H ->]]; lra. Qed.

Lemma max_ge_r (a b : Q) : b <= Py.max a b.
Proof. destruct (max_spec a b) as [[H ->]|[H ->]]; lra. Qed.

Lemma min_glb (a b c : Q) : c <= a -> c <= b -> c <= Py.min a b.
Proof. intros. destruct (min_spec a b) as [[H' ->]|[H' ->]]; lra. Qed.

Lemma max_lub (a b c : Q) : a <= c -> b <= c -> Py.max a b <= c.
Proof. intros. destruct (max_spec a b) as [[H' ->]|[H' ->]]; lra. Qed.

Lemma max3_bounds (a b c : Q) :
  a <= max3 a b c /\ b <= max3 a b c /\ c <= max3 a b c.
Proof.
  unfold max3.
  pose proof (max_ge_l a b). pose proof (max_ge_r a b).
  pose proof (max_ge_l (Py.max a b) c). pose proof (max_ge_r (Py.max a b) c).
  repeat split; lra.
Qed.

Lemma min3_bounds (a b c : Q) :
  min3 a b c <= a /\ min3 a b c <= b /\ min3 a b c <= c.
Proof.
  unfold min3.
  pose proof (min_le_l a b). pose proof (min_le_r a b).
  pose proof (min_le_l (Py.min a b) c). pose proof (min_le_r (Py.min a b) c).
  repeat split; lra.
Qed.

Lemma min3_lower (a b c m : Q) : m <= a -> m <= b -> m <= c -> m <= min3 a b c.
Proof. intros. unfold min3. repeat apply min_glb; assumption. Qed.

End PyFacts.

(** ** Facts about the bleaching estimator *)

Module HealthFacts.

Import PyFacts HealthAnalyzer.

Lemma clamp_confidence_bounds (c : Q) : 30 <= clamp_confidence c <= 95.
Proof.
  unfold clamp_confidence.
  pose proof (min_le_l 95 c).
  split.
  - apply max_ge_l.
  - apply max_lub; lra.
Qed.

Lemma clamp_confidence_id (c : Q) : 30 <= c <= 95 -> clamp_confidence c == c.
Proof.
  intros [Hlo Hhi]. unfold clamp_confidence.
  destruct (min_spec 95 c) as [[H1 ->]|[H1 ->]];
    [destruct (max_spec 30 c) as [[H2 ->]|[H2 ->]]
    |destruct (max_spec 30 95) as [[H2 ->]|[H2 ->]]]; lra.
Qed.

(** A ratio of two counts, the part over the whole. *)
Lemma ratio_bounds (part whole : Z) :
  (0 <= part <= whole)%Z -> (0 < whole)%Z ->
  0 <= inject_Z part / inject_Z whole <= 1.
Proof.
  intros [H0 H1] Hpos.
  assert (Hw : 0 < inject_Z whole) by (change 0 with (inject_Z 0); now rewrite <- Zlt_Qlt).
  assert (Hp : 0 <= inject_Z part) by (change 0 with (inject_Z 0); now rewrite <- Zle_Qle).
  assert (Hpw : inject_Z part <= inject_Z whole) by now rewrite <- Zle_Qle.
  split.
  - apply Qle_shift_div_l; lra.
  - apply Qle_shift_div_r; lra.
Qed.

Lemma filter_length_le {A : Type} (f : A -> bool) (l : list A) :
  (List.length (filter f l) <= List.length l)%nat.
Proof.
  induction l as [|x l IH]; simpl; [lia|].
  destruct (f x); simpl; lia.
Qed.

Lemma white_percentage_bounds (img : image) :
  image_ok img -> 0 <= white_percentage img <= 1.
Proof.
  intros (Hr & Hc & Hlen & _).
  unfold white_percentage, white_pixels, total_pixels.
  apply ratio_bounds; [|lia].
  pose proof (filter_length_le white_mask (data img)). lia.
Qed.

(** When every pixel passes the mask, the white ratio is one. *)
Lemma filter_all {A : Type} (f : A -> bool) (l : list A) :
  Forall (fun x => f x = true) l -> filter f l = l.
Proof.
  induction 1 as [|x l Hx _ IH]; simpl; [reflexivity|].
  now rewrite Hx, IH.
Qed.

Lemma filter_none {A : Type} (f : A -> bool) (l : list A) :
  Forall (fun x => f x = false) l -> filter f l = [].
Proof.
  induction 1 as [|x l Hx _ IH]; simpl; [reflexivity|].
  now rewrite Hx, IH.
Qed.

Lemma white_percentage_all (img : image) :
  image_ok img -> Forall (fun p => white_mask p = true) (data img) ->
  white_percentage img == 1.
Proof.
  intros (Hr & Hc & Hlen & _) Hall.
  unfold white_percentage, white_pixels, total_pixels.
  rewrite (filter_all _ _ Hall), Hlen.
  apply Qmult_inv_r.
  change 0 with (inject_Z 0). rewrite inject_Z_injective. lia.
Qed.

Lemma white_percentage_none (img : image) :
  Forall (fun p => white_mask p = false) (data img) ->
  white_percentage img == 0.
Proof.
  intros Hnone.
  unfold white_percentage, white_pixels.
  rewrite (filter_none _ _ Hnone). simpl. unfold Qdiv.
  change (inject_Z 0) with 0. apply Qmult_0_l.
Qed.

(** [colorsys.rgb_to_hsv]: the saturation of non-negative channels is in
    [0, 1]. *)
Lemma rgb_to_hsv_saturation (r g b : Q) :
  0 <= r -> 0 <= g -> 0 <= b ->
  0 <= snd (fst (rgb_to_hsv r g b)) <= 1.
Proof.
  intros Hr Hg Hb. unfold rgb_to_hsv.
  destruct (Qeqb (min3 r g b) (max3 r g b)) eqn:E; simpl; [lra|].
  apply Qeqb_neq in E.
  destruct (max3_bounds r g b) as (M1 & M2 & M3).
  destruct (min3_bounds r g b) as (m1 & m2 & m3).
  pose proof (min3_lower r g b 0 Hr Hg Hb) as Hm.
  assert (Hlt : min3 r g b < max3 r g b).
  { apply Qle_lteq in M1. destruct (Qle_lteq (min3 r g b) (max3 r g b)) as [H _].
    destruct H as [H|H]; [lra|assumption|contradiction]. }
  split.
  - apply Qle_shift_div_l; lra.
  - apply Qle_shift_div_r; lra.
Qed.

Lemma hsv_of_color_saturation (color : rgb) :
  pixel_ok color -> 0 <= snd (fst (hsv_of_color color)) <= 1.
Proof.
  destruct color as [[r g] b]. intros (Hr & Hg & Hb). unfold hsv_of_color.
  assert (nonneg : forall z, uint8 z -> 0 <= inject_Z z / 255).
  { intros z [Hz _]. apply Qle_shift_div_l; [lra|].
    rewrite Qmult_0_l. change 0 with (inject_Z 0). now rewrite <- Zle_Qle. }
  apply rgb_to_hsv_saturation; auto.
Qed.

(** The loop of method 2 adds one saturation per colour. *)
Lemma saturation_sum_step (colors : list rgb) (acc : Q) :
  Forall pixel_ok colors ->
  let total :=
    fold_left (fun a color => let '(_, s, _) := hsv_of_color color in a + s)
              colors acc in
  acc <= total /\ total <= acc + inject_Z (len colors).
Proof.
  intros Hok. revert acc.
  induction Hok as [|c cs Hc _ IH]; intro acc; cbn zeta.
  - unfold len. cbn. change (inject_Z 0) with 0. lra.
  - simpl fold_left.
    pose proof (hsv_of_color_saturation c Hc) as Hs.
    destruct (hsv_of_color c) as [[h s] v]. simpl in Hs.
    specialize (IH (acc + s)). cbn zeta in IH.
    destruct IH as [IH1 IH2].
    assert (Hlen : inject_Z (len (c :: cs)) == inject_Z (len cs) + 1).
    { unfold len. simpl List.length. rewrite Nat2Z.inj_succ, <- Z.add_1_r.
      now rewrite inject_Z_plus. }
    rewrite Hlen. cbv [rgb] in *. split; lra.
Qed.

Lemma color_diversity_bounds (colors : list rgb) :
  colors <> [] -> Forall pixel_ok colors ->
  0 <= color_diversity colors <= 1.
Proof.
  intros Hne Hok. unfold color_diversity, saturation_sum.
  destruct (saturation_sum_step colors 0 Hok) as [H0 H1]. cbn zeta in H0, H1.
  assert (Hpos : 0 < inject_Z (len colors)).
  { change 0 with (inject_Z 0). rewrite <- Zlt_Qlt. unfold len.
    destruct colors; [congruence|simpl; lia]. }
  split.
  - apply Qle_shift_div_l; lra.
  - apply Qle_shift_div_r; lra.
Qed.

(** The loop of method 3 bumps at most one counter per colour. *)
Lemma count_colors_step (colors : list rgb) (acc : Z * Z) :
  let counts :=
    fold_left
      (fun (a : Z * Z) color =>
         let '(healthy_colors, unhealthy_colors) := a in
         let '(h, s, v) := hsv_of_color color in
         if is_healthy_hsv h s v then ((healthy_colors + 1)%Z, unhealthy_colors)
         else if is_bleached_hsv s v then (healthy_colors, (unhealthy_colors + 1)%Z)
         else (healthy_colors, unhealthy_colors))
      colors acc in
  (fst acc <= fst counts /\ snd acc <= snd counts /\
   fst counts + snd counts <= fst acc + snd acc + len colors)%Z.
Proof.
  revert acc. induction colors as [|c cs IH]; intros [hc uc]; cbn zeta.
  - unfold len. simpl. lia.
  - simpl fold_left.
    assert (Hlen : len (c :: cs) = (len cs + 1)%Z).
    { unfold len. simpl List.length. lia. }
    rewrite Hlen.
    destruct (hsv_of_color c) as [[h s] v].
    destruct (is_healthy_hsv h s v); [|destruct (is_bleached_hsv s v)];
      match goal with
      | |- context [fold_left _ cs ?a] => specialize (IH a)
      end; cbn zeta in IH; simpl fst in *; simpl snd in *; lia.
Qed.

Lemma healthy_color_ratio_bounds (colors : list rgb) :
  0 <= healthy_color_ratio colors <= 1.
Proof.
  unfold healthy_color_ratio.
  destruct (Z.ltb_spec 0 (len colors)) as [Hpos|Hle]; [|lra].
  apply ratio_bounds; [|assumption].
  pose proof (count_colors_step colors (0, 0)%Z) as H. cbn zeta in H.
  fold (count_colors colors) in H. simpl fst in H. simpl snd in H. lia.
Qed.

(** The weighted score of three ratios is itself a ratio. *)
Lemma bleaching_score_bounds (w d h : Q) :
  0 <= w <= 1 -> 0 <= d <= 1 -> 0 <= h <= 1 ->
  0 <= bleaching_score w d h <= 1.
Proof. unfold bleaching_score. intros. split; lra. Qed.

(** With the white ratio at one, the score is at least its weight. *)
Lemma bleaching_score_white (w d h : Q) :
  w == 1 -> 0 <= d <= 1 -> 0 <= h <= 1 -> 0.6 <= bleaching_score w d h.
Proof. unfold bleaching_score. intros. lra. Qed.

(** With no white pixel, the other two signals reach 0.4 at most. *)
Lemma bleaching_score_no_white (w d h : Q) :
  w == 0 -> 0 <= d <= 1 -> 0 <= h <= 1 -> bleaching_score w d h <= 0.4.
Proof. unfold bleaching_score. intros. lra. Qed.

Lemma pixel_okb_ok (p : Z * Z * Z) : pixel_okb p = true -> pixel_ok p.
Proof.
  destruct p as [[c0 c1] c2]. unfold pixel_okb, pixel_ok, uint8.
  rewrite !andb_true_iff, !Z.leb_le. tauto.
Qed.

Lemma Forall_pixel_okb (l : list (Z * Z * Z)) :
  forallb pixel_okb l = true -> Forall pixel_ok l.
Proof.
  rewrite forallb_forall, Forall_forall.
  intros H p Hp. apply pixel_okb_ok, H, Hp.
Qed.

(** A solid image of positive size with a valid pixel is well formed. *)
Lemma solid_ok (r c : nat) (p : bgr) :
  (0 < r)%nat -> (0 < c)%nat -> pixel_okb p = true ->
  image_ok (Samples.solid r c p).
Proof.
  intros Hr Hc Hp. unfold image_ok, Samples.solid. simpl.
  repeat split; try lia.
  - rewrite repeat_length. lia.
  - apply Forall_forall. intros q Hq.
    apply repeat_spec in Hq. subst q. now apply pixel_okb_ok.
Qed.

Lemma solid_uniform (r c : nat) (p : bgr) : uniform p (Samples.solid r c p).
Proof.
  unfold uniform, Samples.solid. simpl.
  apply Forall_forall. intros q Hq. now apply repeat_spec in Hq.
Qed.

(** *** The readable-image path of [detect_bleaching] *)

Section Readable.

Variable imread : string -> option image.
Variable KMeans_cluster_centers : list rgb -> list (Q * Q * Q).

Local Abbreviation detect := (detect_bleaching imread KMeans_cluster_centers).
Local Abbreviation score_of := (bleaching_score_of KMeans_cluster_centers).
Local Abbreviation colors_of := (dominant_colors KMeans_cluster_centers).

Lemma dominant_colors_nonempty (img : image) :
  clusters_ok KMeans_cluster_centers img -> colors_of img <> [].
Proof.
  intros [Hlen _] Hnil. unfold dominant_colors in Hnil.
  apply (f_equal (@List.length rgb)) in Hnil.
  rewrite length_map, Hlen in Hnil. discriminate.
Qed.

(** On a decoded image the call returns: the percentage is the score
    times 100, the label comes from the threshold chain and the confidence
    is the chain's confidence after the clamp. *)
Lemma detect_bleaching_readable (path : string) (img : image) :
  imread path = Some img ->
  clusters_ok KMeans_cluster_centers img ->
  detect path =
    Returns (score_of img * 100,
             fst (health_status_of (score_of img * 100)),
             clamp_confidence (snd (health_status_of (score_of img * 100)))).
Proof.
  intros Hread Hk. unfold detect_bleaching. rewrite Hread.
  pose proof (dominant_colors_nonempty img Hk) as Hne.
  destruct (colors_of img) as [|c cs] eqn:E; [congruence|].
  destruct (health_status_of (score_of img * 100)) as [status confidence].
  reflexivity.
Qed.

Lemma bleaching_score_of_bounds (img : image) :
  image_ok img -> clusters_ok KMeans_cluster_centers img ->
  0 <= score_of img <= 1.
Proof.
  intros Himg Hk. unfold bleaching_score_of.
  apply bleaching_score_bounds.
  - now apply white_percentage_bounds.
  - apply color_diversity_bounds; [now apply dominant_colors_nonempty | apply Hk].
  - apply healthy_color_ratio_bounds.
Qed.

Lemma bleaching_percentage_bounds (img : image) :
  image_ok img -> clusters_ok KMeans_cluster_centers img ->
  0 <= score_of img * 100 <= 100.
Proof.
  intros Himg Hk. pose proof (bleaching_score_of_bounds img Himg Hk). lra.
Qed.

End Readable.

(** *** The threshold chain *)

Lemma min_is_Qmin (a b : Q) : Py.min a b == Qmin a b.
Proof.
  destruct (min_spec a b) as [[H ->]|[H ->]].
  - symmetry. apply Q.min_r. lra.
  - symmetry. now apply Q.min_l.
Qed.

Lemma health_status_of_severe (p : Q) :
  40 < p -> health_status_of p = (SEVERELY_BLEACHED, Py.min p 95).
Proof.
  intro H. unfold health_status_of.
  cmp 40 p; [reflexivity | lra].
Qed.

Lemma health_status_of_moderate (p : Q) :
  20 < p <= 40 -> health_status_of p = (MODERATELY_BLEACHED, 75 + (p - 20)).
Proof.
  intros [H1 H2]. unfold health_status_of.
  cmp 40 p; [lra|]. cmp 20 p; [reflexivity | lra].
Qed.

Lemma health_status_of_mild (p : Q) :
  10 < p <= 20 -> health_status_of p = (MILD_STRESS, 65 + (p - 10)).
Proof.
  intros [H1 H2]. unfold health_status_of.
  cmp 40 p; [lra|]. cmp 20 p; [lra|]. cmp 10 p; [reflexivity | lra].
Qed.

Lemma health_status_of_watch (p : Q) :
  5 < p <= 10 -> health_status_of p = (WATCH, 60).
Proof.
  intros [H1 H2]. unfold health_status_of.
  cmp 40 p; [lra|]. cmp 20 p; [lra|]. cmp 10 p; [lra|].
  cmp 5 p; [reflexivity | lra].
Qed.

Lemma health_status_of_healthy (p : Q) :
  p <= 5 -> health_status_of p = (HEALTHY, 95 - p).
Proof.
  intro H. unfold health_status_of.
  cmp 40 p; [lra|]. cmp 20 p; [lra|]. cmp 10 p; [lra|].
  cmp 5 p; [lra | reflexivity].
Qed.

Lemma labels_distinct : NoDup labels.
Proof.
  unfold labels.
  repeat (constructor; [simpl; intuition discriminate|]). constructor.
Qed.

Lemma health_status_of_label (p : Q) : In (fst (health_status_of p)) labels.
Proof.
  unfold health_status_of, labels.
  cmp 40 p; [|cmp 20 p; [|cmp 10 p; [|cmp 5 p]]]; simpl; auto 6.
Qed.

(** *** Claims about [detect_bleaching] *)

(** C1. On a decoded image the threshold chain assigns exactly one of five
    distinct labels, reading the percentage from high to low with strict
    comparisons: above 40 Severely Bleached with confidence
    min(percentage, 95); above 20 and at most 40 Moderately Bleached with
    75 + (percentage - 20); above 10 and at most 20 Mild Stress with
    65 + (percentage - 10); above 5 and at most 10 Watch with 60; at most 5
    Healthy with 95 - percentage.  The values 40, 20, 10 and 5 themselves
    fall in the lower bracket. *)
Theorem detect_bleaching_threshold_chain
        (imread : string -> option image)
        (KMeans_cluster_centers : list rgb -> list (Q * Q * Q))
        (path : string) (img : image) :
  imread path = Some img ->
  image_ok img ->
  clusters_ok KMeans_cluster_centers img ->
  NoDup labels /\
  (fst (health_status_of 40) = MODERATELY_BLEACHED /\
   fst (health_status_of 20) = MILD_STRESS /\
   fst (health_status_of 10) = WATCH /\
   fst (health_status_of 5) = HEALTHY) /\
  exists percentage status confidence,
    detect_bleaching imread KMeans_cluster_centers path
      = Returns (percentage, status, confidence) /\
    In status labels /\
    status = fst (health_status_of percentage) /\
    (40 < percentage ->
       status = SEVERELY_BLEACHED /\ confidence == Qmin percentage 95) /\
    (20 < percentage <= 40 ->
       status = MODERATELY_BLEACHED /\ confidence == 75 + (percentage - 20)) /\
    (10 < percentage <= 20 ->
       status = MILD_STRESS /\ confidence == 65 + (percentage - 10)) /\
    (5 < percentage <= 10 ->
       status = WATCH /\ confidence == 60) /\
    (percentage <= 5 ->
       status = HEALTHY /\ confidence == 95 - percentage).
Proof.
  intros Hread Himg Hk. split; [exact labels_distinct|].
  split; [repeat split; reflexivity|].
  rewrite (detect_bleaching_readable imread KMeans_cluster_centers path img Hread Hk).
  pose proof (bleaching_percentage_bounds KMeans_cluster_centers img Himg Hk) as Hp.
  set (p := bleaching_score_of KMeans_cluster_centers img * 100) in *.
  exists p, (fst (health_status_of p)), (clamp_confidence (snd (health_status_of p))).
  split; [reflexivity|].
  split; [apply health_status_of_label|].
  split; [reflexivity|].
  repeat split.
  - now rewrite health_status_of_severe.
  - rewrite health_status_of_severe by assumption. simpl snd.
    rewrite <- min_is_Qmin.
    apply clamp_confidence_id.
    destruct (min_spec p 95) as [[H' ->]|[H' ->]]; lra.
  - now rewrite health_status_of_moderate.
  - rewrite health_status_of_moderate by assumption. simpl snd.
    apply clamp_confidence_id. lra.
  - now rewrite health_status_of_mild.
  - rewrite health_status_of_mild by assumption. simpl snd.
    apply clamp_confidence_id. lra.
  - now rewrite health_status_of_watch.
  - rewrite health_status_of_watch by assumption. simpl snd.
    apply clamp_confidence_id. lra.
  - now rewrite health_status_of_healthy.
  - rewrite health_status_of_healthy by assumption. simpl snd.
    apply clamp_confidence_id. lra.
Qed.

(** C2. On a decoded image the three signals are combined as
    0.6 * white ratio + 0.2 * (1 - colour diversity)
    + 0.2 * (1 - healthy-colour ratio), and the percentage returned is that
    score times 100. *)
Theorem detect_bleaching_score_formula
        (imread : string -> option image)
        (KMeans_cluster_centers : list rgb -> list (Q * Q * Q))
        (path : string) (img : image) :
  imread path = Some img ->
  clusters_ok KMeans_cluster_centers img ->
  let colors := dominant_colors KMeans_cluster_centers img in
  let bleaching_score :=
    0.6 * white_percentage img
    + 0.2 * (1 - color_diversity colors)
    + 0.2 * (1 - healthy_color_ratio colors) in
  bleaching_score_of KMeans_cluster_centers img == bleaching_score /\
  exists percentage status confidence,
    detect_bleaching imread KMeans_cluster_centers path
      = Returns (percentage, status, confidence) /\
    percentage = bleaching_score_of KMeans_cluster_centers img * 100 /\
    percentage == bleaching_score * 100.
Proof.
  intros Hread Hk colors score.
  assert (Hscore : bleaching_score_of KMeans_cluster_centers img == score).
  { unfold bleaching_score_of, bleaching_score, score, colors. ring. }
  split; [exact Hscore|].
  rewrite (detect_bleaching_readable imread KMeans_cluster_centers path img Hread Hk).
  eexists _, _, _. split; [reflexivity|]. split; [reflexivity|].
  now rewrite Hscore.
Qed.

(** C3. On a decoded image the percentage returned lies in [0, 100] and the
    confidence returned lies in [30, 95]; the confidence is the clamp of the
    chain's confidence, and the clamp lands in [30, 95] whatever it is
    given. *)
Theorem detect_bleaching_bounds
        (imread : string -> option image)
        (KMeans_cluster_centers : list rgb -> list (Q * Q * Q))
        (path : string) (img : image) :
  imread path = Some img ->
  image_ok img ->
  clusters_ok KMeans_cluster_centers img ->
  (forall raw : Q, 30 <= clamp_confidence raw <= 95) /\
  exists percentage status confidence,
    detect_bleaching imread KMeans_cluster_centers path
      = Returns (percentage, status, confidence) /\
    confidence = clamp_confidence (snd (health_status_of percentage)) /\
    0 <= percentage <= 100 /\
    30 <= confidence <= 95.
Proof.
  intros Hread Himg Hk. split; [exact clamp_confidence_bounds|].
  rewrite (detect_bleaching_readable imread KMeans_cluster_centers path img Hread Hk).
  eexists _, _, _. split; [reflexivity|]. split; [reflexivity|].
  split.
  - now apply bleaching_percentage_bounds.
  - apply clamp_confidence_bounds.
Qed.

(** The sample inputs satisfy the assumptions on a decoded image. *)
Lemma pale_yellow_ok : image_ok Samples.pale_yellow_img.
Proof. apply solid_ok; [lia | lia | reflexivity]. Qed.

Lemma pale_yellow_clusters :
  clusters_ok Samples.kmeans_same_point Samples.pale_yellow_img.
Proof. split; [reflexivity | apply Forall_pixel_okb; reflexivity]. Qed.

Lemma detect_bleaching_threshold_chain_witness :
  Samples.imread_one "reef.jpg" Samples.pale_yellow_img "reef.jpg"
    = Some Samples.pale_yellow_img /\
  image_ok Samples.pale_yellow_img /\
  clusters_ok Samples.kmeans_same_point Samples.pale_yellow_img /\
  NoDup labels /\
  (fst (health_status_of 40) = MODERATELY_BLEACHED /\
   fst (health_status_of 20) = MILD_STRESS /\
   fst (health_status_of 10) = WATCH /\
   fst (health_status_of 5) = HEALTHY) /\
  exists percentage status confidence,
    detect_bleaching (Samples.imread_one "reef.jpg" Samples.pale_yellow_img)
                     Samples.kmeans_same_point "reef.jpg"
      = Returns (percentage, status, confidence) /\
    In status labels /\
    status = fst (health_status_of percentage) /\
    (40 < percentage ->
       status = SEVERELY_BLEACHED /\ confidence == Qmin percentage 95) /\
    (20 < percentage <= 40 ->
       status = MODERATELY_BLEACHED /\ confidence == 75 + (percentage - 20)) /\
    (10 < percentage <= 20 ->
       status = MILD_STRESS /\ confidence == 65 + (percentage - 10)) /\
    (5 < percentage <= 10 ->
       status = WATCH /\ confidence == 60) /\
    (percentage <= 5 ->
       status = HEALTHY /\ confidence == 95 - percentage).
Proof.
  split; [reflexivity|].
  split; [exact pale_yellow_ok|].
  split; [exact pale_yellow_clusters|].
  exact (detect_bleaching_threshold_chain
           (Samples.imread_one "reef.jpg" Samples.pale_yellow_img)
           Samples.kmeans_same_point "reef.jpg" Samples.pale_yellow_img
           eq_refl pale_yellow_ok pale_yellow_clusters).
Defined.

Lemma detect_bleaching_score_formula_witness :
  Samples.imread_one "reef.jpg" Samples.pale_yellow_img "reef.jpg"
    = Some Samples.pale_yellow_img /\
  clusters_ok Samples.kmeans_same_point Samples.pale_yellow_img /\
  let colors := dominant_colors Samples.kmeans_same_point Samples.pale_yellow_img in
  let bleaching_score :=
    0.6 * white_percentage Samples.pale_yellow_img
    + 0.2 * (1 - color_diversity colors)
    + 0.2 * (1 - healthy_color_ratio colors) in
  bleaching_score_of Samples.kmeans_same_point Samples.pale_yellow_img
    == bleaching_score /\
  exists percentage status confidence,
    detect_bleaching (Samples.imread_one "reef.jpg" Samples.pale_yellow_img)
                     Samples.kmeans_same_point "reef.jpg"
      = Returns (percentage, status, confidence) /\
    percentage
      = bleaching_score_of Samples.kmeans_same_point Samples.pale_yellow_img * 100 /\
    percentage == bleaching_score * 100.
Proof.
  split; [reflexivity|].
  split; [exact pale_yellow_clusters|].
  exact (detect_bleaching_score_formula
           (Samples.imread_one "reef.jpg" Samples.pale_yellow_img)
           Samples.kmeans_same_point "reef.jpg" Samples.pale_yellow_img
           eq_refl pale_yellow_clusters).
Defined.

Lemma detect_bleaching_bounds_witness :
  Samples.imread_one "reef.jpg" Samples.pale_yellow_img "reef.jpg"
    = Some Samples.pale_yellow_img /\
  image_ok Samples.pale_yellow_img /\
  clusters_ok Samples.kmeans_same_point Samples.pale_yellow_img /\
  (forall raw : Q, 30 <= clamp_confidence raw <= 95) /\
  exists percentage status confidence,
    detect_bleaching (Samples.imread_one "reef.jpg" Samples.pale_yellow_img)
                     Samples.kmeans_same_point "reef.jpg"
      = Returns (percentage, status, confidence) /\
    confidence = clamp_confidence (snd (health_status_of percentage)) /\
    0 <= percentage <= 100 /\
    30 <= confidence <= 95.
Proof.
  split; [reflexivity|].
  split; [exact pale_yellow_ok|].
  split; [exact pale_yellow_clusters|].
  exact (detect_bleaching_bounds
           (Samples.imread_one "reef.jpg" Samples.pale_yellow_img)
           Samples.kmeans_same_point "reef.jpg" Samples.pale_yellow_img
           eq_refl pale_yellow_ok pale_yellow_clusters).
Defined.

End HealthFacts.

(** ** Facts about the morphology classifier *)

Module MorphologyFacts.

Import PyFacts HealthAnalyzer.

(** [max(xs, key=...)] returns the first element with the largest key:
    either the running best survives, or the result sits in the list with
    strictly smaller keys before it and no larger key after it. *)
Lemma max_key_first {A : Type} (key : A -> Q) (xs : list A) (best : A) :
  (max_key key best xs = best /\
   Forall (fun x => key x <= key best) xs) \/
  (exists before after,
     xs = (before ++ max_key key best xs :: after)%list /\
     key best < key (max_key key best xs) /\
     Forall (fun x => key x < key (max_key key best xs)) before /\
     Forall (fun x => key x <= key (max_key key best xs)) after).
Proof.
  revert best. induction xs as [|x xs IH]; intro best; simpl.
  - left. split; [reflexivity | constructor].
  - cmp (key best) (key x).
    + right. destruct (IH x) as [[Hm Hall]|(b & a & Hsplit & Hlt & Hb & Ha)].
      * exists [], xs. rewrite Hm. repeat split; auto.
      * exists (x :: b), a. repeat split.
        -- simpl. now rewrite <- Hsplit.
        -- lra.
        -- constructor; assumption.
        -- assumption.
    + destruct (IH best) as [[Hm Hall]|(b & a & Hsplit & Hlt & Hb & Ha)].
      * left. rewrite Hm. split; [reflexivity|]. constructor; assumption.
      * right. exists (x :: b), a. repeat split.
        -- simpl. now rewrite <- Hsplit.
        -- assumption.
        -- constructor; [lra | assumption].
        -- assumption.
Qed.

(** The largest contour is the first one of maximal area. *)
Lemma largest_first {contour : Type} (contourArea : contour -> Q)
      (c : contour) (cs : list contour) :
  exists before after,
    c :: cs = (before ++ largest contourArea c cs :: after)%list /\
    Forall (fun k => contourArea k < contourArea (largest contourArea c cs)) before /\
    Forall (fun k => contourArea k <= contourArea (largest contourArea c cs)) after.
Proof.
  unfold largest.
  destruct (max_key_first contourArea cs c)
    as [[Hm Hall]|(b & a & Hsplit & Hlt & Hb & Ha)].
  - exists [], cs. rewrite Hm. repeat split; auto.
  - exists (c :: b), a. repeat split.
    + simpl. now rewrite <- Hsplit.
    + constructor; assumption.
    + assumption.
Qed.

(** The four branches of "Determine morphology". *)
Lemma morphology_of_branching (circularity aspect_ratio : Q) :
  circularity < 0.3 -> morphology_of circularity aspect_ratio = "Branching".
Proof.
  intro H. unfold morphology_of. cmp circularity 0.3; [reflexivity | lra].
Qed.

Lemma morphology_of_plate (circularity aspect_ratio : Q) :
  0.3 <= circularity < 0.6 ->
  1.5 < aspect_ratio \/ aspect_ratio < 0.67 ->
  morphology_of circularity aspect_ratio = "Plate/Table".
Proof.
  intros [H1 H2] Hr. unfold morphology_of.
  cmp circularity 0.3; [lra|]. cmp circularity 0.6; [|lra].
  cmp 1.5 aspect_ratio; [reflexivity|].
  cmp aspect_ratio 0.67; [reflexivity|].
  destruct Hr; lra.
Qed.

Lemma morphology_of_boulder (circularity aspect_ratio : Q) :
  0.3 <= circularity < 0.6 ->
  0.67 <= aspect_ratio <= 1.5 ->
  morphology_of circularity aspect_ratio = "Boulder".
Proof.
  intros [H1 H2] [H3 H4]. unfold morphology_of.
  cmp circularity 0.3; [lra|]. cmp circularity 0.6; [|lra].
  cmp 1.5 aspect_ratio; [lra|].
  cmp aspect_ratio 0.67; [lra | reflexivity].
Qed.

Lemma morphology_of_encrusting (circularity aspect_ratio : Q) :
  0.6 <= circularity -> morphology_of circularity aspect_ratio = "Encrusting".
Proof.
  intro H. unfold morphology_of.
  cmp circularity 0.3; [lra|]. cmp circularity 0.6; [lra | reflexivity].
Qed.

(** The rule as the specification prints it differs from the code only on
    aspect ratios from 0.667 up to 0.67. *)
Lemma morphology_rules_agree (circularity aspect_ratio : Q) :
  ~ (0.667 <= aspect_ratio < 0.67) ->
  morphology_of circularity aspect_ratio
  = morphology_rule_as_specified circularity aspect_ratio.
Proof.
  intro H. unfold morphology_of, morphology_rule_as_specified.
  cmp circularity 0.3; [reflexivity|].
  cmp circularity 0.6; [|reflexivity].
  cmp 1.5 aspect_ratio; [reflexivity|]. simpl.
  cmp aspect_ratio 0.67; cmp aspect_ratio 0.667; try reflexivity.
  - exfalso. apply H. split; assumption.
  - lra.
Qed.



Lemma np_pi_digits : 3.14159265358979 < np_pi < 3.14159265358980.
Proof. split; reflexivity. Qed.



(** For the outline of an axis-parallel rectangle, sides [a] and [b], the
    measurements are area [a * b] and perimeter [2 * (a + b)]: the quotient
    is at most 1 by itself. *)
Lemma circularity_of_rectangle (a b : Q) :
  0 <= a -> 0 <= b -> circularity_of (a * b) (2 * (a + b)) <= 1.
Proof.
  intros Ha Hb. unfold circularity_of. cmp 0 (2 * (a + b)); [|lra].
  apply Qle_shift_div_r; [nra|].
  pose proof np_pi_digits as [_ Hpi].
  assert (Hab : 0 <= a * b) by nra.
  assert (Hsq : 0 <= (a - b) * (a - b)).
  { destruct (Qlt_le_dec a b).
    - setoid_replace ((a - b) * (a - b)) with ((b - a) * (b - a)) by ring.
      apply Qmult_le_0_compat; lra.
    - apply Qmult_le_0_compat; lra. }
  assert (Hpi4 : 4 * np_pi * (a * b) <= 16 * (a * b)).
  { apply Qmult_le_compat_r; [lra | assumption]. }
  lra.
Qed.

(** *** Claims about [analyze_morphology] *)

(** On a decoded image with at least one contour the call returns the label
    and the four features of the largest contour. *)
Lemma analyze_morphology_found
      {gray_image edge_map contour : Type}
      (imread_gray : string -> option gray_image)
      (Canny : gray_image -> Z -> Z -> edge_map)
      (findContours : edge_map -> list contour)
      (contourArea : contour -> Q) (arcLength : contour -> bool -> Q)
      (boundingRect : contour -> Z * Z * Z * Z)
      (path : string) (img : gray_image) (c : contour) (cs : list contour)
      (x y w h : Z) :
  imread_gray path = Some img ->
  findContours (Canny img 50%Z 150%Z) = c :: cs ->
  boundingRect (largest contourArea c cs) = (x, y, w, h) ->
  let area := contourArea (largest contourArea c cs) in
  let perimeter := arcLength (largest contourArea c cs) true in
  analyze_morphology imread_gray Canny findContours contourArea arcLength
                     boundingRect path
  = Returns (morphology_of (circularity_of area perimeter) (aspect_ratio_of w h),
             [("circularity", circularity_of area perimeter);
              ("aspect_ratio", aspect_ratio_of w h);
              ("area", area);
              ("contours_found", inject_Z (len (c :: cs)))]).
Proof.
  intros Hread Hfound Hrect. unfold analyze_morphology.
  rewrite Hread, Hfound, Hrect. reflexivity.
Qed.

(** C4, amended.  On a decoded image with a contour, the label follows from
    the circularity and the aspect ratio of the first contour of largest
    area, both stored in the features: circularity below 0.3 gives
    Branching; from 0.3 and below 0.6 it gives Plate/Table when the aspect
    ratio is above 1.5 or below 0.67 and Boulder otherwise; from 0.6 on it
    gives Encrusting. *)
Theorem analyze_morphology_rule
        {gray_image edge_map contour : Type}
        (imread_gray : string -> option gray_image)
        (Canny : gray_image -> Z -> Z -> edge_map)
        (findContours : edge_map -> list contour)
        (contourArea : contour -> Q) (arcLength : contour -> bool -> Q)
        (boundingRect : contour -> Z * Z * Z * Z)
        (path : string) (img : gray_image) (c : contour) (cs : list contour) :
  imread_gray path = Some img ->
  findContours (Canny img 50%Z 150%Z) = c :: cs ->
  exists (largest_contour : contour) (before after : list contour)
         (x y w h : Z) (label : string) (features : features_dict)
         (circularity aspect_ratio : Q),
    c :: cs = (before ++ largest_contour :: after)%list /\
    Forall (fun k => contourArea k < contourArea largest_contour) before /\
    Forall (fun k => contourArea k <= contourArea largest_contour) after /\
    boundingRect largest_contour = (x, y, w, h) /\
    circularity
      = circularity_of (contourArea largest_contour) (arcLength largest_contour true) /\
    aspect_ratio = aspect_ratio_of w h /\
    analyze_morphology imread_gray Canny findContours contourArea arcLength
                       boundingRect path
      = Returns (label, features) /\
    dict_get features "circularity" = Some circularity /\
    dict_get features "aspect_ratio" = Some aspect_ratio /\
    (circularity < 0.3 -> label = "Branching") /\
    (0.3 <= circularity < 0.6 ->
       1.5 < aspect_ratio \/ aspect_ratio < 0.67 -> label = "Plate/Table") /\
    (0.3 <= circularity < 0.6 ->
       0.67 <= aspect_ratio <= 1.5 -> label = "Boulder") /\
    (0.6 <= circularity -> label = "Encrusting").
Proof.
  intros Hread Hfound.
  destruct (largest_first contourArea c cs) as (before & after & Hsplit & Hb & Ha).
  destruct (boundingRect (largest contourArea c cs)) as [[[x y] w] h] eqn:Hrect.
  exists (largest contourArea c cs), before, after, x, y, w, h.
  eexists _, _, _, _.
  split; [exact Hsplit|]. split; [exact Hb|]. split; [exact Ha|].
  split; [exact Hrect|]. split; [reflexivity|]. split; [reflexivity|].
  split.
  { apply (analyze_morphology_found imread_gray Canny findContours contourArea
             arcLength boundingRect path img c cs x y w h Hread Hfound Hrect). }
  split; [reflexivity|]. split; [reflexivity|].
  repeat split.
  - apply morphology_of_branching.
  - apply morphology_of_plate.
  - apply morphology_of_boulder.
  - apply morphology_of_encrusting.
Qed.

Lemma analyze_morphology_rule_witness :
  Samples.gray_one "reef.jpg" [Samples.square; Samples.l_shape] "reef.jpg"
    = Some [Samples.square; Samples.l_shape] /\
  Samples.contours_id
    (Samples.canny_id [Samples.square; Samples.l_shape] 50%Z 150%Z)
    = [Samples.square; Samples.l_shape] /\
  exists (largest_contour : Samples.measured)
         (before after : list Samples.measured)
         (x y w h : Z) (label : string) (features : features_dict)
         (circularity aspect_ratio : Q),
    [Samples.square; Samples.l_shape]
      = (before ++ largest_contour :: after)%list /\
    Forall (fun k => Samples.m_area k < Samples.m_area largest_contour) before /\
    Forall (fun k => Samples.m_area k <= Samples.m_area largest_contour) after /\
    Samples.m_rect largest_contour = (x, y, w, h) /\
    circularity
      = circularity_of (Samples.m_area largest_contour)
                       (Samples.arc largest_contour true) /\
    aspect_ratio = aspect_ratio_of w h /\
    Samples.analyze_measured
      (Samples.gray_one "reef.jpg" [Samples.square; Samples.l_shape]) "reef.jpg"
      = Returns (label, features) /\
    dict_get features "circularity" = Some circularity /\
    dict_get features "aspect_ratio" = Some aspect_ratio /\
    (circularity < 0.3 -> label = "Branching") /\
    (0.3 <= circularity < 0.6 ->
       1.5 < aspect_ratio \/ aspect_ratio < 0.67 -> label = "Plate/Table") /\
    (0.3 <= circularity < 0.6 ->
       0.67 <= aspect_ratio <= 1.5 -> label = "Boulder") /\
    (0.6 <= circularity -> label = "Encrusting").
Proof.
  split; [reflexivity|]. split; [reflexivity|].
  exact (analyze_morphology_rule
           (Samples.gray_one "reef.jpg" [Samples.square; Samples.l_shape])
           Samples.canny_id Samples.contours_id
           Samples.m_area Samples.arc Samples.m_rect
           "reef.jpg" [Samples.square; Samples.l_shape]
           Samples.square [Samples.l_shape] eq_refl eq_refl).
Defined.

(** The rule with the specification's 0.667 disagrees with the code: an
    outline of circularity about 0.49 in a 69 by 103 box has aspect ratio
    about 0.6699, which the code calls Plate/Table and the printed rule
    calls Boulder. *)
Lemma morphology_rule_as_specified_fails :
  Samples.analyze_measured
    (Samples.gray_one "reef.jpg" [Samples.l_shape]) "reef.jpg"
  = Returns ("Plate/Table",
             [("circularity", circularity_of 4536 340);
              ("aspect_ratio", aspect_ratio_of 69 103);
              ("area", 4536);
              ("contours_found", 1)]) /\
  0.3 <= circularity_of 4536 340 < 0.6 /\
  ~ (1.5 < aspect_ratio_of 69 103 \/ aspect_ratio_of 69 103 < 0.667) /\
  morphology_rule_as_specified (circularity_of 4536 340) (aspect_ratio_of 69 103)
  = "Boulder".
Proof.
  split; [reflexivity|].
  split; [split; [discriminate | reflexivity]|].
  split; [|reflexivity].
  intros [H|H]; vm_compute in H; discriminate.
Qed.



(** *** Sentinels *)

(** C5. When the image cannot be decoded, [detect_bleaching] returns
    [(0, "Unknown", 0)] and [analyze_morphology] returns ["Unknown"] with
    empty features; [analyze_morphology] returns the same when the image
    decodes and no contour is found.  In each case the call returns: it
    raises nothing. *)
Theorem unreadable_input_sentinels :
  (forall (imread : string -> option image)
          (KMeans_cluster_centers : list rgb -> list (Q * Q * Q))
          (path : string),
      imread path = None ->
      detect_bleaching imread KMeans_cluster_centers path
      = Returns (0, "Unknown", 0)) /\
  (forall (gray_image edge_map contour : Type)
          (imread_gray : string -> option gray_image)
          (Canny : gray_image -> Z -> Z -> edge_map)
          (findContours : edge_map -> list contour)
          (contourArea : contour -> Q) (arcLength : contour -> bool -> Q)
          (boundingRect : contour -> Z * Z * Z * Z)
          (path : string),
      imread_gray path = None ->
      analyze_morphology imread_gray Canny findContours contourArea arcLength
                         boundingRect path
      = Returns ("Unknown", [])) /\
  (forall (gray_image edge_map contour : Type)
          (imread_gray : string -> option gray_image)
          (Canny : gray_image -> Z -> Z -> edge_map)
          (findContours : edge_map -> list contour)
          (contourArea : contour -> Q) (arcLength : contour -> bool -> Q)
          (boundingRect : contour -> Z * Z * Z * Z)
          (path : string) (img : gray_image),
      imread_gray path = Some img ->
      findContours (Canny img 50%Z 150%Z) = [] ->
      analyze_morphology imread_gray Canny findContours contourArea arcLength
                         boundingRect path
      = Returns ("Unknown", [])).
Proof.
  repeat split.
  - intros imread KMeans path Hnone.
    unfold detect_bleaching. now rewrite Hnone.
  - intros gray_image edge_map contour imread_gray Canny findContours
           contourArea arcLength boundingRect path Hnone.
    unfold analyze_morphology. now rewrite Hnone.
  - intros gray_image edge_map contour imread_gray Canny findContours
           contourArea arcLength boundingRect path img Hread Hnil.
    unfold analyze_morphology. now rewrite Hread, Hnil.
Qed.

Lemma unreadable_input_sentinels_witness :
  (Samples.imread_none "missing.jpg" = None /\
   detect_bleaching Samples.imread_none Samples.kmeans_same_point "missing.jpg"
   = Returns (0, "Unknown", 0)) /\
  (Samples.gray_one "reef.jpg" [Samples.square] "missing.jpg" = None /\
   Samples.analyze_measured (Samples.gray_one "reef.jpg" [Samples.square])
                            "missing.jpg"
   = Returns ("Unknown", [])) /\
  (Samples.gray_one "blank.jpg" [] "blank.jpg" = Some [] /\
   Samples.contours_id (Samples.canny_id [] 50%Z 150%Z) = [] /\
   Samples.analyze_measured (Samples.gray_one "blank.jpg" []) "blank.jpg"
   = Returns ("Unknown", [])).
Proof.
  destruct unreadable_input_sentinels as (Hbleach & Hgray & Hblank).
  split; [|split].
  - split; [reflexivity|].
    exact (Hbleach Samples.imread_none Samples.kmeans_same_point
                   "missing.jpg" eq_refl).
  - split; [reflexivity|].
    exact (Hgray _ _ _ (Samples.gray_one "reef.jpg" [Samples.square])
                 Samples.canny_id Samples.contours_id
                 Samples.m_area Samples.arc Samples.m_rect
                 "missing.jpg" eq_refl).
  - split; [reflexivity|]. split; [reflexivity|].
    exact (Hblank _ _ _ (Samples.gray_one "blank.jpg" [])
                  Samples.canny_id Samples.contours_id
                  Samples.m_area Samples.arc Samples.m_rect
                  "blank.jpg" [] eq_refl eq_refl).
Defined.

End MorphologyFacts.

(** ** The two synthetic images of the self-test *)

Module SyntheticImages.

Import PyFacts HealthAnalyzer HealthFacts.

Lemma in_channel_range (lo : Z) (n : nat) (z : Z) :
  (lo <= z < lo + Z.of_nat n)%Z -> In z (channel_range lo n).
Proof.
  intro H. unfold channel_range. apply in_map_iff.
  exists (Z.to_nat (z - lo)). split; [lia|].
  apply in_seq. lia.
Qed.

Lemma tables_in_range_spec (n : nat) :
  tables_in_range n = true ->
  forall i : Z,
    (0 <= i < Z.of_nat n)%Z ->
    (0 <= sdiv_table i)%Z /\ (0 <= hdiv_table180 i)%Z /\
    (i * hdiv_table180 i <= 123008)%Z.
Proof.
  unfold tables_in_range. intros H i Hi.
  assert (Hin : In i (channel_range 0 n)) by (apply in_channel_range; lia).
  pose proof (proj1 (forallb_forall _ _) H i Hin) as Hc. cbv beta in Hc.
  rewrite !andb_true_iff, !Z.leb_le in Hc. tauto.
Qed.

Lemma tables_256_in_range : tables_in_range 256 = true.
Proof. vm_compute. reflexivity. Qed.

(** The ranges of the 8-bit HSV channels: the hue never leaves [0, 180] and
    the saturation is not negative; the value is the largest channel. *)
Lemma BGR2HSV_range (b g r : Z) :
  pixel_ok (b, g, r) ->
  exists h s : Z,
    BGR2HSV (b, g, r) = (h, s, Z.max (Z.max b g) r) /\
    (0 <= h <= 180)%Z /\ (0 <= s)%Z.
Proof.
  intros (Hb & Hg & Hr). unfold uint8 in *. unfold BGR2HSV.
  set (v := Z.max (Z.max b g) r).
  set (vmin := Z.min (Z.min b g) r).
  assert (Hv : (0 <= v <= 255)%Z) by (unfold v; lia).
  assert (Hdiff : saturate_uchar (v - vmin) = (v - vmin)%Z)
    by (unfold saturate_uchar, v, vmin; lia).
  rewrite Hdiff.
  set (diff := (v - vmin)%Z) in *.
  assert (Hd : (0 <= diff <= 255)%Z) by (unfold diff, v, vmin; lia).
  destruct (tables_in_range_spec 256 tables_256_in_range v) as (Hsv & _ & _);
    [lia|].
  destruct (tables_in_range_spec 256 tables_256_in_range diff) as (_ & Hh0 & Hh);
    [lia|].
  change (Z.shiftl 1 (hsv_shift - 1)) with 2048%Z.
  rewrite !Z.shiftr_div_pow2 by (unfold hsv_shift; lia).
  change (2 ^ hsv_shift)%Z with 4096%Z.
  set (t := hdiv_table180 diff) in *.
  set (h0 := if (v =? r)%Z then (g - b)%Z
             else if (v =? g)%Z then (b - r + 2 * diff)%Z
             else (r - g + 4 * diff)%Z).
  assert (Hh0' : (h0 <= 5 * diff)%Z).
  { unfold h0. destruct (Z.eqb_spec v r); [unfold diff, v, vmin in *; lia|].
    destruct (Z.eqb_spec v g); unfold diff, v, vmin in *; lia. }
  assert (Hmul : (h0 * t <= 5 * 123008)%Z).
  { apply Z.le_trans with (5 * diff * t)%Z.
    - apply Z.mul_le_mono_nonneg_r; assumption.
    - rewrite <- Z.mul_assoc. lia. }
  set (h1 := ((h0 * t + 2048) / 4096)%Z).
  assert (Hh1 : (h1 <= 180)%Z).
  { unfold h1. assert ((h0 * t + 2048) / 4096 < 181)%Z; [|lia].
    apply Z.div_lt_upper_bound; lia. }
  eexists _, _. split; [reflexivity|]. split.
  - unfold saturate_uchar. destruct (Z.ltb_spec h1 0); lia.
  - apply Z.div_pos; [|lia]. apply Z.add_nonneg_nonneg; [|lia].
    apply Z.mul_nonneg_nonneg; lia.
Qed.

(** The white mask is a test on saturation and value only: the hue bounds
    [0, 180] of the mask hold for every pixel. *)
Lemma white_mask_spec (b g r : Z) :
  pixel_ok (b, g, r) ->
  white_mask (b, g, r)
  = ((saturation8 (b, g, r) <=? 30) && (180 <=? value8 (b, g, r)))%Z /\
  value8 (b, g, r) = Z.max (Z.max b g) r.
Proof.
  intro Hok. pose proof Hok as (Hb & Hg & Hr). unfold uint8 in *.
  destruct (BGR2HSV_range b g r Hok) as (h & s & E & Hh & Hs).
  unfold white_mask, saturation8, value8. rewrite E.
  split; [|reflexivity].
  unfold inRange, lower_white, upper_white.
  replace (0 <=? h)%Z with true by (symmetry; apply Z.leb_le; lia).
  replace (h <=? 180)%Z with true by (symmetry; apply Z.leb_le; lia).
  replace (0 <=? s)%Z with true by (symmetry; apply Z.leb_le; lia).
  replace (Z.max (Z.max b g) r <=? 255)%Z with true
    by (symmetry; apply Z.leb_le; lia).
  simpl. now rewrite andb_true_r.
Qed.

(** For a pixel with every channel at least 220, the white mask is the
    saturation test alone. *)
Lemma near_white_mask (b g r : Z) :
  (220 <= b <= 255)%Z -> (220 <= g <= 255)%Z -> (220 <= r <= 255)%Z ->
  white_mask (b, g, r) = (saturation8 (b, g, r) <=? 30)%Z.
Proof.
  intros Hb Hg Hr.
  destruct (white_mask_spec b g r) as [-> Hv];
    [unfold pixel_ok, uint8; lia|].
  rewrite Hv.
  replace (180 <=? Z.max (Z.max b g) r)%Z with true
    by (symmetry; apply Z.leb_le; lia).
  apply andb_true_r.
Qed.

(** *** Near-white images *)

(** When every pixel passes the white mask the percentage is at least 60,
    whatever the dominant colours are. *)
Lemma all_white_percentage
      (KMeans_cluster_centers : list rgb -> list (Q * Q * Q)) (img : image) :
  image_ok img ->
  clusters_ok KMeans_cluster_centers img ->
  Forall (fun p => white_mask p = true) (data img) ->
  60 <= bleaching_score_of KMeans_cluster_centers img * 100.
Proof.
  intros Himg Hk Hall.
  assert (H : 0.6 <= bleaching_score_of KMeans_cluster_centers img).
  { unfold bleaching_score_of. apply bleaching_score_white.
    - now apply white_percentage_all.
    - apply color_diversity_bounds;
        [now apply dominant_colors_nonempty | apply Hk].
    - apply healthy_color_ratio_bounds. }
  lra.
Qed.

(** When no pixel passes the white mask the percentage is at most 40,
    whatever the dominant colours are: the label is never the top one. *)
Lemma no_white_percentage
      (KMeans_cluster_centers : list rgb -> list (Q * Q * Q)) (img : image) :
  clusters_ok KMeans_cluster_centers img ->
  Forall (fun p => white_mask p = false) (data img) ->
  bleaching_score_of KMeans_cluster_centers img * 100 <= 40 /\
  fst (health_status_of (bleaching_score_of KMeans_cluster_centers img * 100))
  <> SEVERELY_BLEACHED.
Proof.
  intros Hk Hnone.
  assert (H : bleaching_score_of KMeans_cluster_centers img <= 0.4).
  { unfold bleaching_score_of. apply bleaching_score_no_white.
    - now apply white_percentage_none.
    - apply color_diversity_bounds;
        [now apply dominant_colors_nonempty | apply Hk].
    - apply healthy_color_ratio_bounds. }
  split; [lra|].
  set (p := bleaching_score_of KMeans_cluster_centers img * 100) in *.
  assert (Hp : p <= 40) by (unfold p; lra).
  unfold health_status_of.
  cmp 40 p; [lra|].
  cmp 20 p; [|cmp 10 p; [|cmp 5 p]]; simpl; discriminate.
Qed.

(** C8, amended.  Take a decoded image of one colour whose three channels are
    all at least 220.  If the colour's 8-bit HSV saturation is at most 30,
    the bound of the white mask, the white ratio is exactly 1, the
    percentage is at least 60, so above 40, and the status is Severely
    Bleached.  If the saturation is above 30, no pixel is white, the
    percentage is at most 40 and the status is not Severely Bleached. *)
Theorem uniform_near_white_severely_bleached
        (imread : string -> option image)
        (KMeans_cluster_centers : list rgb -> list (Q * Q * Q))
        (path : string) (img : image) (b g r : Z) :
  imread path = Some img ->
  image_ok img ->
  clusters_ok KMeans_cluster_centers img ->
  uniform (b, g, r) img ->
  (220 <= b <= 255)%Z -> (220 <= g <= 255)%Z -> (220 <= r <= 255)%Z ->
  exists percentage status confidence,
    detect_bleaching imread KMeans_cluster_centers path
      = Returns (percentage, status, confidence) /\
    ((saturation8 (b, g, r) <= 30)%Z ->
       white_percentage img == 1 /\
       60 <= percentage /\ 40 < percentage /\
       status = SEVERELY_BLEACHED) /\
    ((30 < saturation8 (b, g, r))%Z ->
       white_percentage img == 0 /\
       percentage <= 40 /\
       status <> SEVERELY_BLEACHED).
Proof.
  intros Hread Himg Hk Huni Hb Hg Hr.
  pose proof (near_white_mask b g r Hb Hg Hr) as Hmask.
  rewrite (detect_bleaching_readable imread KMeans_cluster_centers path img Hread Hk).
  eexists _, _, _. split; [reflexivity|]. split.
  - intro Hs.
    assert (Hall : Forall (fun p => white_mask p = true) (data img)).
    { eapply Forall_impl; [|exact Huni]. intros q ->. rewrite Hmask.
      now apply Z.leb_le. }
    pose proof (all_white_percentage KMeans_cluster_centers img Himg Hk Hall) as Hp.
    split; [now apply white_percentage_all|].
    split; [exact Hp|]. split; [lra|].
    rewrite health_status_of_severe by lra. reflexivity.
  - intro Hs.
    assert (Hnone : Forall (fun p => white_mask p = false) (data img)).
    { eapply Forall_impl; [|exact Huni]. intros q ->. rewrite Hmask.
      now apply Z.leb_gt. }
    destruct (no_white_percentage KMeans_cluster_centers img Hk Hnone) as [Hp Hst].
    split; [now apply white_percentage_none|].
    split; [exact Hp | exact Hst].
Qed.

Lemma bleached_img_ok : image_ok Samples.bleached_img.
Proof. apply solid_ok; [lia | lia | reflexivity]. Qed.

Lemma bleached_img_clusters :
  clusters_ok Samples.kmeans_same_point Samples.bleached_img.
Proof. split; [reflexivity | apply Forall_pixel_okb; reflexivity]. Qed.

(** The self-test's own [bleached_img], 200 by 300 pixels of gray 220, whose
    saturation is 0. *)
Lemma uniform_near_white_severely_bleached_witness :
  Samples.imread_one "test_bleached.jpg" Samples.bleached_img "test_bleached.jpg"
    = Some Samples.bleached_img /\
  image_ok Samples.bleached_img /\
  clusters_ok Samples.kmeans_same_point Samples.bleached_img /\
  uniform (220, 220, 220)%Z Samples.bleached_img /\
  (saturation8 (220, 220, 220) <= 30)%Z /\
  exists percentage status confidence,
    detect_bleaching (Samples.imread_one "test_bleached.jpg" Samples.bleached_img)
                     Samples.kmeans_same_point "test_bleached.jpg"
      = Returns (percentage, status, confidence) /\
    white_percentage Samples.bleached_img == 1 /\
    60 <= percentage /\ 40 < percentage /\
    status = SEVERELY_BLEACHED.
Proof.
  assert (Hs : (saturation8 (220, 220, 220) <= 30)%Z) by (vm_compute; discriminate).
  split; [reflexivity|].
  split; [exact bleached_img_ok|].
  split; [exact bleached_img_clusters|].
  split; [exact (solid_uniform 200 300 (220, 220, 220)%Z)|].
  split; [exact Hs|].
  destruct (uniform_near_white_severely_bleached
              (Samples.imread_one "test_bleached.jpg" Samples.bleached_img)
              Samples.kmeans_same_point "test_bleached.jpg" Samples.bleached_img
              220 220 220
              eq_refl bleached_img_ok bleached_img_clusters
              (solid_uniform 200 300 (220, 220, 220)%Z)
              (conj (Z.le_refl 220) (Zle_bool_imp_le 220 255 eq_refl))
              (conj (Z.le_refl 220) (Zle_bool_imp_le 220 255 eq_refl))
              (conj (Z.le_refl 220) (Zle_bool_imp_le 220 255 eq_refl)))
    as (percentage & status & confidence & Hres & Hwhite & _).
  exists percentage, status, confidence.
  split; [exact Hres | exact (Hwhite Hs)].
Defined.

(** A uniform image with every channel at least 220 that is not Severely
    Bleached: pale yellow, RGB (255, 255, 220), has HSV saturation 35, so no
    pixel is white, the percentage is 1900/51 (about 37.3) and the status is
    Moderately Bleached. *)
Lemma pale_yellow_not_severe :
  uniform (220, 255, 255)%Z Samples.pale_yellow_img /\
  BGR2HSV (220, 255, 255)%Z = (30, 35, 255)%Z /\
  white_percentage Samples.pale_yellow_img == 0 /\
  returned (detect_bleaching
             (Samples.imread_one "reef.jpg" Samples.pale_yellow_img)
             Samples.kmeans_same_point "reef.jpg")
          (1900 # 51) MODERATELY_BLEACHED (4705 # 51) /\
  ~ 40 < 1900 # 51 /\
  MODERATELY_BLEACHED <> SEVERELY_BLEACHED.
Proof.
  split; [apply solid_uniform|].
  split; [reflexivity|].
  split; [reflexivity|].
  split; [vm_compute; repeat split; reflexivity|].
  split; [intro H; vm_compute in H|]; discriminate.
Qed.

(** *** The brown image *)

(** C9 fails on the code.  For a decoded image whose every pixel is
    B = 50, G = 100, R = 150, with the five dominant colours equal to that
    colour, [detect_bleaching] returns the percentage 20/3 (about 6.67),
    which is above 5, the label Watch and the confidence 60: the image the
    self-test calls healthy is not labelled Healthy. *)
Theorem uniform_brown_is_watch
        (imread : string -> option image)
        (KMeans_cluster_centers : list rgb -> list (Q * Q * Q))
        (path : string) (img : image) :
  imread path = Some img ->
  image_ok img ->
  uniform (50, 100, 150)%Z img ->
  dominant_colors KMeans_cluster_centers img = repeat (150, 100, 50)%Z 5 ->
  returned (detect_bleaching imread KMeans_cluster_centers path)
          (20 # 3) WATCH 60 /\
  5 < 20 # 3 /\
  WATCH <> HEALTHY.
Proof.
  intros Hread Himg Huni Hcolors.
  assert (Hk : clusters_ok KMeans_cluster_centers img).
  { split.
    - apply (f_equal (@List.length rgb)) in Hcolors.
      unfold dominant_colors in Hcolors. rewrite length_map in Hcolors.
      exact Hcolors.
    - rewrite Hcolors. apply Forall_pixel_okb. reflexivity. }
  assert (Hw : white_percentage img == 0).
  { apply white_percentage_none.
    eapply Forall_impl; [|exact Huni]. intros q ->. reflexivity. }
  assert (Hp : bleaching_score_of KMeans_cluster_centers img * 100 == 20 # 3).
  { unfold bleaching_score_of, bleaching_score. rewrite Hcolors, Hw.
    vm_compute. reflexivity. }
  split; [|split; [reflexivity | discriminate]].
  rewrite (detect_bleaching_readable imread KMeans_cluster_centers path img Hread Hk).
  unfold returned.
  rewrite health_status_of_watch by (rewrite Hp; split; [reflexivity | discriminate]).
  split; [exact Hp|]. split; [reflexivity|].
  simpl snd. apply clamp_confidence_id. lra.
Qed.

Lemma healthy_img_ok : image_ok Samples.healthy_img.
Proof. apply solid_ok; [lia | lia | reflexivity]. Qed.

(** The self-test's own [healthy_img], 200 by 300 pixels. *)
Lemma uniform_brown_is_watch_witness :
  Samples.imread_one "test_healthy.jpg" Samples.healthy_img "test_healthy.jpg"
    = Some Samples.healthy_img /\
  image_ok Samples.healthy_img /\
  uniform (50, 100, 150)%Z Samples.healthy_img /\
  dominant_colors Samples.kmeans_same_point Samples.healthy_img
    = repeat (150, 100, 50)%Z 5 /\
  returned (detect_bleaching
             (Samples.imread_one "test_healthy.jpg" Samples.healthy_img)
             Samples.kmeans_same_point "test_healthy.jpg")
          (20 # 3) WATCH 60 /\
  5 < 20 # 3 /\
  WATCH <> HEALTHY.
Proof.
  assert (Hcolors : dominant_colors Samples.kmeans_same_point Samples.healthy_img
                    = repeat (150, 100, 50)%Z 5) by reflexivity.
  split; [reflexivity|].
  split; [exact healthy_img_ok|].
  split; [exact (solid_uniform 200 300 (50, 100, 150)%Z)|].
  split; [exact Hcolors|].
  exact (uniform_brown_is_watch
           (Samples.imread_one "test_healthy.jpg" Samples.healthy_img)
           Samples.kmeans_same_point "test_healthy.jpg" Samples.healthy_img
           eq_refl healthy_img_ok (solid_uniform 200 300 (50, 100, 150)%Z)
           Hcolors).
Defined.

End SyntheticImages.

(** ** Facts about the species resolver *)

Module DatabaseFacts.

Import PyFacts CoralDatabase.

(** *** Keyword containment *)

Lemma lower_app (a b : string) : lower (a ++ b) = lower a ++ lower b.
Proof.
  induction a as [|c a IH]; simpl; [reflexivity | now rewrite IH].
Qed.

(** A split of the lowered text comes from a split of the text. *)
Lemma lower_split (s a b : string) :
  lower s = a ++ b ->
  exists s1 s2, s = s1 ++ s2 /\ lower s1 = a /\ lower s2 = b.
Proof.
  revert s. induction a as [|c a IH]; intros s H.
  - exists EmptyString, s. simpl in *. auto.
  - destruct s as [|c' s]; simpl in H; [discriminate|].
    injection H as Hc Hs.
    destruct (IH s Hs) as (s1 & s2 & -> & H1 & H2).
    exists (String c' s1), s2. simpl. rewrite Hc, H1. auto.
Qed.

Lemma startswith_spec (needle hay : string) :
  startswith needle hay = true <-> exists post, hay = needle ++ post.
Proof.
  revert hay. induction needle as [|a n IH]; intro hay; simpl.
  - split; [intros _; now exists hay | reflexivity].
  - destruct hay as [|b h].
    + split; [discriminate | intros [post H]; discriminate].
    + rewrite andb_true_iff, Ascii.eqb_eq, IH. split.
      * intros [-> [post ->]]. now exists post.
      * intros [post H]. injection H as -> ->. split; [reflexivity|now exists post].
Qed.

(** [needle in hay] holds exactly when [hay] has [needle] as a substring. *)
Lemma str_in_spec (needle hay : string) :
  str_in needle hay = true <-> exists pre post, hay = pre ++ needle ++ post.
Proof.
  induction hay as [|b h IH]; simpl.
  - rewrite orb_false_r, startswith_spec. split.
    + intros [post H]. now exists EmptyString, post.
    + intros (pre & post & H). destruct pre as [|c pre]; [|discriminate].
      now exists post.
  - rewrite orb_true_iff, startswith_spec, IH. split.
    + intros [[post H]|(pre & post & H)].
      * now exists EmptyString, post.
      * exists (String b pre), post. simpl. now rewrite H.
    + intros (pre & post & H). destruct pre as [|c pre]; simpl in H.
      * left. now exists post.
      * right. injection H as _ H. now exists pre, post.
Qed.

(** The test [kw in image_features.lower()] is containment of [kw] up to
    letter case. *)
Lemma str_in_lower (kw s : string) :
  str_in kw (lower s) = true <-> contains_ci kw s.
Proof.
  rewrite str_in_spec. unfold contains_ci. split.
  - intros (pre & post & H).
    destruct (lower_split s pre (kw ++ post) H) as (s1 & s2 & -> & H1 & H2).
    destruct (lower_split s2 kw post H2) as (mid & s3 & -> & Hmid & H3).
    now exists s1, mid, s3.
  - intros (pre & mid & post & -> & Hmid).
    exists (lower pre), (lower post).
    now rewrite !lower_app, Hmid.
Qed.

Lemma str_in_lower_false (kw s : string) :
  str_in kw (lower s) = false <-> ~ contains_ci kw s.
Proof.
  rewrite <- str_in_lower. destruct (str_in kw (lower s)); split;
    congruence || (intro H; exfalso; apply H; reflexivity) || auto.
Qed.

(** *** Selections *)

(** [WHERE morphology=tag LIMIT 1] picks the first row with that tag. *)
Lemma find_first_tagged (tag : string) (table : list species_row) :
  match find (fun row : species_row => String.eqb (morphology (snd row)) tag) table with
  | Some row => first_tagged tag table row
  | None => forall row, ~ first_tagged tag table row
  end.
Proof.
  induction table as [|r table IH]; simpl.
  - intros row (before & after & H & _). destruct before; discriminate.
  - destruct (String.eqb_spec (morphology (snd r)) tag) as [Heq|Hne].
    + exists [], table. repeat split; auto.
    + destruct (find _ table) as [row|].
      * destruct IH as (before & after & -> & Htag & Hbefore).
        exists (r :: before), after. repeat split; auto.
      * intros row (before & after & H & Htag & Hbefore).
        destruct before as [|b before]; simpl in H; injection H as -> H.
        -- contradiction.
        -- apply (IH row). exists before, after. repeat split; auto.
           now inversion Hbefore.
Qed.

Lemma hd_first_row (table : list species_row) :
  match hd_error table with
  | Some row => first_row table row
  | None => forall row, ~ first_row table row
  end.
Proof.
  destruct table as [|r table]; simpl.
  - intros row [after H]. discriminate.
  - now exists table.
Qed.

(** The first row with a tag, and the first row, are unique. *)
Lemma first_tagged_unique (tag : string) (table : list species_row)
      (r1 r2 : species_row) :
  first_tagged tag table r1 -> first_tagged tag table r2 -> r1 = r2.
Proof.
  intros (b1 & a1 & H1 & T1 & F1). revert table H1.
  induction F1 as [|x b1 Hx _ IH]; intros table H1 (b2 & a2 & H2 & T2 & F2);
    subst table; destruct b2 as [|y b2]; simpl in H2; injection H2 as H2 H3.
  - assumption.
  - subst y. inversion F2; contradiction.
  - subst x. contradiction.
  - subst y. apply (IH _ eq_refl). exists b2, a2. repeat split; auto.
    now inversion F2.
Qed.

(** *** Claims about [identify_coral] *)

(** [dict(zip(keys, result))] holds every column of the row under its
    name. *)
Lemma species_info_record (row : species_row) : species_info row = record row.
Proof. destruct row as [i c]. reflexivity. Qed.

(** What [identify_coral] does after its query came back. *)
Lemma answers_of_selection (sel : species_row -> Prop)
      (result : option species_row) :
  match result with
  | Some row => sel row
  | None => forall row, ~ sel row
  end ->
  answers sel
          match result with
          | Some row => (Some (species_info row), 85.5)
          | None => (None, 0)
          end.
Proof.
  destruct result as [row|]; intro H; [left | right].
  - exists row. now rewrite species_info_record.
  - now split.
Qed.

(** An answer for a selection that selects [row] and nothing else is the
    record of [row]. *)
Lemma answers_selected (sel : species_row -> Prop)
      (result : option (list (string * sql_value)) * Q) (row : species_row) :
  sel row -> (forall other, sel other -> other = row) ->
  answers sel result -> result = (Some (record row), 85.5).
Proof.
  intros Hrow Hunique [(other & Hother & ->)|[Hnone _]].
  - now rewrite (Hunique other Hother).
  - destruct (Hnone row Hrow).
Qed.

Lemma query_in_table (image_features : string) (d : database) (row : species_row) :
  fst ((if str_in "branch" (lower image_features) then
          select_morphology "Branching"
        else if str_in "boulder" (lower image_features)
                || str_in "massive" (lower image_features) then
          select_morphology "Boulder"
        else if str_in "plate" (lower image_features)
                || str_in "table" (lower image_features) then
          select_morphology "Plate/Table"
        else select_first) d) = Some row ->
  In row (coral_species d).
Proof.
  unfold select_morphology, select_first.
  destruct (str_in "branch" (lower image_features));
    [|destruct (str_in "boulder" (lower image_features)
               || str_in "massive" (lower image_features));
      [|destruct (str_in "plate" (lower image_features)
                 || str_in "table" (lower image_features))]];
    simpl; intro H.
  - apply find_some in H. apply H.
  - apply find_some in H. apply H.
  - apply find_some in H. apply H.
  - destruct (coral_species d); [discriminate|]. injection H as ->. now left.
Qed.

(** The resolver only reads the database. *)
Lemma identify_coral_reads (image_features : string) (d : database) :
  snd (identify_coral image_features d) = d.
Proof.
  unfold identify_coral, bind, select_morphology, select_first, ret.
  destruct (str_in "branch" (lower image_features));
    [|destruct (str_in "boulder" (lower image_features)
               || str_in "massive" (lower image_features));
      [|destruct (str_in "plate" (lower image_features)
                 || str_in "table" (lower image_features))]];
    match goal with
    | |- context [find ?f ?l] => destruct (find f l)
    | |- context [hd_error ?l] => destruct (hd_error l)
    end; reflexivity.
Qed.

(** C6.  The resolver matches keywords by containment up to letter case, in
    a fixed priority order: "branch" selects the first row tagged Branching;
    otherwise "boulder" or "massive" selects the first row tagged Boulder;
    otherwise "plate" or "table" selects the first row tagged Plate/Table;
    otherwise the first row of the table is selected.  The answer is the
    record of the selected row, its key and ten columns each under its
    column name, with confidence 85.5 (and the null answer with confidence 0
    exactly when the selection is empty).  Whatever is returned is the
    record of a row of the table.  The call leaves the database as it was,
    so a repeated call returns the same answer. *)
Theorem identify_coral_priority (d : database) (image_features : string) :
  let table := coral_species d in
  let result := fst (identify_coral image_features d) in
  let branch := contains_ci "branch" image_features in
  let boulder :=
    contains_ci "boulder" image_features \/ contains_ci "massive" image_features in
  let plate :=
    contains_ci "plate" image_features \/ contains_ci "table" image_features in
  (branch -> answers (first_tagged "Branching" table) result) /\
  (~ branch -> boulder -> answers (first_tagged "Boulder" table) result) /\
  (~ branch -> ~ boulder -> plate ->
     answers (first_tagged "Plate/Table" table) result) /\
  (~ branch -> ~ boulder -> ~ plate -> answers (first_row table) result) /\
  (forall info confidence,
      result = (Some info, confidence) ->
      confidence = 85.5 /\
      exists row,
        In row table /\
        info
        = [ ("id", SqlInt (fst row));
            ("common_name", SqlText (common_name (snd row)));
            ("scientific_name", SqlText (scientific_name (snd row)));
            ("family", SqlText (family (snd row)));
            ("genus", SqlText (genus (snd row)));
            ("morphology", SqlText (morphology (snd row)));
            ("bleaching_resistance", SqlText (bleaching_resistance (snd row)));
            ("conservation_status", SqlText (conservation_status (snd row)));
            ("color_patterns", SqlText (color_patterns (snd row)));
            ("typical_size_cm", SqlInt (typical_size_cm (snd row)));
            ("image_features", SqlText (CoralDatabase.image_features (snd row))) ]) /\
  snd (identify_coral image_features d) = d /\
  fst (identify_coral image_features (snd (identify_coral image_features d)))
  = result.
Proof.
  intros table result branch boulder plate.
  assert (Hbranch : str_in "branch" (lower image_features) = true <-> branch)
    by apply str_in_lower.
  assert (Hboulder : str_in "boulder" (lower image_features)
                     || str_in "massive" (lower image_features) = true <-> boulder).
  { rewrite orb_true_iff, !str_in_lower. reflexivity. }
  assert (Hplate : str_in "plate" (lower image_features)
                   || str_in "table" (lower image_features) = true <-> plate).
  { rewrite orb_true_iff, !str_in_lower. reflexivity. }
  assert (Hres : result =
    match
      fst ((if str_in "branch" (lower image_features) then
              select_morphology "Branching"
            else if str_in "boulder" (lower image_features)
                    || str_in "massive" (lower image_features) then
              select_morphology "Boulder"
            else if str_in "plate" (lower image_features)
                    || str_in "table" (lower image_features) then
              select_morphology "Plate/Table"
            else select_first) d)
    with
    | Some row => (Some (species_info row), 85.5)
    | None => (None, 0)
    end).
  { unfold result, identify_coral, bind, ret.
    match goal with
    | |- fst (let '(a, d') := ?query in _) = _ =>
        destruct query as [[row|] d']
    end; reflexivity. }
  split; [|split; [|split; [|split; [|split; [|split]]]]].
  - intro H. apply Hbranch in H. rewrite Hres, H.
    apply answers_of_selection, find_first_tagged.
  - intros Hn H. rewrite Hres.
    destruct (str_in "branch" (lower image_features)); [tauto|].
    apply Hboulder in H. rewrite H.
    apply answers_of_selection, find_first_tagged.
  - intros Hn1 Hn2 H. rewrite Hres.
    destruct (str_in "branch" (lower image_features)); [tauto|].
    destruct (str_in "boulder" (lower image_features)
              || str_in "massive" (lower image_features)); [tauto|].
    apply Hplate in H. rewrite H.
    apply answers_of_selection, find_first_tagged.
  - intros Hn1 Hn2 Hn3. rewrite Hres.
    destruct (str_in "branch" (lower image_features)); [tauto|].
    destruct (str_in "boulder" (lower image_features)
              || str_in "massive" (lower image_features)); [tauto|].
    destruct (str_in "plate" (lower image_features)
              || str_in "table" (lower image_features)); [tauto|].
    apply answers_of_selection, hd_first_row.
  - intros info confidence H. rewrite Hres in H.
    pose proof (query_in_table image_features d) as Hin.
    destruct (fst _) as [row|] in H, Hin; [|discriminate].
    injection H as <- <-. split; [reflexivity|].
    exists row. split; [now apply Hin|].
    apply species_info_record.
  - apply identify_coral_reads.
  - now rewrite identify_coral_reads.
Qed.

(** On the nine-species table: "Branching coral" gets the record of Staghorn
    Coral, row 1, and "massive coral" the record of Great Star Coral,
    row 4. *)
Lemma identify_coral_priority_witness :
  contains_ci "branch" "Branching coral" /\
  fst (identify_coral "Branching coral" populated)
  = (Some [ ("id", SqlInt 1);
            ("common_name", SqlText "Staghorn Coral");
            ("scientific_name", SqlText "Acropora cervicornis");
            ("family", SqlText "Acroporidae");
            ("genus", SqlText "Acropora");
            ("morphology", SqlText "Branching");
            ("bleaching_resistance", SqlText "Low");
            ("conservation_status", SqlText "Critically Endangered");
            ("color_patterns", SqlText "Brown/Yellow");
            ("typical_size_cm", SqlInt 300);
            ("image_features", SqlText "Thick branches, antler-like") ],
     85.5) /\
  (~ contains_ci "branch" "massive coral" /\
   (contains_ci "boulder" "massive coral" \/ contains_ci "massive" "massive coral") /\
   fst (identify_coral "massive coral" populated)
   = (Some [ ("id", SqlInt 4);
             ("common_name", SqlText "Great Star Coral");
             ("scientific_name", SqlText "Montastraea cavernosa");
             ("family", SqlText "Merulinidae");
             ("genus", SqlText "Montastraea");
             ("morphology", SqlText "Boulder");
             ("bleaching_resistance", SqlText "Medium");
             ("conservation_status", SqlText "Vulnerable");
             ("color_patterns", SqlText "Green/Brown");
             ("typical_size_cm", SqlInt 150);
             ("image_features", SqlText "Massive, star-shaped polyps") ],
      85.5)).
Proof.
  assert (H1 : contains_ci "branch" "Branching coral").
  { exists "", "Branch", "ing coral". split; reflexivity. }
  assert (H2 : ~ contains_ci "branch" "massive coral").
  { apply str_in_lower_false. reflexivity. }
  assert (H3 : contains_ci "boulder" "massive coral"
               \/ contains_ci "massive" "massive coral").
  { right. exists "", "massive", " coral". split; reflexivity. }
  pose proof (find_first_tagged "Branching" (coral_species populated)) as F1.
  pose proof (find_first_tagged "Boulder" (coral_species populated)) as F4.
  simpl in F1, F4.
  split; [exact H1|]. split.
  - exact (answers_selected _ _ _ F1
             (fun other H => first_tagged_unique _ _ _ _ H F1)
             (proj1 (identify_coral_priority populated "Branching coral") H1)).
  - split; [exact H2|]. split; [exact H3|].
    exact (answers_selected _ _ _ F4
             (fun other H => first_tagged_unique _ _ _ _ H F4)
             (proj1 (proj2 (identify_coral_priority populated "massive coral"))
                    H2 H3)).
Defined.

(** *** The populated table *)

Lemma populated_rows :
  map (fun row : species_row => (fst row, common_name (snd row), morphology (snd row)))
      (coral_species populated)
  = [(1%Z, "Staghorn Coral", "Branching");
     (2%Z, "Elkhorn Coral", "Branching");
     (3%Z, "Table Coral", "Plate/Table");
     (4%Z, "Great Star Coral", "Boulder");
     (5%Z, "Mustard Hill Coral", "Boulder");
     (6%Z, "Brain Coral", "Boulder");
     (7%Z, "Leaf Coral", "Plate");
     (8%Z, "Flower Coral", "Boulder");
     (9%Z, "Soft Coral", "Soft")].
Proof. reflexivity. Qed.

(** C10.  On the table of nine rows that [populate_coral_species] writes
    into an empty database, [identify_coral] returns a row of the table with
    confidence 85.5 for every input: the null answer with confidence 0 is
    never returned.  An input with none of the five keywords, such as
    "encrusting coral" or "unknown coral", gets the first row of the
    table. *)
Theorem identify_coral_populated (image_features : string) :
  List.length (coral_species populated) = 9%nat /\
  (exists row,
      In row (coral_species populated) /\
      fst (identify_coral image_features populated)
      = (Some (species_info row), 85.5)) /\
  fst (identify_coral image_features populated) <> (None, 0) /\
  (forall first,
      hd_error (coral_species populated) = Some first ->
      (~ contains_ci "branch" image_features ->
       ~ contains_ci "boulder" image_features ->
       ~ contains_ci "massive" image_features ->
       ~ contains_ci "plate" image_features ->
       ~ contains_ci "table" image_features ->
       fst (identify_coral image_features populated)
       = (Some (species_info first), 85.5)) /\
      fst (identify_coral "encrusting coral" populated)
      = (Some (species_info first), 85.5) /\
      fst (identify_coral "unknown coral" populated)
      = (Some (species_info first), 85.5)).
Proof.
  split; [reflexivity|].
  assert (Hrow : exists row,
             In row (coral_species populated) /\
             fst (identify_coral image_features populated)
             = (Some (species_info row), 85.5)).
  { unfold identify_coral, bind.
    destruct (str_in "branch" (lower image_features));
      [|destruct (str_in "boulder" (lower image_features)
                 || str_in "massive" (lower image_features));
        [|destruct (str_in "plate" (lower image_features)
                   || str_in "table" (lower image_features))]];
      (eexists; split; [|reflexivity]); simpl; auto 10. }
  split; [exact Hrow|].
  split.
  { destruct Hrow as (row & _ & ->). discriminate. }
  intros first Hfirst. injection Hfirst as <-.
  split; [|split; reflexivity].
  intros H1 H2 H3 H4 H5.
  apply str_in_lower_false in H1, H2, H3, H4, H5.
  unfold identify_coral, bind. rewrite H1, H2, H3, H4, H5. reflexivity.
Qed.

Lemma identify_coral_populated_witness :
  hd_error (coral_species populated)
  = Some (1%Z, Build_coral "Staghorn Coral" "Acropora cervicornis" "Acroporidae"
                           "Acropora" "Branching" "Low" "Critically Endangered"
                           "Brown/Yellow" 300 "Thick branches, antler-like") /\
  ~ contains_ci "branch" "encrusting coral" /\
  ~ contains_ci "boulder" "encrusting coral" /\
  ~ contains_ci "massive" "encrusting coral" /\
  ~ contains_ci "plate" "encrusting coral" /\
  ~ contains_ci "table" "encrusting coral" /\
  fst (identify_coral "encrusting coral" populated)
  = (Some (species_info
             (1%Z, Build_coral "Staghorn Coral" "Acropora cervicornis"
                               "Acroporidae" "Acropora" "Branching" "Low"
                               "Critically Endangered" "Brown/Yellow" 300
                               "Thick branches, antler-like")), 85.5).
Proof.
  assert (H : forall kw, str_in kw (lower "encrusting coral") = false ->
                         ~ contains_ci kw "encrusting coral").
  { intro kw. apply str_in_lower_false. }
  split; [reflexivity|].
  repeat (split; [apply H; reflexivity|]).
  exact (proj1 (proj2 (proj2 (proj2 (identify_coral_populated "encrusting coral")))
                 _ eq_refl)
               (H "branch" eq_refl) (H "boulder" eq_refl) (H "massive" eq_refl)
               (H "plate" eq_refl) (H "table" eq_refl)).
Defined.

End DatabaseFacts.

(** * Further properties *)

(** ** The bleaching estimator *)

Module HealthMore.

Import PyFacts HealthAnalyzer HealthFacts.

(** X1.  The healthy test is one band.  The two hue ranges of the healthy test
    meet at 0.2, so the test is: hue in [0.05, 0.4], saturation in
    [0.3, 0.8], value in [0.3, 0.7].  A colour is never both healthy and
    bleached, so the order of the two tests in the loop is immaterial. *)
Theorem healthy_test_is_one_band (h s v : Q) :
  (is_healthy_hsv h s v = true <->
   0.05 <= h <= 0.4 /\ 0.3 <= s <= 0.8 /\ 0.3 <= v <= 0.7) /\
  (is_bleached_hsv s v = true <-> s < 0.3 /\ 0.7 < v) /\
  ~ (is_healthy_hsv h s v = true /\ is_bleached_hsv s v = true).
Proof.
  assert (Hh : is_healthy_hsv h s v = true <->
               0.05 <= h <= 0.4 /\ 0.3 <= s <= 0.8 /\ 0.3 <= v <= 0.7).
  { unfold is_healthy_hsv.
    rewrite orb_true_iff, !andb_true_iff, !Qleb_le.
    split.
    - intros [H|H]; repeat split; try tauto; lra.
    - intros ((H1 & H2) & (H3 & H4) & (H5 & H6)).
      destruct (Qlt_le_dec h 0.2); [left | right]; repeat split; auto; lra. }
  assert (Hb : is_bleached_hsv s v = true <-> s < 0.3 /\ 0.7 < v).
  { unfold is_bleached_hsv. now rewrite andb_true_iff, !Qltb_lt. }
  split; [exact Hh|]. split; [exact Hb|].
  rewrite Hh, Hb. intros [(_ & (H1 & _) & _) (H2 & _)]. lra.
Qed.

Lemma healthy_saturation (h s v : Q) :
  is_healthy_hsv h s v = true -> s <= 0.8.
Proof.
  unfold is_healthy_hsv.
  rewrite orb_true_iff, !andb_true_iff, !Qleb_le. tauto.
Qed.

(** Per colour, the saturation and a fifth of the healthy count add up to
    at most one. *)
Lemma signals_step (colors : list rgb) (total : Q) (counts : Z * Z) :
  Forall pixel_ok colors ->
  fold_left (fun a color => let '(_, s, _) := hsv_of_color color in a + s)
            colors total
  + 0.2 * inject_Z
      (fst (fold_left
              (fun (a : Z * Z) color =>
                 let '(healthy_colors, unhealthy_colors) := a in
                 let '(h, s, v) := hsv_of_color color in
                 if is_healthy_hsv h s v then
                   ((healthy_colors + 1)%Z, unhealthy_colors)
                 else if is_bleached_hsv s v then
                   (healthy_colors, (unhealthy_colors + 1)%Z)
                 else (healthy_colors, unhealthy_colors))
              colors counts))
  <= total + 0.2 * inject_Z (fst counts) + inject_Z (len colors).
Proof.
  intros Hok. revert total counts.
  induction Hok as [|c cs Hc _ IH]; intros total [hc uc].
  - unfold len. cbn. change (inject_Z 0) with 0. lra.
  - simpl fold_left.
    assert (Hlen : inject_Z (len (c :: cs)) == inject_Z (len cs) + 1).
    { unfold len. simpl List.length. rewrite Nat2Z.inj_succ, <- Z.add_1_r.
      now rewrite inject_Z_plus. }
    rewrite Hlen.
    pose proof (hsv_of_color_saturation c Hc) as Hs.
    destruct (hsv_of_color c) as [[h s] v]. simpl in Hs.
    destruct (is_healthy_hsv h s v) eqn:Eh.
    + apply healthy_saturation in Eh.
      eapply Qle_trans; [apply IH|]. simpl fst.
      rewrite inject_Z_plus. change (inject_Z 1) with 1. cbv [rgb] in *. lra.
    + assert (Hfst : fst (if is_bleached_hsv s v then (hc, (uc + 1)%Z)
                           else (hc, uc)) = hc)
        by (destruct (is_bleached_hsv s v); reflexivity).
      eapply Qle_trans; [apply IH|]. rewrite Hfst. simpl fst.
      cbv [rgb] in *. lra.
Qed.

(** Colour diversity and healthy ratio cannot both be high: diversity plus a
    fifth of the healthy ratio is at most one. *)
Lemma diversity_and_healthy (colors : list rgb) :
  colors <> [] -> Forall pixel_ok colors ->
  color_diversity colors + 0.2 * healthy_color_ratio colors <= 1.
Proof.
  intros Hne Hok.
  pose proof (signals_step colors 0 (0, 0)%Z Hok) as H.
  fold (saturation_sum colors) in H. fold (count_colors colors) in H.
  simpl fst in H. change (inject_Z 0) with 0 in H.
  assert (Hpos : 0 < inject_Z (len colors)).
  { change 0 with (inject_Z 0). rewrite <- Zlt_Qlt. unfold len.
    destruct colors; [congruence | simpl; lia]. }
  assert (Hz : (0 <? len colors)%Z = true).
  { apply Z.ltb_lt. unfold len. destruct colors; [congruence | simpl; lia]. }
  unfold color_diversity, healthy_color_ratio. rewrite Hz.
  set (n := inject_Z (len colors)) in *.
  set (S := saturation_sum colors) in *.
  set (H5 := inject_Z (fst (count_colors colors))) in *.
  assert (E : S / n + 0.2 * (H5 / n) == (S + 0.2 * H5) / n) by (field; lra).
  rewrite E. apply Qle_shift_div_r; lra.
Qed.

Lemma white_percentage_zero (img : image) :
  white_pixels img = 0%Z -> white_percentage img == 0.
Proof.
  intro H. unfold white_percentage. rewrite H. unfold Qdiv.
  change (inject_Z 0) with 0. apply Qmult_0_l.
Qed.

Lemma white_pixels_nonneg (img : image) : (0 <= white_pixels img)%Z.
Proof. unfold white_pixels. lia. Qed.

(** The percentage lies between [60 w + 4] and [60 w + 40], [w] the white
    ratio. *)
Lemma percentage_window
      (KMeans_cluster_centers : list rgb -> list (Q * Q * Q)) (img : image) :
  clusters_ok KMeans_cluster_centers img ->
  60 * white_percentage img + 4
    <= bleaching_score_of KMeans_cluster_centers img * 100 /\
  bleaching_score_of KMeans_cluster_centers img * 100
    <= 60 * white_percentage img + 40.
Proof.
  intros Hk.
  pose proof (dominant_colors_nonempty KMeans_cluster_centers img Hk) as Hne.
  destruct Hk as [_ Hok].
  pose proof (diversity_and_healthy _ Hne Hok) as Hdh.
  pose proof (color_diversity_bounds _ Hne Hok) as Hd.
  pose proof (healthy_color_ratio_bounds
                (dominant_colors KMeans_cluster_centers img)) as Hh.
  unfold bleaching_score_of, bleaching_score. split; lra.
Qed.

Lemma healthy_label_only_low (p : Q) :
  fst (health_status_of p) = HEALTHY -> p <= 5.
Proof.
  unfold health_status_of.
  cmp 40 p; [discriminate|]. cmp 20 p; [discriminate|].
  cmp 10 p; [discriminate|]. cmp 5 p; [discriminate|]. auto.
Qed.

Lemma severe_label_only_high (p : Q) :
  fst (health_status_of p) = SEVERELY_BLEACHED -> 40 < p.
Proof.
  unfold health_status_of.
  cmp 40 p; [auto|]. cmp 20 p; [discriminate|].
  cmp 10 p; [discriminate|]. cmp 5 p; discriminate.
Qed.

(** *** Bounds that survive rounding

    The embedding computes with exact fractions, the interpreter with
    binary64 numbers: an exact 4 can come out as 3.9999999999999996.  The
    next three statements therefore leave a margin of 0.01 around the exact
    bounds (which are 4, 5, 40, 91, 0.75 and 0.8, and 1/60 for the white
    ratio), far more than the rounding of the few operations involved, and
    use no strict comparison at an exact bound. *)

(** X2.  On a decoded image the percentage is never close to 0: it is at least
    3.99, and with [w] the white ratio it lies between [60 w + 3.99] and
    [60 w + 40.01]. *)
Theorem bleaching_percentage_floor
        (imread : string -> option image)
        (KMeans_cluster_centers : list rgb -> list (Q * Q * Q))
        (path : string) (img : image) :
  imread path = Some img ->
  image_ok img ->
  clusters_ok KMeans_cluster_centers img ->
  exists percentage status confidence,
    detect_bleaching imread KMeans_cluster_centers path
      = Returns (percentage, status, confidence) /\
    3.99 <= percentage /\
    60 * white_percentage img + 3.99 <= percentage /\
    percentage <= 60 * white_percentage img + 40.01.
Proof.
  intros Hread Himg Hk.
  rewrite (detect_bleaching_readable imread KMeans_cluster_centers path img Hread Hk).
  destruct (percentage_window KMeans_cluster_centers img Hk) as [Hlo Hhi].
  pose proof (white_percentage_bounds img Himg) as Hw.
  eexists _, _, _. split; [reflexivity|].
  repeat split; lra.
Qed.

(** X3.  A low percentage pins everything down.  The Healthy status is only
    returned with a percentage of at most 5; and whenever the percentage is
    at most 5.01 it is at least 3.99, the status is Healthy or Watch, at
    most 1.7 percent of the pixels are white, all five dominant colours pass
    the healthy test, and their mean saturation is between 0.7495 and
    0.8001.  With the Healthy status the confidence is between 90 and
    91.01. *)
Theorem low_percentage_verdict
        (imread : string -> option image)
        (KMeans_cluster_centers : list rgb -> list (Q * Q * Q))
        (path : string) (img : image)
        (percentage : Q) (status : string) (confidence : Q) :
  imread path = Some img ->
  image_ok img ->
  clusters_ok KMeans_cluster_centers img ->
  detect_bleaching imread KMeans_cluster_centers path
    = Returns (percentage, status, confidence) ->
  let colors := dominant_colors KMeans_cluster_centers img in
  (status = HEALTHY -> percentage <= 5 /\ 90 <= confidence <= 91.01) /\
  (percentage <= 5.01 ->
     3.99 <= percentage /\
     (status = HEALTHY \/ status = WATCH) /\
     white_percentage img <= 0.017 /\
     fst (count_colors colors) = 5%Z /\
     healthy_color_ratio colors == 1 /\
     0.7495 <= color_diversity colors <= 0.8001).
Proof.
  intros Hread Himg Hk Hres colors.
  rewrite (detect_bleaching_readable imread KMeans_cluster_centers path img Hread Hk)
    in Hres.
  injection Hres as Hp Hst Hc. subst percentage confidence.
  set (percentage := bleaching_score_of KMeans_cluster_centers img * 100) in *.
  destruct (percentage_window KMeans_cluster_centers img Hk) as [Hlo Hhi].
  fold percentage in Hlo, Hhi.
  pose proof (white_percentage_bounds img Himg) as Hw.
  pose proof (dominant_colors_nonempty KMeans_cluster_centers img Hk) as Hne.
  pose proof Hk as [Hlen Hok].
  pose proof (diversity_and_healthy _ Hne Hok) as Hdh.
  pose proof (healthy_color_ratio_bounds colors) as Hh.
  fold colors in Hdh.
  split.
  { intro Hhealthy. rewrite <- Hst in Hhealthy.
    pose proof (healthy_label_only_low _ Hhealthy) as Hp5.
    split; [exact Hp5|].
    assert (Hconf : clamp_confidence (snd (health_status_of percentage))
                    == 95 - percentage).
    { rewrite (health_status_of_healthy _ Hp5).
      simpl snd. apply clamp_confidence_id. lra. }
    lra. }
  intro Hp5.
  assert (Hlen5 : len colors = 5%Z).
  { unfold len, colors, dominant_colors. now rewrite length_map, Hlen. }
  assert (Hscore : percentage
                   == 60 * white_percentage img
                      + 20 * (1 - color_diversity colors)
                      + 20 * (1 - healthy_color_ratio colors)).
  { unfold percentage, bleaching_score_of, bleaching_score. fold colors. ring. }
  assert (Hratio : 9 # 10 <= healthy_color_ratio colors) by lra.
  assert (Hcount : fst (count_colors colors) = 5%Z).
  { pose proof (count_colors_step colors (0, 0)%Z) as Hstep. cbn zeta in Hstep.
    fold (count_colors colors) in Hstep. simpl fst in Hstep. simpl snd in Hstep.
    unfold healthy_color_ratio in Hratio. rewrite Hlen5 in Hratio, Hstep.
    simpl in Hratio.
    apply (Qmult_le_r _ _ 5) in Hratio; [|reflexivity].
    unfold Qdiv in Hratio.
    rewrite <- Qmult_assoc, (Qmult_comm (/ _)), Qmult_inv_r, Qmult_1_r in Hratio
      by discriminate.
    assert (H4 : 4 < inject_Z (fst (count_colors colors))) by lra.
    change 4 with (inject_Z 4) in H4. rewrite <- Zlt_Qlt in H4. lia. }
  assert (Hone : healthy_color_ratio colors == 1).
  { unfold healthy_color_ratio. rewrite Hlen5, Hcount. reflexivity. }
  assert (Hlabel : status = HEALTHY \/ status = WATCH).
  { rewrite <- Hst. unfold health_status_of.
    cmp 40 percentage; [lra|]. cmp 20 percentage; [lra|].
    cmp 10 percentage; [lra|]. cmp 5 percentage; [right | left]; reflexivity. }
  repeat split; try assumption; lra.
Qed.

Lemma bleaching_percentage_floor_witness :
  Samples.imread_one "reef.jpg" Samples.pale_yellow_img "reef.jpg"
    = Some Samples.pale_yellow_img /\
  image_ok Samples.pale_yellow_img /\
  clusters_ok Samples.kmeans_same_point Samples.pale_yellow_img /\
  exists percentage status confidence,
    detect_bleaching (Samples.imread_one "reef.jpg" Samples.pale_yellow_img)
                     Samples.kmeans_same_point "reef.jpg"
      = Returns (percentage, status, confidence) /\
    3.99 <= percentage /\
    60 * white_percentage Samples.pale_yellow_img + 3.99 <= percentage /\
    percentage <= 60 * white_percentage Samples.pale_yellow_img + 40.01.
Proof.
  split; [reflexivity|].
  split; [exact pale_yellow_ok|].
  split; [exact pale_yellow_clusters|].
  exact (bleaching_percentage_floor
           (Samples.imread_one "reef.jpg" Samples.pale_yellow_img)
           Samples.kmeans_same_point "reef.jpg" Samples.pale_yellow_img
           eq_refl pale_yellow_ok pale_yellow_clusters).
Defined.

Lemma saturated_brown_ok : image_ok MoreSamples.saturated_brown_img.
Proof. apply solid_ok; [lia | lia | reflexivity]. Qed.

Lemma saturated_brown_clusters :
  clusters_ok Samples.kmeans_same_point MoreSamples.saturated_brown_img.
Proof. split; [reflexivity | apply Forall_pixel_okb; reflexivity]. Qed.

(** A uniform brown of saturation 0.775: the percentage is 4.5. *)
Lemma low_percentage_verdict_witness :
  let percentage :=
    bleaching_score_of Samples.kmeans_same_point MoreSamples.saturated_brown_img
    * 100 in
  let confidence := clamp_confidence (snd (health_status_of percentage)) in
  let colors :=
    dominant_colors Samples.kmeans_same_point MoreSamples.saturated_brown_img in
  Samples.imread_one "reef.jpg" MoreSamples.saturated_brown_img "reef.jpg"
    = Some MoreSamples.saturated_brown_img /\
  image_ok MoreSamples.saturated_brown_img /\
  clusters_ok Samples.kmeans_same_point MoreSamples.saturated_brown_img /\
  detect_bleaching (Samples.imread_one "reef.jpg" MoreSamples.saturated_brown_img)
                   Samples.kmeans_same_point "reef.jpg"
    = Returns (percentage, HEALTHY, confidence) /\
  percentage == 4.5 /\
  percentage <= 5.01 /\
  (percentage <= 5 /\ 90 <= confidence <= 91.01) /\
  3.99 <= percentage /\
  (HEALTHY = HEALTHY \/ HEALTHY = WATCH) /\
  white_percentage MoreSamples.saturated_brown_img <= 0.017 /\
  fst (count_colors colors) = 5%Z /\
  healthy_color_ratio colors == 1 /\
  0.7495 <= color_diversity colors <= 0.8001.
Proof.
  intros percentage confidence colors.
  assert (Hres : detect_bleaching
                   (Samples.imread_one "reef.jpg" MoreSamples.saturated_brown_img)
                   Samples.kmeans_same_point "reef.jpg"
                 = Returns (percentage, HEALTHY, confidence)) by reflexivity.
  assert (Hlow : percentage <= 5.01) by (vm_compute; discriminate).
  split; [reflexivity|].
  split; [exact saturated_brown_ok|].
  split; [exact saturated_brown_clusters|].
  split; [exact Hres|].
  split; [reflexivity|].
  split; [exact Hlow|].
  destruct (low_percentage_verdict
              (Samples.imread_one "reef.jpg" MoreSamples.saturated_brown_img)
              Samples.kmeans_same_point "reef.jpg" MoreSamples.saturated_brown_img
              percentage HEALTHY confidence
              eq_refl saturated_brown_ok saturated_brown_clusters Hres)
    as [Hhealthy Hrest].
  split; [exact (Hhealthy eq_refl) | exact (Hrest Hlow)].
Defined.

(** The chain's confidence by bracket, before the clamp. *)
Lemma chain_confidence_range (p : Q) :
  4 <= p ->
  40 < snd (health_status_of p) <= 95 /\
  (fst (health_status_of p) = MODERATELY_BLEACHED ->
     75 < snd (health_status_of p)) /\
  (fst (health_status_of p) = MILD_STRESS ->
     65 < snd (health_status_of p) <= 75) /\
  (fst (health_status_of p) = WATCH -> snd (health_status_of p) == 60) /\
  (fst (health_status_of p) = HEALTHY ->
     90 <= snd (health_status_of p) <= 91).
Proof.
  intro Hp. unfold health_status_of.
  cmp 40 p; [|cmp 20 p; [|cmp 10 p; [|cmp 5 p]]]; simpl fst; simpl snd.
  - split; [|repeat split; discriminate].
    destruct (min_spec p 95) as [[H ->]|[H ->]]; lra.
  - split; [lra|]. repeat split; try discriminate; lra.
  - split; [lra|]. repeat split; try discriminate; lra.
  - split; [lra|]. repeat split; try discriminate; lra.
  - split; [lra|]. repeat split; try discriminate; lra.
Qed.

(** X4.  On a decoded image the label is never "Unknown" and the confidence
    is above 40 and at most 95, so the sentinel of an unreadable file cannot
    be mistaken for a result.  The clamp to [30, 95] never changes the
    chain's confidence, which is at least 75 for Moderately Bleached, from
    65 to 75 for Mild Stress, 60 for Watch, and from 90 to 91.01 for
    Healthy. *)
Theorem confidence_by_status
        (imread : string -> option image)
        (KMeans_cluster_centers : list rgb -> list (Q * Q * Q))
        (path : string) (img : image) :
  imread path = Some img ->
  image_ok img ->
  clusters_ok KMeans_cluster_centers img ->
  exists percentage status confidence,
    detect_bleaching imread KMeans_cluster_centers path
      = Returns (percentage, status, confidence) /\
    status <> "Unknown" /\
    confidence == snd (health_status_of percentage) /\
    40 < confidence <= 95 /\
    (status = MODERATELY_BLEACHED -> 75 <= confidence) /\
    (status = MILD_STRESS -> 65 <= confidence <= 75) /\
    (status = WATCH -> confidence == 60) /\
    (status = HEALTHY -> 90 <= confidence <= 91.01).
Proof.
  intros Hread Himg Hk.
  rewrite (detect_bleaching_readable imread KMeans_cluster_centers path img Hread Hk).
  destruct (percentage_window KMeans_cluster_centers img Hk) as [Hlo _].
  pose proof (white_percentage_bounds img Himg) as Hw.
  set (p := bleaching_score_of KMeans_cluster_centers img * 100) in *.
  assert (Hp : 4 <= p) by lra.
  destruct (chain_confidence_range p Hp) as (Hall & Hmod & Hmild & Hwatch & Hhealthy).
  assert (Hid : clamp_confidence (snd (health_status_of p))
                == snd (health_status_of p))
    by (apply clamp_confidence_id; lra).
  eexists _, _, _. split; [reflexivity|].
  split.
  { pose proof (health_status_of_label p) as Hl. unfold labels in Hl.
    intro Hu. rewrite Hu in Hl. simpl in Hl.
    repeat (destruct Hl as [Hl|Hl]; [discriminate|]). exact Hl. }
  split; [exact Hid|].
  rewrite Hid.
  split; [exact Hall|].
  split; [intro H; apply Hmod in H; lra|].
  split; [intro H; apply Hmild in H; lra|].
  split; [exact Hwatch|].
  intro H; apply Hhealthy in H; lra.
Qed.

(** The pale yellow image: Moderately Bleached with confidence 4705/51,
    about 92.3. *)
Lemma confidence_by_status_witness :
  Samples.imread_one "reef.jpg" Samples.pale_yellow_img "reef.jpg"
    = Some Samples.pale_yellow_img /\
  image_ok Samples.pale_yellow_img /\
  clusters_ok Samples.kmeans_same_point Samples.pale_yellow_img /\
  exists percentage status confidence,
    detect_bleaching (Samples.imread_one "reef.jpg" Samples.pale_yellow_img)
                     Samples.kmeans_same_point "reef.jpg"
      = Returns (percentage, status, confidence) /\
    status <> "Unknown" /\
    confidence == snd (health_status_of percentage) /\
    40 < confidence <= 95 /\
    (status = MODERATELY_BLEACHED -> 75 <= confidence) /\
    (status = MILD_STRESS -> 65 <= confidence <= 75) /\
    (status = WATCH -> confidence == 60) /\
    (status = HEALTHY -> 90 <= confidence <= 91.01).
Proof.
  split; [reflexivity|].
  split; [exact pale_yellow_ok|].
  split; [exact pale_yellow_clusters|].
  exact (confidence_by_status
           (Samples.imread_one "reef.jpg" Samples.pale_yellow_img)
           Samples.kmeans_same_point "reef.jpg" Samples.pale_yellow_img
           eq_refl pale_yellow_ok pale_yellow_clusters).
Defined.

(** X5.  The white ratio alone can decide the top label: with more than
    three fifths of the pixels passing the white mask the status is Severely
    Bleached whatever the dominant colours are, and a Severely Bleached
    status is only returned when at least one pixel passes the mask. *)
Theorem white_ratio_and_severe
        (imread : string -> option image)
        (KMeans_cluster_centers : list rgb -> list (Q * Q * Q))
        (path : string) (img : image) :
  imread path = Some img ->
  image_ok img ->
  clusters_ok KMeans_cluster_centers img ->
  exists percentage status confidence,
    detect_bleaching imread KMeans_cluster_centers path
      = Returns (percentage, status, confidence) /\
    (3 # 5 < white_percentage img -> status = SEVERELY_BLEACHED) /\
    (status = SEVERELY_BLEACHED -> (1 <= white_pixels img)%Z).
Proof.
  intros Hread Himg Hk.
  rewrite (detect_bleaching_readable imread KMeans_cluster_centers path img Hread Hk).
  destruct (percentage_window KMeans_cluster_centers img Hk) as [Hlo Hhi].
  set (p := bleaching_score_of KMeans_cluster_centers img * 100) in *.
  eexists _, _, _. split; [reflexivity|]. split.
  - intro Hw. rewrite health_status_of_severe by lra. reflexivity.
  - intro Hs. apply severe_label_only_high in Hs.
    pose proof (white_pixels_nonneg img) as H0.
    destruct (Z.eq_dec (white_pixels img) 0) as [Hz|Hz]; [|lia].
    pose proof (white_percentage_zero img Hz) as Hw0. lra.
Qed.

Lemma mostly_white_ok : image_ok MoreSamples.mostly_white_img.
Proof.
  repeat split; try reflexivity. apply Forall_pixel_okb. reflexivity.
Qed.

Lemma mostly_white_clusters :
  clusters_ok Samples.kmeans_same_point MoreSamples.mostly_white_img.
Proof. split; [reflexivity | apply Forall_pixel_okb; reflexivity]. Qed.

Lemma white_ratio_and_severe_witness :
  Samples.imread_one "reef.jpg" MoreSamples.mostly_white_img "reef.jpg"
    = Some MoreSamples.mostly_white_img /\
  image_ok MoreSamples.mostly_white_img /\
  clusters_ok Samples.kmeans_same_point MoreSamples.mostly_white_img /\
  3 # 5 < white_percentage MoreSamples.mostly_white_img /\
  exists percentage status confidence,
    detect_bleaching (Samples.imread_one "reef.jpg" MoreSamples.mostly_white_img)
                     Samples.kmeans_same_point "reef.jpg"
      = Returns (percentage, status, confidence) /\
    status = SEVERELY_BLEACHED /\
    (1 <= white_pixels MoreSamples.mostly_white_img)%Z.
Proof.
  assert (Hw : 3 # 5 < white_percentage MoreSamples.mostly_white_img)
    by reflexivity.
  split; [reflexivity|].
  split; [exact mostly_white_ok|].
  split; [exact mostly_white_clusters|].
  split; [exact Hw|].
  destruct (white_ratio_and_severe
              (Samples.imread_one "reef.jpg" MoreSamples.mostly_white_img)
              Samples.kmeans_same_point "reef.jpg" MoreSamples.mostly_white_img
              eq_refl mostly_white_ok mostly_white_clusters)
    as (percentage & status & confidence & Hres & Hsevere & Hpixel).
  exists percentage, status, confidence.
  split; [exact Hres|].
  split; [exact (Hsevere Hw) | exact (Hpixel (Hsevere Hw))].
Defined.

(** *** What the estimator reads *)

Lemma filter_length_map {A : Type} (f : A -> bool) (l : list A) :
  List.length (filter f l) = List.length (filter (fun b : bool => b) (map f l)).
Proof.
  induction l as [|x l IH]; simpl; [reflexivity|].
  destruct (f x); simpl; now rewrite IH.
Qed.

(** X6.  The colour signals read the first 5000 pixels only, in row-major
    order: two decoded images of the same size that agree on their first
    5000 pixels and on which pixels pass the white mask get the same
    percentage, status and confidence. *)
Theorem bleaching_reads_first_5000
        (imread1 imread2 : string -> option image)
        (KMeans_cluster_centers : list rgb -> list (Q * Q * Q))
        (path : string) (img1 img2 : image) :
  imread1 path = Some img1 ->
  imread2 path = Some img2 ->
  rows img1 = rows img2 ->
  cols img1 = cols img2 ->
  firstn 5000 (data img1) = firstn 5000 (data img2) ->
  map white_mask (data img1) = map white_mask (data img2) ->
  detect_bleaching imread1 KMeans_cluster_centers path
  = detect_bleaching imread2 KMeans_cluster_centers path.
Proof.
  intros Hread1 Hread2 Hrows Hcols Hfirst Hmask.
  assert (Hcolors : dominant_colors KMeans_cluster_centers img1
                    = dominant_colors KMeans_cluster_centers img2).
  { unfold dominant_colors, sample. now rewrite !firstn_map, Hfirst. }
  assert (Hwhite : white_percentage img1 = white_percentage img2).
  { unfold white_percentage, white_pixels, total_pixels.
    rewrite (filter_length_map white_mask (data img1)).
    rewrite (filter_length_map white_mask (data img2)).
    now rewrite Hmask, Hrows, Hcols. }
  unfold detect_bleaching, bleaching_score_of.
  now rewrite Hread1, Hread2, Hcolors, Hwhite.
Qed.

Lemma bleaching_reads_first_5000_witness :
  Samples.imread_one "reef.jpg" (MoreSamples.strip_img (20, 60, 120)%Z) "reef.jpg"
    = Some (MoreSamples.strip_img (20, 60, 120)%Z) /\
  Samples.imread_one "reef.jpg" (MoreSamples.strip_img (90, 10, 30)%Z) "reef.jpg"
    = Some (MoreSamples.strip_img (90, 10, 30)%Z) /\
  rows (MoreSamples.strip_img (20, 60, 120)%Z)
    = rows (MoreSamples.strip_img (90, 10, 30)%Z) /\
  cols (MoreSamples.strip_img (20, 60, 120)%Z)
    = cols (MoreSamples.strip_img (90, 10, 30)%Z) /\
  firstn 5000 (data (MoreSamples.strip_img (20, 60, 120)%Z))
    = firstn 5000 (data (MoreSamples.strip_img (90, 10, 30)%Z)) /\
  map white_mask (data (MoreSamples.strip_img (20, 60, 120)%Z))
    = map white_mask (data (MoreSamples.strip_img (90, 10, 30)%Z)) /\
  data (MoreSamples.strip_img (20, 60, 120)%Z)
    <> data (MoreSamples.strip_img (90, 10, 30)%Z) /\
  detect_bleaching
    (Samples.imread_one "reef.jpg" (MoreSamples.strip_img (20, 60, 120)%Z))
    MoreSamples.kmeans_first_five "reef.jpg"
  = detect_bleaching
      (Samples.imread_one "reef.jpg" (MoreSamples.strip_img (90, 10, 30)%Z))
      MoreSamples.kmeans_first_five "reef.jpg".
Proof.
  assert (Hfirst : firstn 5000 (data (MoreSamples.strip_img (20, 60, 120)%Z))
                   = firstn 5000 (data (MoreSamples.strip_img (90, 10, 30)%Z)))
    by (vm_compute; reflexivity).
  assert (Hmask : map white_mask (data (MoreSamples.strip_img (20, 60, 120)%Z))
                  = map white_mask (data (MoreSamples.strip_img (90, 10, 30)%Z)))
    by (vm_compute; reflexivity).
  split; [reflexivity|]. split; [reflexivity|].
  split; [reflexivity|]. split; [reflexivity|].
  split; [exact Hfirst|]. split; [exact Hmask|].
  split.
  { intro H. apply (f_equal (fun l => nth 5000 l (0, 0, 0)%Z)) in H.
    vm_compute in H. discriminate H. }
  exact (bleaching_reads_first_5000
           (Samples.imread_one "reef.jpg" (MoreSamples.strip_img (20, 60, 120)%Z))
           (Samples.imread_one "reef.jpg" (MoreSamples.strip_img (90, 10, 30)%Z))
           MoreSamples.kmeans_first_five "reef.jpg"
           (MoreSamples.strip_img (20, 60, 120)%Z)
           (MoreSamples.strip_img (90, 10, 30)%Z)
           eq_refl eq_refl eq_refl eq_refl Hfirst Hmask).
Defined.

End HealthMore.

(** ** The morphology classifier *)

Module MorphologyMore.

Import PyFacts HealthAnalyzer MorphologyFacts.

Lemma morphology_of_label (circularity aspect_ratio : Q) :
  In (morphology_of circularity aspect_ratio)
     ["Branching"; "Plate/Table"; "Boulder"; "Encrusting"].
Proof.
  unfold morphology_of.
  destruct (Qltb circularity 0.3); [simpl; auto|].
  destruct (Qltb circularity 0.6); [|simpl; auto].
  destruct (Qltb 1.5 aspect_ratio || Qltb aspect_ratio 0.67); simpl; auto.
Qed.

Lemma largest_is_maximal {contour : Type} (contourArea : contour -> Q)
      (c : contour) (cs : list contour) :
  In (largest contourArea c cs) (c :: cs) /\
  Forall (fun k => contourArea k <= contourArea (largest contourArea c cs))
         (c :: cs).
Proof.
  destruct (largest_first contourArea c cs) as (before & after & Hsplit & Hb & Ha).
  split.
  - rewrite Hsplit. apply in_or_app. right. left. reflexivity.
  - rewrite Hsplit. apply Forall_app. split.
    + eapply Forall_impl; [|exact Hb]. intros k Hk. simpl in Hk. lra.
    + constructor; [lra | exact Ha].
Qed.

(** X7.  [analyze_morphology] always returns.  The label is "Unknown"
    exactly when the features are empty; otherwise the label is one of
    Branching, Plate/Table, Boulder and Encrusting, the features hold the
    four keys in order, 'contours_found' is the number of contours (at least
    one) and 'area' is the area of one of them, not exceeded by any other. *)
Theorem analyze_morphology_shape
        {gray_image edge_map contour : Type}
        (imread_gray : string -> option gray_image)
        (Canny : gray_image -> Z -> Z -> edge_map)
        (findContours : edge_map -> list contour)
        (contourArea : contour -> Q) (arcLength : contour -> bool -> Q)
        (boundingRect : contour -> Z * Z * Z * Z)
        (path : string) :
  exists (label : string) (features : features_dict),
    analyze_morphology imread_gray Canny findContours contourArea arcLength
                       boundingRect path
      = Returns (label, features) /\
    (label = "Unknown" <-> features = []) /\
    (features <> [] ->
     In label ["Branching"; "Plate/Table"; "Boulder"; "Encrusting"] /\
     map fst features
       = ["circularity"; "aspect_ratio"; "area"; "contours_found"] /\
     exists (img : gray_image) (area : Q) (n : Z),
       imread_gray path = Some img /\
       dict_get features "area" = Some area /\
       dict_get features "contours_found" = Some (inject_Z n) /\
       n = len (findContours (Canny img 50%Z 150%Z)) /\
       (1 <= n)%Z /\
       Forall (fun k => contourArea k <= area)
              (findContours (Canny img 50%Z 150%Z)) /\
       Exists (fun k => contourArea k = area)
              (findContours (Canny img 50%Z 150%Z))).
Proof.
  destruct (imread_gray path) as [img|] eqn:Hread.
  2:{ exists "Unknown", []. unfold analyze_morphology. rewrite Hread.
      split; [reflexivity|]. split; [tauto | congruence]. }
  destruct (findContours (Canny img 50%Z 150%Z)) as [|c cs] eqn:Hfound.
  { exists "Unknown", []. unfold analyze_morphology. rewrite Hread, Hfound.
    split; [reflexivity|]. split; [tauto | congruence]. }
  destruct (boundingRect (largest contourArea c cs)) as [[[x y] w] h] eqn:Hrect.
  pose proof (analyze_morphology_found imread_gray Canny findContours contourArea
                arcLength boundingRect path img c cs x y w h Hread Hfound Hrect)
    as Hres.
  cbv zeta in Hres. rewrite Hres.
  eexists _, _. split; [reflexivity|].
  pose proof (morphology_of_label
                (circularity_of (contourArea (largest contourArea c cs))
                                (arcLength (largest contourArea c cs) true))
                (aspect_ratio_of w h)) as Hlabel.
  destruct (largest_is_maximal contourArea c cs) as [Hin Hmax].
  split.
  { split; [|discriminate].
    intro Hu. rewrite Hu in Hlabel. simpl in Hlabel.
    repeat (destruct Hlabel as [Hlabel|Hlabel]; [discriminate|]).
    contradiction. }
  intros _. split; [exact Hlabel|]. split; [reflexivity|].
  exists img, (contourArea (largest contourArea c cs)), (len (c :: cs)).
  rewrite Hfound.
  split; [reflexivity|]. split; [reflexivity|]. split; [reflexivity|].
  split; [reflexivity|].
  split; [unfold len; simpl List.length; lia|].
  split; [exact Hmax|].
  apply Exists_exists. exists (largest contourArea c cs). split; [exact Hin | reflexivity].
Qed.

(** X8.  Outlines without area are Branching.  When the image decodes and
    every contour found has area 0 or a perimeter that is not positive,
    the circularity is 0 and the label is "Branching", whatever the bounding
    box. *)
Theorem flat_contours_are_branching
        {gray_image edge_map contour : Type}
        (imread_gray : string -> option gray_image)
        (Canny : gray_image -> Z -> Z -> edge_map)
        (findContours : edge_map -> list contour)
        (contourArea : contour -> Q) (arcLength : contour -> bool -> Q)
        (boundingRect : contour -> Z * Z * Z * Z)
        (path : string) (img : gray_image) (c : contour) (cs : list contour) :
  imread_gray path = Some img ->
  findContours (Canny img 50%Z 150%Z) = c :: cs ->
  Forall (fun k => contourArea k == 0 \/ arcLength k true <= 0) (c :: cs) ->
  exists (features : features_dict) (circularity : Q),
    analyze_morphology imread_gray Canny findContours contourArea arcLength
                       boundingRect path
      = Returns ("Branching", features) /\
    dict_get features "circularity" = Some circularity /\
    circularity == 0.
Proof.
  intros Hread Hfound Hflat.
  destruct (boundingRect (largest contourArea c cs)) as [[[x y] w] h] eqn:Hrect.
  pose proof (analyze_morphology_found imread_gray Canny findContours contourArea
                arcLength boundingRect path img c cs x y w h Hread Hfound Hrect)
    as Hres.
  cbv zeta in Hres. rewrite Hres.
  destruct (largest_is_maximal contourArea c cs) as [Hin _].
  rewrite Forall_forall in Hflat. specialize (Hflat _ Hin).
  set (area := contourArea (largest contourArea c cs)) in *.
  set (perimeter := arcLength (largest contourArea c cs) true) in *.
  assert (Hzero : circularity_of area perimeter == 0).
  { unfold circularity_of. cmp 0 perimeter; [|reflexivity].
    destruct Hflat as [Ha|Hp]; [|lra].
    rewrite Ha. unfold Qdiv. ring. }
  assert (Hlow : circularity_of area perimeter < 0.3) by lra.
  rewrite (morphology_of_branching _ (aspect_ratio_of w h) Hlow).
  eexists _, _. split; [reflexivity|]. split; [reflexivity | exact Hzero].
Qed.

Lemma flat_contours_are_branching_witness :
  Samples.gray_one "reef.jpg" [MoreSamples.dot; MoreSamples.hairline] "reef.jpg"
    = Some [MoreSamples.dot; MoreSamples.hairline] /\
  Samples.contours_id
    (Samples.canny_id [MoreSamples.dot; MoreSamples.hairline] 50%Z 150%Z)
    = [MoreSamples.dot; MoreSamples.hairline] /\
  Forall (fun k => Samples.m_area k == 0 \/ Samples.arc k true <= 0)
         [MoreSamples.dot; MoreSamples.hairline] /\
  exists (features : features_dict) (circularity : Q),
    Samples.analyze_measured
      (Samples.gray_one "reef.jpg" [MoreSamples.dot; MoreSamples.hairline])
      "reef.jpg"
      = Returns ("Branching", features) /\
    dict_get features "circularity" = Some circularity /\
    circularity == 0.
Proof.
  assert (Hflat : Forall (fun k => Samples.m_area k == 0 \/ Samples.arc k true <= 0)
                         [MoreSamples.dot; MoreSamples.hairline]).
  { repeat constructor; left; reflexivity. }
  split; [reflexivity|]. split; [reflexivity|]. split; [exact Hflat|].
  exact (flat_contours_are_branching
           (Samples.gray_one "reef.jpg" [MoreSamples.dot; MoreSamples.hairline])
           Samples.canny_id Samples.contours_id
           Samples.m_area Samples.arc Samples.m_rect
           "reef.jpg" [MoreSamples.dot; MoreSamples.hairline]
           MoreSamples.dot [MoreSamples.hairline] eq_refl eq_refl Hflat).
Defined.

Lemma analyze_morphology_shape_witness :
  exists (label : string) (features : features_dict),
    Samples.analyze_measured
      (Samples.gray_one "reef.jpg" [Samples.square; Samples.l_shape]) "reef.jpg"
      = Returns (label, features) /\
    features <> [] /\
    In label ["Branching"; "Plate/Table"; "Boulder"; "Encrusting"] /\
    map fst features
      = ["circularity"; "aspect_ratio"; "area"; "contours_found"] /\
    dict_get features "area" = Some 4536 /\
    dict_get features "contours_found" = Some 2.
Proof.
  destruct (analyze_morphology_shape
              (Samples.gray_one "reef.jpg" [Samples.square; Samples.l_shape])
              Samples.canny_id Samples.contours_id
              Samples.m_area Samples.arc Samples.m_rect "reef.jpg")
    as (label & features & Hres & _ & Hshape).
  assert (Hne : features <> []).
  { unfold Samples.analyze_measured in *.
    intro Hnil. rewrite Hnil in Hres. vm_compute in Hres. discriminate Hres. }
  destruct (Hshape Hne) as (Hlabel & Hkeys & _).
  exists label, features.
  split; [exact Hres|]. split; [exact Hne|].
  split; [exact Hlabel|]. split; [exact Hkeys|].
  vm_compute in Hres. injection Hres as _ <-. split; reflexivity.
Defined.

(** *** The order of the contours *)

(** With a single contour of largest area, that contour is chosen from
    any arrangement of the list. *)
Lemma largest_of_permutation {contour : Type} (contourArea : contour -> Q)
      (c : contour) (cs before after : list contour) (m : contour) :
  Permutation (c :: cs) (before ++ m :: after) ->
  Forall (fun k => contourArea k < contourArea m) before ->
  Forall (fun k => contourArea k < contourArea m) after ->
  largest contourArea c cs = m.
Proof.
  intros Hperm Hb Ha.
  destruct (largest_first contourArea c cs) as (b2 & a2 & Hsplit & Hb2 & Ha2).
  set (M := largest contourArea c cs) in *.
  assert (HM : In M (before ++ m :: after)).
  { eapply Permutation_in; [exact Hperm|].
    rewrite Hsplit. apply in_or_app. right. left. reflexivity. }
  assert (Hm : In m (b2 ++ M :: a2)).
  { rewrite <- Hsplit. eapply Permutation_in; [symmetry; exact Hperm|].
    apply in_or_app. right. left. reflexivity. }
  rewrite Forall_forall in Hb, Ha, Hb2, Ha2.
  apply in_app_or in HM. destruct HM as [HM|[HM|HM]]; [|now symmetry|];
    apply in_app_or in Hm; destruct Hm as [Hm|[Hm|Hm]]; try (now symmetry).
  - specialize (Hb _ HM). specialize (Hb2 _ Hm). simpl in *. lra.
  - specialize (Hb _ HM). specialize (Ha2 _ Hm). simpl in *. lra.
  - specialize (Ha _ HM). specialize (Hb2 _ Hm). simpl in *. lra.
  - specialize (Ha _ HM). specialize (Ha2 _ Hm). simpl in *. lra.
Qed.

(** X9.  The order in which the contours are reported matters only through
    ties: when one contour has strictly the largest area, two contour
    extractions that report the same contours in different orders give the
    same label and the same features. *)
Theorem contour_order_is_immaterial
        {gray_image edge_map contour : Type}
        (imread_gray : string -> option gray_image)
        (Canny : gray_image -> Z -> Z -> edge_map)
        (findContours findContours' : edge_map -> list contour)
        (contourArea : contour -> Q) (arcLength : contour -> bool -> Q)
        (boundingRect : contour -> Z * Z * Z * Z)
        (path : string) (img : gray_image)
        (before after : list contour) (m : contour) :
  imread_gray path = Some img ->
  findContours (Canny img 50%Z 150%Z) = (before ++ m :: after)%list ->
  Permutation (findContours (Canny img 50%Z 150%Z))
              (findContours' (Canny img 50%Z 150%Z)) ->
  Forall (fun k => contourArea k < contourArea m) before ->
  Forall (fun k => contourArea k < contourArea m) after ->
  analyze_morphology imread_gray Canny findContours contourArea arcLength
                     boundingRect path
  = analyze_morphology imread_gray Canny findContours' contourArea arcLength
                       boundingRect path.
Proof.
  intros Hread Hsplit Hperm Hb Ha.
  assert (Hlen : List.length (findContours (Canny img 50%Z 150%Z))
                 = List.length (findContours' (Canny img 50%Z 150%Z)))
    by (apply Permutation_length, Hperm).
  destruct (findContours (Canny img 50%Z 150%Z)) as [|c cs] eqn:H1.
  { destruct before; discriminate. }
  destruct (findContours' (Canny img 50%Z 150%Z)) as [|c' cs'] eqn:H2.
  { discriminate. }
  assert (L1 : largest contourArea c cs = m).
  { apply (largest_of_permutation contourArea c cs before after m);
      [rewrite Hsplit; apply Permutation_refl | assumption | assumption]. }
  assert (L2 : largest contourArea c' cs' = m).
  { apply (largest_of_permutation contourArea c' cs' before after m);
      [rewrite <- Hsplit; symmetry; exact Hperm | assumption | assumption]. }
  unfold analyze_morphology. rewrite Hread, H1, H2.
  cbv zeta. rewrite L1, L2. unfold len. rewrite Hlen. reflexivity.
Qed.

Lemma contour_order_is_immaterial_witness :
  Samples.gray_one "reef.jpg" [Samples.square; Samples.l_shape] "reef.jpg"
    = Some [Samples.square; Samples.l_shape] /\
  Samples.contours_id
    (Samples.canny_id [Samples.square; Samples.l_shape] 50%Z 150%Z)
    = ([Samples.square] ++ Samples.l_shape :: [])%list /\
  Permutation
    (Samples.contours_id
       (Samples.canny_id [Samples.square; Samples.l_shape] 50%Z 150%Z))
    (rev (Samples.canny_id [Samples.square; Samples.l_shape] 50%Z 150%Z)) /\
  Forall (fun k => Samples.m_area k < Samples.m_area Samples.l_shape)
         [Samples.square] /\
  Forall (fun k => Samples.m_area k < Samples.m_area Samples.l_shape) [] /\
  analyze_morphology
    (Samples.gray_one "reef.jpg" [Samples.square; Samples.l_shape])
    Samples.canny_id Samples.contours_id
    Samples.m_area Samples.arc Samples.m_rect "reef.jpg"
  = analyze_morphology
      (Samples.gray_one "reef.jpg" [Samples.square; Samples.l_shape])
      Samples.canny_id (@rev Samples.measured)
      Samples.m_area Samples.arc Samples.m_rect "reef.jpg".
Proof.
  assert (Hperm : Permutation
            (Samples.contours_id
               (Samples.canny_id [Samples.square; Samples.l_shape] 50%Z 150%Z))
            (rev (Samples.canny_id [Samples.square; Samples.l_shape] 50%Z 150%Z)))
    by apply Permutation_rev.
  assert (Hb : Forall (fun k => Samples.m_area k < Samples.m_area Samples.l_shape)
                      [Samples.square])
    by (repeat constructor).
  split; [reflexivity|]. split; [reflexivity|]. split; [exact Hperm|].
  split; [exact Hb|]. split; [constructor|].
  exact (contour_order_is_immaterial
           (Samples.gray_one "reef.jpg" [Samples.square; Samples.l_shape])
           Samples.canny_id Samples.contours_id (@rev Samples.measured)
           Samples.m_area Samples.arc Samples.m_rect
           "reef.jpg" [Samples.square; Samples.l_shape]
           [Samples.square] [] Samples.l_shape
           eq_refl eq_refl Hperm Hb (Forall_nil _)).
Defined.

End MorphologyMore.

(** ** The species table *)

Module DatabaseMore.

Import PyFacts CoralDatabase DatabaseFacts.

Lemma populate_nonempty (d : database) :
  coral_species d <> [] -> populate_coral_species d = (tt, d).
Proof.
  intro Hne. unfold populate_coral_species.
  destruct (coral_species d) as [|r rows] eqn:E; [congruence|].
  simpl List.length. rewrite Nat2Z.inj_succ.
  destruct (Z.eqb_spec (Z.succ (Z.of_nat (List.length rows))) 0); [lia | reflexivity].
Qed.

Lemma populate_empty (d : database) :
  coral_species d = [] -> snd (populate_coral_species d) = populated.
Proof.
  intro He. unfold populate_coral_species. rewrite He. reflexivity.
Qed.

Lemma init_is_populate (d : database) :
  snd (init d) = snd (populate_coral_species d).
Proof.
  unfold init, bind, create_tables.
  destruct (populate_coral_species d). reflexivity.
Qed.

Lemma init_nonempty (d : database) : coral_species (snd (init d)) <> [].
Proof.
  rewrite init_is_populate.
  assert (H : coral_species d = [] \/ coral_species d <> [])
    by (destruct (coral_species d); [left; reflexivity | right; discriminate]).
  destruct H as [He|Hne].
  - rewrite populate_empty by assumption. discriminate.
  - rewrite populate_nonempty by assumption. exact Hne.
Qed.

(** X10.  Opening the database never duplicates species.  After [__init__]
    the species table is not empty; a table that already had rows is left
    exactly as it was, an empty one gets the nine species with keys 1 to 9;
    so running [__init__] again changes nothing, and keys that were distinct
    stay distinct. *)
Theorem init_is_idempotent (d : database) :
  coral_species (snd (init d)) <> [] /\
  snd (init (snd (init d))) = snd (init d) /\
  (coral_species d <> [] -> snd (init d) = d) /\
  (coral_species d = [] ->
     map snd (coral_species (snd (init d))) = corals /\
     map fst (coral_species (snd (init d))) = [1; 2; 3; 4; 5; 6; 7; 8; 9]%Z) /\
  (NoDup (map fst (coral_species d)) ->
     NoDup (map fst (coral_species (snd (init d))))).
Proof.
  rewrite !init_is_populate.
  assert (Hcases : (coral_species d <> []
                    /\ snd (populate_coral_species d) = d)
                   \/ (coral_species d = []
                       /\ snd (populate_coral_species d) = populated)).
  { assert (H : coral_species d = [] \/ coral_species d <> [])
      by (destruct (coral_species d); [left; reflexivity | right; discriminate]).
    destruct H as [He|Hne].
    - right. split; [exact He | now apply populate_empty].
    - left. split; [exact Hne|]. now rewrite populate_nonempty. }
  assert (Hpop : coral_species populated <> []) by discriminate.
  split; [rewrite <- init_is_populate; apply init_nonempty|].
  split.
  { rewrite populate_nonempty; [reflexivity|].
    rewrite <- init_is_populate. apply init_nonempty. }
  split.
  { intro Hne. now rewrite populate_nonempty. }
  split.
  { intro He. rewrite populate_empty by assumption. split; reflexivity. }
  destruct Hcases as [[Hne Heq]|[He Heq]]; rewrite Heq; [auto|].
  intros _. vm_compute. repeat (constructor; [simpl; intuition discriminate|]).
  constructor.
Qed.

Lemma init_is_idempotent_witness :
  coral_species MoreSamples.legacy <> [] /\
  snd (init MoreSamples.legacy) = MoreSamples.legacy /\
  coral_species fresh = [] /\
  map snd (coral_species (snd (init fresh))) = corals /\
  map fst (coral_species (snd (init fresh))) = [1; 2; 3; 4; 5; 6; 7; 8; 9]%Z.
Proof.
  assert (Hne : coral_species MoreSamples.legacy <> []) by discriminate.
  split; [exact Hne|].
  split; [exact (proj1 (proj2 (proj2 (init_is_idempotent MoreSamples.legacy))) Hne)|].
  split; [reflexivity|].
  exact (proj1 (proj2 (proj2 (proj2 (init_is_idempotent fresh)))) eq_refl).
Defined.

(** What the resolver returns, from its query. *)
Lemma identify_coral_result (image_features : string) (d : database) :
  fst (identify_coral image_features d)
  = match
      fst ((if str_in "branch" (lower image_features) then
              select_morphology "Branching"
            else if str_in "boulder" (lower image_features)
                    || str_in "massive" (lower image_features) then
              select_morphology "Boulder"
            else if str_in "plate" (lower image_features)
                    || str_in "table" (lower image_features) then
              select_morphology "Plate/Table"
            else select_first) d)
    with
    | Some row => (Some (species_info row), 85.5)
    | None => (None, 0)
    end.
Proof.
  unfold identify_coral, bind, ret.
  match goal with
  | |- fst (let '(a, d') := ?query in _) = _ => destruct query as [[row|] d']
  end; reflexivity.
Qed.

Lemma find_none_tagged (tag : string) (table : list species_row) :
  find (fun row : species_row => String.eqb (morphology (snd row)) tag) table = None ->
  Forall (fun row : species_row => morphology (snd row) <> tag) table.
Proof.
  induction table as [|r table IH]; simpl; [constructor|].
  destruct (String.eqb_spec (morphology (snd r)) tag); [discriminate|].
  intro H. constructor; auto.
Qed.

(** X11.  After [__init__], on any database file, an input without any of the
    five keywords always gets the first row of the table with confidence
    85.5.  The null answer with confidence 0 is only returned when a keyword
    was found and no row carries the tag of that keyword. *)
Theorem null_answer_needs_keyword (d : database) (image_features : string) :
  let opened := snd (init d) in
  let result := fst (identify_coral image_features opened) in
  let branch := contains_ci "branch" image_features in
  let boulder :=
    contains_ci "boulder" image_features \/ contains_ci "massive" image_features in
  let plate :=
    contains_ci "plate" image_features \/ contains_ci "table" image_features in
  (~ branch -> ~ boulder -> ~ plate ->
   exists row rows,
     coral_species opened = row :: rows /\
     result = (Some (species_info row), 85.5)) /\
  (result = (None, 0) ->
   (branch /\
    Forall (fun row : species_row => morphology (snd row) <> "Branching")
           (coral_species opened)) \/
   (~ branch /\ boulder /\
    Forall (fun row : species_row => morphology (snd row) <> "Boulder")
           (coral_species opened)) \/
   (~ branch /\ ~ boulder /\ plate /\
    Forall (fun row : species_row => morphology (snd row) <> "Plate/Table")
           (coral_species opened))).
Proof.
  intros opened result branch boulder plate.
  assert (Hne : coral_species opened <> [])
    by apply init_nonempty.
  assert (Hbranch : str_in "branch" (lower image_features) = true <-> branch)
    by apply str_in_lower.
  assert (Hboulder : str_in "boulder" (lower image_features)
                     || str_in "massive" (lower image_features) = true <-> boulder).
  { rewrite orb_true_iff, !str_in_lower. reflexivity. }
  assert (Hplate : str_in "plate" (lower image_features)
                   || str_in "table" (lower image_features) = true <-> plate).
  { rewrite orb_true_iff, !str_in_lower. reflexivity. }
  unfold result. rewrite identify_coral_result.
  destruct (str_in "branch" (lower image_features)) eqn:E1.
  { split; [intros H; exfalso; apply H, Hbranch; reflexivity|].
    unfold select_morphology. simpl fst.
    destruct (find _ (coral_species opened)) eqn:Ef; [discriminate|].
    intros _. left. split; [now apply Hbranch | now apply find_none_tagged]. }
  assert (Hnb : ~ branch) by (intro H; apply Hbranch in H; discriminate).
  destruct (str_in "boulder" (lower image_features)
            || str_in "massive" (lower image_features)) eqn:E2.
  { split; [intros _ H; exfalso; apply H, Hboulder; reflexivity|].
    unfold select_morphology. simpl fst.
    destruct (find _ (coral_species opened)) eqn:Ef; [discriminate|].
    intros _. right. left.
    split; [exact Hnb|]. split; [now apply Hboulder | now apply find_none_tagged]. }
  assert (Hnbo : ~ boulder) by (intro H; apply Hboulder in H; discriminate).
  destruct (str_in "plate" (lower image_features)
            || str_in "table" (lower image_features)) eqn:E3.
  { split; [intros _ _ H; exfalso; apply H, Hplate; reflexivity|].
    unfold select_morphology. simpl fst.
    destruct (find _ (coral_species opened)) eqn:Ef; [discriminate|].
    intros _. right. right.
    split; [exact Hnb|]. split; [exact Hnbo|].
    split; [now apply Hplate | now apply find_none_tagged]. }
  unfold select_first. simpl fst.
  destruct (coral_species opened) as [|row rows]; [congruence|]. simpl.
  split; [|discriminate].
  intros _ _ _. now exists row, rows.
Qed.

Lemma null_answer_needs_keyword_witness :
  ~ contains_ci "branch" "encrusting coral" /\
  ~ (contains_ci "boulder" "encrusting coral"
     \/ contains_ci "massive" "encrusting coral") /\
  ~ (contains_ci "plate" "encrusting coral"
     \/ contains_ci "table" "encrusting coral") /\
  (exists row rows,
      coral_species (snd (init MoreSamples.legacy)) = row :: rows /\
      fst (identify_coral "encrusting coral" (snd (init MoreSamples.legacy)))
      = (Some (species_info row), 85.5)) /\
  fst (identify_coral "branching coral" (snd (init MoreSamples.legacy)))
  = (None, 0) /\
  contains_ci "branch" "branching coral" /\
  Forall (fun row : species_row => morphology (snd row) <> "Branching")
         (coral_species (snd (init MoreSamples.legacy))).
Proof.
  assert (H : forall kw, str_in kw (lower "encrusting coral") = false ->
                         ~ contains_ci kw "encrusting coral").
  { intro kw. apply str_in_lower_false. }
  assert (H1 : ~ contains_ci "branch" "encrusting coral")
    by (apply H; reflexivity).
  assert (H2 : ~ (contains_ci "boulder" "encrusting coral"
                  \/ contains_ci "massive" "encrusting coral")).
  { intros [K|K]; revert K; apply H; reflexivity. }
  assert (H3 : ~ (contains_ci "plate" "encrusting coral"
                  \/ contains_ci "table" "encrusting coral")).
  { intros [K|K]; revert K; apply H; reflexivity. }
  assert (Hnull : fst (identify_coral "branching coral"
                                      (snd (init MoreSamples.legacy)))
                  = (None, 0)) by reflexivity.
  split; [exact H1|]. split; [exact H2|]. split; [exact H3|].
  split.
  { exact (proj1 (null_answer_needs_keyword MoreSamples.legacy "encrusting coral")
                 H1 H2 H3). }
  split; [exact Hnull|].
  destruct (proj2 (null_answer_needs_keyword MoreSamples.legacy "branching coral")
                  Hnull)
    as [[Hb Hall]|[[Hnb _]|[Hnb _]]].
  - split; assumption.
  - exfalso. apply Hnb. exists "", "branch", "ing coral". split; reflexivity.
  - exfalso. apply Hnb. exists "", "branch", "ing coral". split; reflexivity.
Defined.

End DatabaseMore.

(** ** The analyses table *)

Module StoreFacts.

Import CoralDatabase AnalysisStore.












Lemma find_append {A : Type} (f : A -> bool) (l1 l2 : list A) :
  find f (l1 ++ l2)%list
  = match find f l1 with
    | Some x => Some x
    | None => find f l2
    end.
Proof.
  induction l1 as [|x l1 IH]; simpl; [reflexivity|].
  destruct (f x); [reflexivity | exact IH].
Qed.

Lemma items_first_missing (d : dict) (ks : list string) :
  match find (fun k => match item d k with None => true | Some _ => false end) ks with
  | Some k => items d ks = KeyError k
  | None => exists vs, items d ks = Done vs
  end.
Proof.
  induction ks as [|k ks IH]; simpl.
  - now exists [].
  - destruct (item d k) as [v|]; [|reflexivity].
    destruct (find _ ks) as [k'|].
    + now rewrite IH.
    + destruct IH as [vs ->]. now exists (v :: vs).
Qed.

(** X13.  A save that fails writes nothing.  When the dict lacks one of the ten
    keys, [save_analysis] raises the [KeyError] of the first missing key in
    the order filename, timestamp, predicted_species, confidence,
    health_status, health_confidence, bleaching_percentage, family, genus,
    insights; and whenever the call does not return a key, the database is
    exactly as before. *)
Theorem save_analysis_failure
        (json_dumps : py_value -> string) (d : dict) (s : store) :
  (forall key,
      first_missing d = Some key ->
      save_analysis json_dumps d s = (KeyError key, s)) /\
  (forall id, fst (save_analysis json_dumps d s) = Done id ->
              first_missing d = None) /\
  ((forall id, fst (save_analysis json_dumps d s) <> Done id) ->
   snd (save_analysis json_dumps d s) = s).
Proof.
  pose proof (items_first_missing d scalar_keys) as Hitems.
  unfold first_missing. rewrite find_append.
  unfold save_analysis.
  destruct (find _ scalar_keys) as [k|].
  { rewrite Hitems. repeat split.
    - intros key Hk. injection Hk as <-. reflexivity.
    - intros id H. discriminate H. }
  destruct Hitems as [vs ->]. simpl find.
  destruct (item d "insights") as [insights|].
  2:{ repeat split.
      - intros key Hk. injection Hk as <-. reflexivity.
      - intros id H. discriminate H. }
  repeat split.
  - intros key Hk. discriminate Hk.
  - destruct (bind_cells (map snd columns) vs)
      as [[|c1 [|c2 [|c3 [|c4 [|c5 [|c6 [|c7 [|c8 [|c9 [|c10 cs]]]]]]]]]]|k| |];
      try reflexivity.
    intro H. exfalso. apply (H (new_id s)). reflexivity.
Qed.

Lemma save_analysis_failure_witness :
  first_missing MoreSamples.short_data = Some "family" /\
  save_analysis MoreSamples.dumps MoreSamples.short_data MoreSamples.used_store
  = (KeyError "family", MoreSamples.used_store).
Proof.
  split; [reflexivity|].
  exact (proj1 (save_analysis_failure MoreSamples.dumps MoreSamples.short_data
                                      MoreSamples.used_store)
               "family" eq_refl).
Defined.

End StoreFacts.

(** ** The analysis steps of the app *)

Module AppFacts.

Import PyFacts HealthAnalyzer HealthFacts CoralDatabase AnalysisStore CoralAIPro.

Lemma analyze_morphology_label
      {gray_image edge_map contour : Type}
      (imread_gray : string -> option gray_image)
      (Canny : gray_image -> Z -> Z -> edge_map)
      (findContours : edge_map -> list contour)
      (contourArea : contour -> Q) (arcLength : contour -> bool -> Q)
      (boundingRect : contour -> Z * Z * Z * Z)
      (path : string) :
  exists label features,
    analyze_morphology imread_gray Canny findContours contourArea arcLength
                       boundingRect path
      = Returns (label, features) /\
    In label ["Branching"; "Plate/Table"; "Boulder"; "Encrusting"; "Unknown"].
Proof.
  unfold analyze_morphology.
  destruct (imread_gray path) as [img|].
  2:{ eexists _, _. split; [reflexivity|]. simpl. auto 10. }
  destruct (findContours (Canny img 50%Z 150%Z)) as [|c cs].
  { eexists _, _. split; [reflexivity|]. simpl. auto 10. }
  cbv zeta.
  destruct (boundingRect (largest contourArea c cs)) as [[[x y] w] h].
  eexists _, _. split; [reflexivity|].
  pose proof (MorphologyMore.morphology_of_label
                (circularity_of (contourArea (largest contourArea c cs))
                                (arcLength (largest contourArea c cs) true))
                (aspect_ratio_of w h)) as H.
  simpl in H. simpl. intuition.
Qed.

Lemma analyze_morphology_unknown
      {gray_image edge_map contour : Type}
      (imread_gray : string -> option gray_image)
      (Canny : gray_image -> Z -> Z -> edge_map)
      (findContours : edge_map -> list contour)
      (contourArea : contour -> Q) (arcLength : contour -> bool -> Q)
      (boundingRect : contour -> Z * Z * Z * Z)
      (path : string) (img : gray_image) (label : string)
      (features : features_dict) :
  imread_gray path = Some img ->
  analyze_morphology imread_gray Canny findContours contourArea arcLength
                     boundingRect path
    = Returns (label, features) ->
  (label = "Unknown" <-> findContours (Canny img 50%Z 150%Z) = []).
Proof.
  intros Hread. unfold analyze_morphology. rewrite Hread.
  destruct (findContours (Canny img 50%Z 150%Z)) as [|c cs].
  { intro H. injection H as <- _. split; reflexivity. }
  cbv zeta.
  destruct (boundingRect (largest contourArea c cs)) as [[[x y] w] h].
  intro H. injection H as <- _.
  pose proof (MorphologyMore.morphology_of_label
                (circularity_of (contourArea (largest contourArea c cs))
                                (arcLength (largest contourArea c cs) true))
                (aspect_ratio_of w h)) as Hl.
  split; [|discriminate].
  intro Hu. rewrite Hu in Hl. simpl in Hl.
  repeat (destruct Hl as [Hl|Hl]; [discriminate|]). destruct Hl.
Qed.

Lemma detect_bleaching_status
      (imread : string -> option image)
      (KMeans_cluster_centers : list rgb -> list (Q * Q * Q))
      (path : string) (p : Q) (status : string) (c : Q) :
  detect_bleaching imread KMeans_cluster_centers path = Returns (p, status, c) ->
  (imread path = None /\ status = "Unknown") \/
  (imread path <> None /\ status = fst (health_status_of p)).
Proof.
  unfold detect_bleaching.
  destruct (imread path) as [img|].
  - destruct (dominant_colors KMeans_cluster_centers img); [discriminate|].
    destruct (health_status_of (bleaching_score_of KMeans_cluster_centers img * 100))
      as [st conf] eqn:E.
    intro H. injection H as <- <- _. right. split; [discriminate|].
    now rewrite E.
  - intro H. injection H as _ <- _. left. split; reflexivity.
Qed.

(** What [analyze_upload] runs when the results are shown: the two analyzer
    calls on the re-encoded upload and the species query. *)
Lemma analyze_upload_shown
      {upload jpeg gray_image edge_map contour : Type}
      (reencode : upload -> option jpeg)
      (decode : jpeg -> image) (decode_gray : jpeg -> gray_image)
      (KMeans_cluster_centers : list rgb -> list (Q * Q * Q))
      (Canny : gray_image -> Z -> Z -> edge_map)
      (findContours : edge_map -> list contour)
      (contourArea : contour -> Q) (arcLength : contour -> bool -> Q)
      (boundingRect : contour -> Z * Z * Z * Z)
      (uploaded_file : upload) (upload_path : string) (s s' : store)
      (a : analysis) :
  analyze_upload reencode decode decode_gray KMeans_cluster_centers Canny
                 findContours contourArea arcLength boundingRect
                 uploaded_file upload_path s
    = (Shown a, s') ->
  exists file,
    reencode uploaded_file = Some file /\
    In (r_morphology a)
       ["Branching"; "Plate/Table"; "Boulder"; "Encrusting"; "Unknown"] /\
    (r_morphology a = "Unknown"
     <-> findContours (Canny (decode_gray file) 50%Z 150%Z) = []) /\
    r_health_status a = fst (health_status_of (r_bleaching_percentage a)) /\
    (r_species_info a, r_species_confidence a, s')
    = on_species (identify_coral (image_features_of (r_morphology a))) s.
Proof.
  unfold analyze_upload.
  destruct (reencode uploaded_file) as [file|]; [|discriminate].
  set (imread := fun path : string =>
                   if String.eqb path upload_path then Some (decode file) else None).
  set (imread_gray := fun path : string =>
                        if String.eqb path upload_path
                        then Some (decode_gray file) else None).
  assert (Hread : imread upload_path = Some (decode file))
    by (unfold imread; now rewrite String.eqb_refl).
  assert (Hgray : imread_gray upload_path = Some (decode_gray file))
    by (unfold imread_gray; now rewrite String.eqb_refl).
  unfold run_analysis.
  destruct (analyze_morphology_label imread_gray Canny findContours contourArea
              arcLength boundingRect upload_path)
    as (label & features & Hm & Hlabel).
  pose proof (analyze_morphology_unknown imread_gray Canny findContours
                contourArea arcLength boundingRect upload_path
                (decode_gray file) label features Hgray Hm) as Hunknown.
  rewrite Hm.
  destruct (detect_bleaching imread KMeans_cluster_centers upload_path)
    as [[[p status] c]|e] eqn:Hd; [|discriminate].
  destruct (detect_bleaching_status _ _ _ _ _ _ Hd) as [[Hn _]|[_ Hst]];
    [congruence|].
  destruct (on_species (identify_coral (image_features_of label)) s)
    as [[info confidence] s''] eqn:Hs.
  intro H. injection H as <- <-. simpl.
  exists file. split; [reflexivity|]. split; [exact Hlabel|].
  split; [exact Hunknown|]. split; [exact Hst|]. symmetry. exact Hs.
Qed.

(** X14.  An upload that Pillow cannot open and write as JPEG is not analysed
    and the database stays as it was.  Otherwise, with the nine-species
    table, what the app shows is fixed by the morphology label: Branching
    shows Staghorn Coral and the branching figure, Plate/Table shows Table
    Coral and the plate figure, Boulder shows Great Star Coral and the
    boulder figure, while Encrusting and "Unknown" show Staghorn Coral, a
    species tagged Branching, with the default figure.  The label is
    "Unknown" exactly when no contour is found in the picture.  The species
    confidence is 85.5 in every case, the recovery potential shown is never
    'High', and the analysis leaves the database as it was. *)
Theorem shown_by_label
        {upload jpeg gray_image edge_map contour : Type}
        (reencode : upload -> option jpeg)
        (decode : jpeg -> image) (decode_gray : jpeg -> gray_image)
        (KMeans_cluster_centers : list rgb -> list (Q * Q * Q))
        (Canny : gray_image -> Z -> Z -> edge_map)
        (findContours : edge_map -> list contour)
        (contourArea : contour -> Q) (arcLength : contour -> bool -> Q)
        (boundingRect : contour -> Z * Z * Z * Z)
        (uploaded_file : upload) (upload_path : string) (s : store) :
  species s = populated ->
  (reencode uploaded_file = None ->
   analyze_upload reencode decode decode_gray KMeans_cluster_centers Canny
                  findContours contourArea arcLength boundingRect
                  uploaded_file upload_path s
   = (NotAnImage, s)) /\
  (forall (a : analysis) (s' : store),
      analyze_upload reencode decode decode_gray KMeans_cluster_centers Canny
                     findContours contourArea arcLength boundingRect
                     uploaded_file upload_path s
      = (Shown a, s') ->
      s' = s /\
      r_species_confidence a = 85.5 /\
      (exists file,
          reencode uploaded_file = Some file /\
          (r_morphology a = "Unknown"
           <-> findContours (Canny (decode_gray file) 50%Z 150%Z) = [])) /\
      exists info name tag,
        r_species_info a = Some info /\
        get info "common_name" = Some (SqlText name) /\
        get info "morphology" = Some (SqlText tag) /\
        In (r_morphology a, name, tag, model_title (r_morphology a)) shown /\
        recovery_potential info = "Medium-Low").
Proof.
  intros Hsp. split.
  { intro Hnone. unfold analyze_upload. now rewrite Hnone. }
  intros a s' Hrun.
  destruct (analyze_upload_shown _ _ _ _ _ _ _ _ _ _ _ _ _ _ Hrun)
    as (file & Hfile & Hlabel & Hunknown & _ & Hspecies).
  destruct s as [sp rows seq]. simpl in Hsp. subst sp.
  destruct a as [label features p status c info confidence].
  simpl in Hlabel, Hunknown, Hspecies. simpl.
  assert (Hfound : exists file0,
             reencode uploaded_file = Some file0 /\
             (label = "Unknown"
              <-> findContours (Canny (decode_gray file0) 50%Z 150%Z) = []))
    by (exists file; split; assumption).
  clear Hunknown Hfile Hrun.
  destruct Hlabel as [<-|[<-|[<-|[<-|[<-|[]]]]]];
    vm_compute in Hspecies; injection Hspecies as -> -> ->;
    (split; [reflexivity|]); (split; [reflexivity|]);
    (split; [exact Hfound|]);
    eexists _, _, _; (split; [reflexivity|]);
    (split; [reflexivity|]); (split; [reflexivity|]);
    (split; [|reflexivity]); simpl; auto 10.
Qed.

(** A pale yellow picture with two contours, and bytes that are not an
    image. *)
Lemma shown_by_label_witness :
  species MoreSamples.used_store = populated /\
  MoreSamples.analyze_picture None MoreSamples.used_store
  = (NotAnImage, MoreSamples.used_store) /\
  exists (a : analysis) (s' : store),
    MoreSamples.analyze_picture
      (Some (Samples.pale_yellow_img, [Samples.square; Samples.l_shape]))
      MoreSamples.used_store
    = (Shown a, s') /\
    s' = MoreSamples.used_store /\
    r_species_confidence a = 85.5 /\
    r_morphology a = "Plate/Table" /\
    exists info name tag,
      r_species_info a = Some info /\
      get info "common_name" = Some (SqlText name) /\
      get info "morphology" = Some (SqlText tag) /\
      In (r_morphology a, name, tag, model_title (r_morphology a)) shown /\
      recovery_potential info = "Medium-Low".
Proof.
  split; [reflexivity|].
  split.
  { exact (proj1 (shown_by_label
                    MoreSamples.reencode_picture fst snd Samples.kmeans_same_point
                    Samples.canny_id Samples.contours_id
                    Samples.m_area Samples.arc Samples.m_rect
                    None "/tmp/upload.jpg" MoreSamples.used_store eq_refl)
                 eq_refl). }
  destruct (MoreSamples.analyze_picture
              (Some (Samples.pale_yellow_img, [Samples.square; Samples.l_shape]))
              MoreSamples.used_store)
    as [[|e|a] s'] eqn:Hrun;
    [vm_compute in Hrun; discriminate Hrun
    |vm_compute in Hrun; discriminate Hrun|].
  exists a, s'. split; [reflexivity|].
  assert (Hlabel : r_morphology a = "Plate/Table").
  { vm_compute in Hrun. injection Hrun as <- _. reflexivity. }
  destruct (proj2 (shown_by_label
                     MoreSamples.reencode_picture fst snd Samples.kmeans_same_point
                     Samples.canny_id Samples.contours_id
                     Samples.m_area Samples.arc Samples.m_rect
                     (Some (Samples.pale_yellow_img,
                            [Samples.square; Samples.l_shape]))
                     "/tmp/upload.jpg" MoreSamples.used_store eq_refl)
                  a s' Hrun)
    as (Hs & Hconf & _ & Hshown).
  split; [exact Hs|]. split; [exact Hconf|]. split; [exact Hlabel | exact Hshown].
Defined.

(** X15.  For every upload that is analysed, the status is one of the five
    labels of the chain, never "Unknown", and the conservation notice
    follows the percentage: above 20 the app shows "IMMEDIATE ACTION
    REQUIRED" on a bleached card; above 5 and up to 20 it shows "INCREASED
    VIGILANCE NEEDED"; at 5 or below it shows "HEALTHY - MAINTENANCE PHASE";
    the last two on a healthy card. *)
Theorem notice_by_percentage
        {upload jpeg gray_image edge_map contour : Type}
        (reencode : upload -> option jpeg)
        (decode : jpeg -> image) (decode_gray : jpeg -> gray_image)
        (KMeans_cluster_centers : list rgb -> list (Q * Q * Q))
        (Canny : gray_image -> Z -> Z -> edge_map)
        (findContours : edge_map -> list contour)
        (contourArea : contour -> Q) (arcLength : contour -> bool -> Q)
        (boundingRect : contour -> Z * Z * Z * Z)
        (uploaded_file : upload) (upload_path : string) (s s' : store)
        (a : analysis) :
  analyze_upload reencode decode decode_gray KMeans_cluster_centers Canny
                 findContours contourArea arcLength boundingRect
                 uploaded_file upload_path s
    = (Shown a, s') ->
  let percentage := r_bleaching_percentage a in
  let status := r_health_status a in
  In status labels /\
  status <> "Unknown" /\
  (20 < percentage ->
     conservation_notice status = st_error /\
     card_class status = "bleached-card") /\
  (5 < percentage <= 20 ->
     conservation_notice status = st_warning /\
     card_class status = "healthy-card") /\
  (percentage <= 5 ->
     conservation_notice status = st_success /\
     card_class status = "healthy-card").
Proof.
  intros Hrun percentage status.
  destruct (analyze_upload_shown _ _ _ _ _ _ _ _ _ _ _ _ _ _ Hrun)
    as (file & _ & _ & _ & Hst & _).
  fold percentage status in Hst.
  split; [rewrite Hst; apply health_status_of_label|].
  split.
  { pose proof (health_status_of_label percentage) as Hl. rewrite <- Hst in Hl.
    intro Hu. rewrite Hu in Hl. unfold labels in Hl. simpl in Hl.
    repeat (destruct Hl as [Hl|Hl]; [discriminate|]). exact Hl. }
  rewrite Hst. unfold health_status_of.
  cmp 40 percentage; [|cmp 20 percentage; [|cmp 10 percentage; [|cmp 5 percentage]]];
    simpl fst; repeat split; intros; try reflexivity; lra.
Qed.

(** The pale yellow picture has percentage 1900/51, above 20: the error
    notice on a bleached card.  The saturated brown one has 4.5: the
    healthy notice. *)
Lemma notice_by_percentage_witness :
  (exists (a : analysis) (s' : store),
      MoreSamples.analyze_picture
        (Some (Samples.pale_yellow_img, [Samples.square; Samples.l_shape]))
        MoreSamples.used_store
      = (Shown a, s') /\
      20 < r_bleaching_percentage a /\
      conservation_notice (r_health_status a) = st_error /\
      card_class (r_health_status a) = "bleached-card") /\
  (exists (a : analysis) (s' : store),
      MoreSamples.analyze_picture
        (Some (MoreSamples.saturated_brown_img, [Samples.square]))
        MoreSamples.used_store
      = (Shown a, s') /\
      r_bleaching_percentage a <= 5 /\
      conservation_notice (r_health_status a) = st_success /\
      card_class (r_health_status a) = "healthy-card").
Proof.
  split.
  - destruct (MoreSamples.analyze_picture
                (Some (Samples.pale_yellow_img, [Samples.square; Samples.l_shape]))
                MoreSamples.used_store)
      as [[|e|a] s'] eqn:Hrun;
      [vm_compute in Hrun; discriminate Hrun
      |vm_compute in Hrun; discriminate Hrun|].
    exists a, s'. split; [reflexivity|].
    assert (Hp : 20 < r_bleaching_percentage a).
    { vm_compute in Hrun. injection Hrun as <- _. reflexivity. }
    split; [exact Hp|].
    exact (proj1 (proj2 (proj2 (notice_by_percentage
                                  MoreSamples.reencode_picture fst snd
                                  Samples.kmeans_same_point
                                  Samples.canny_id Samples.contours_id
                                  Samples.m_area Samples.arc Samples.m_rect
                                  (Some (Samples.pale_yellow_img,
                                         [Samples.square; Samples.l_shape]))
                                  "/tmp/upload.jpg" MoreSamples.used_store s' a
                                  Hrun)))
                 Hp).
  - destruct (MoreSamples.analyze_picture
                (Some (MoreSamples.saturated_brown_img, [Samples.square]))
                MoreSamples.used_store)
      as [[|e|a] s'] eqn:Hrun;
      [vm_compute in Hrun; discriminate Hrun
      |vm_compute in Hrun; discriminate Hrun|].
    exists a, s'. split; [reflexivity|].
    assert (Hp : r_bleaching_percentage a <= 5).
    { vm_compute in Hrun. injection Hrun as <- _. vm_compute. discriminate. }
    split; [exact Hp|].
    exact (proj2 (proj2 (proj2 (proj2 (notice_by_percentage
                                  MoreSamples.reencode_picture fst snd
                                  Samples.kmeans_same_point
                                  Samples.canny_id Samples.contours_id
                                  Samples.m_area Samples.arc Samples.m_rect
                                  (Some (MoreSamples.saturated_brown_img,
                                         [Samples.square]))
                                  "/tmp/upload.jpg" MoreSamples.used_store s' a
                                  Hrun))))
                 Hp).
Defined.

(** X16.  The dict the app assembles is always storable.  With the box ticked
    and a species found, the save step returns a new key and appends one row
    holding the file name, the time stamp, the health status, the two
    confidences and the percentage of this analysis; no [KeyError] or
    binding error can occur.  Without the tick, or without a species,
    nothing is written. *)
Theorem save_step_always_saves
        (json_dumps : py_value -> string) (str_int : Z -> string)
        (format_1f : Q -> string)
        (filename timestamp : string) (a : analysis) (s : store) :
  save_step json_dumps str_int format_1f false filename timestamp a s = (None, s) /\
  (r_species_info a = None ->
   save_step json_dumps str_int format_1f true filename timestamp a s = (None, s)) /\
  (forall info,
      r_species_info a = Some info ->
      exists row,
        save_step json_dumps str_int format_1f true filename timestamp a s
        = (Some (Done (new_id s)),
           {| species := species s;
              analyses := analyses s ++ [row];
              sequence := new_id s |}) /\
        a_id row = new_id s /\
        a_filename row = CText filename /\
        a_timestamp row = CText timestamp /\
        a_confidence row = CReal (r_species_confidence a) /\
        a_health_status row = CText (r_health_status a) /\
        a_health_confidence row = CReal (r_health_confidence a) /\
        a_bleaching_percentage row = CReal (r_bleaching_percentage a)).
Proof.
  split; [reflexivity|]. split.
  - intro Hnone. unfold save_step. now rewrite Hnone.
  - intros info Hinfo. unfold save_step. rewrite Hinfo.
    unfold save_analysis, analysis_data_of. simpl items. simpl item.
    destruct (get_or info "common_name" (SqlText "Unknown"));
      destruct (get_or info "family" (SqlText "Unknown"));
      destruct (get_or info "genus" (SqlText "Unknown"));
      simpl; eexists; (split; [reflexivity|]); repeat split.
Qed.

Lemma save_step_always_saves_witness :
  exists row,
    save_step MoreSamples.dumps (fun _ => "7") (fun _ => "6.7") true
              "reef.jpg" "2026-01-05T10:00:00"
              {| r_morphology := "Boulder"; r_features := [];
                 r_bleaching_percentage := 20 # 3; r_health_status := WATCH;
                 r_health_confidence := 60;
                 r_species_info := Some (species_info (4%Z, nth 3 corals (Build_coral "" "" "" "" "" "" "" "" 0 "")));
                 r_species_confidence := 85.5 |}
              MoreSamples.used_store
    = (Some (Done 6%Z),
       {| species := populated;
          analyses := analyses MoreSamples.used_store ++ [row];
          sequence := 6 |}) /\
    a_id row = 6%Z /\
    a_filename row = CText "reef.jpg" /\
    a_health_status row = CText WATCH.
Proof.
  destruct (proj2 (proj2 (save_step_always_saves
                            MoreSamples.dumps (fun _ => "7") (fun _ => "6.7")
                            "reef.jpg" "2026-01-05T10:00:00"
                            {| r_morphology := "Boulder"; r_features := [];
                               r_bleaching_percentage := 20 # 3;
                               r_health_status := WATCH;
                               r_health_confidence := 60;
                               r_species_info :=
                                 Some (species_info
                                         (4%Z, nth 3 corals
                                                   (Build_coral "" "" "" "" "" "" "" "" 0 "")));
                               r_species_confidence := 85.5 |}
                            MoreSamples.used_store))
                  _ eq_refl)
    as (row & Hsave & Hid & Hfile & _ & _ & Hstatus & _).
  exists row. split; [exact Hsave|].
  split; [exact Hid|]. split; [exact Hfile | exact Hstatus].
Defined.

End AppFacts.
